(** * ai_task: arbitration, transport, workflow and repository sync

    A shallow embedding of the client-side task-execution core of the
    ai_task repository and of the server-side data access it relies on,
    with the properties of the specification proved over it.

    Conventions.
    - Python [str] values are byte strings (UTF-8); case folding and
      whitespace are the ASCII ones.
    - A [datetime] is a count of microseconds, a [timedelta] a difference
      of two such counts; [total_seconds()] is the exact quotient by
      [10^6], so comparisons against an integer number of seconds are
      done on microseconds.
    - A database table with a unique index is a finite map on that index.
    - External effects (network, git, agent, clock) are explicit
      arguments or an explicit state that the functions thread. *)

From stdpp Require Import base gmap strings list pretty.
From Stdlib Require Import ZArith Lia String Ascii.

#[local] Set Warnings "-register-all".
Local Open Scope string_scope.
Local Open Scope Z_scope.

(** ** Python primitives used by the sources *)
Module Py.

(** Exceptions that the modelled code raises or lets through. *)
Inductive exn : Type :=
| Exception (msg : string)
| ValueError (msg : string)
| TypeError (msg : string)
| AttributeError (msg : string)
| KeyError (msg : string)
| ApiException (code : Z) (message : string).

(** [str(e)]; [ApiException.__init__] passes ["[{code}] {message}"] to
    [Exception]. *)
Definition str_exn (e : exn) : string :=
  match e with
  | Exception m | ValueError m | TypeError m | AttributeError m => m
  | KeyError m => "'" +:+ m +:+ "'"
  | ApiException c m => "[" +:+ pretty c +:+ "] " +:+ m
  end.

(** The outcome of a call: a value or a raised exception. *)
Inductive result (A : Type) : Type :=
| Ok (a : A)
| Raise (e : exn).
Arguments Ok {A} a.
Arguments Raise {A} e.

(** [len(s)]: code points, that is bytes that are not UTF-8
    continuation bytes. *)
Fixpoint len (s : string) : Z :=
  match s with
  | EmptyString => 0
  | String c r =>
      let n := nat_of_ascii c in
      (if ((128 <=? n)%nat && (n <=? 191)%nat)%bool then 0 else 1) + len r
  end.

Definition is_space (c : ascii) : bool :=
  let n := nat_of_ascii c in
  ((9 <=? n)%nat && (n <=? 13)%nat) || ((28 <=? n)%nat && (n <=? 32)%nat).

Fixpoint lstrip (s : string) : string :=
  match s with
  | String c r => if is_space c then lstrip r else s
  | EmptyString => EmptyString
  end.

Fixpoint rstrip (s : string) : string :=
  match s with
  | String c r =>
      match rstrip r with
      | EmptyString => if is_space c then EmptyString else String c EmptyString
      | r' => String c r'
      end
  | EmptyString => EmptyString
  end.

(** [s.strip()] *)
Definition strip (s : string) : string := rstrip (lstrip s).

Definition lower_ascii (c : ascii) : ascii :=
  let n := nat_of_ascii c in
  if ((65 <=? n)%nat && (n <=? 90)%nat)%bool then ascii_of_nat (n + 32) else c.

(** [s.lower()] *)
Fixpoint lower (s : string) : string :=
  match s with
  | String c r => String (lower_ascii c) (lower r)
  | EmptyString => EmptyString
  end.

Fixpoint startswith (p s : string) : bool :=
  match p, s with
  | EmptyString, _ => true
  | String a p', String b s' => if Ascii.eqb a b then startswith p' s' else false
  | String _ _, EmptyString => false
  end.

(** [needle in hay] *)
Fixpoint contains (needle hay : string) : bool :=
  startswith needle hay ||
  match hay with
  | String _ r => contains needle r
  | EmptyString => false
  end.

(** [bool(s)] for a string. *)
Definition truthy (s : string) : bool :=
  match s with EmptyString => false | _ => true end.

Definition digit_of (c : ascii) : option Z :=
  let n := nat_of_ascii c in
  if ((48 <=? n)%nat && (n <=? 57)%nat)%bool then Some (Z.of_nat n - 48) else None.

(** Digits with single underscores between them, as [int()] accepts. *)
Fixpoint int_digits (acc : Z) (after_digit : bool) (s : string) : option Z :=
  match s with
  | EmptyString => if after_digit then Some acc else None
  | String c r =>
      match digit_of c with
      | Some d => int_digits (10 * acc + d) true r
      | None =>
          if (Ascii.eqb c "_" && after_digit)%bool
          then match r with
               | EmptyString => None
               | _ => int_digits acc false r
               end
          else None
      end
  end.

(** [int(s)] on text: [None] stands for [ValueError]. *)
Definition int (s : string) : option Z :=
  match strip s with
  | String "-" r => Z.opp <$> int_digits 0 false r
  | String "+" r => int_digits 0 false r
  | r => int_digits 0 false r
  end.

End Py.


(** ** Decoded JSON values ([response.json()], the [flow] column) *)
Module Json.

(** Numbers are integers here; the modelled code never computes with a
    JSON float. A [dict] keeps insertion order. *)
Inductive json : Type :=
| JNull
| JBool (b : bool)
| JInt (z : Z)
| JStr (s : string)
| JArr (items : list json)
| JObj (fields : list (string * json)).

Definition dict := list (string * json).

(** [d.get(k)] *)
Fixpoint dict_get (k : string) (d : dict) : option json :=
  match d with
  | [] => None
  | (k', v) :: r => if decide (k' = k) then Some v else dict_get k r
  end.

(** [d.get(k, default)] *)
Definition dict_get_default (k : string) (default : json) (d : dict) : json :=
  match dict_get k d with Some v => v | None => default end.

(** [d[k] = v]: an existing key keeps its position. *)
Fixpoint dict_set (k : string) (v : json) (d : dict) : dict :=
  match d with
  | [] => [(k, v)]
  | (k', v') :: r =>
      if decide (k' = k) then (k, v) :: r else (k', v') :: dict_set k v r
  end.

(** [type(v).__name__] *)
Definition type_name (v : json) : string :=
  match v with
  | JNull => "NoneType"
  | JBool _ => "bool"
  | JInt _ => "int"
  | JStr _ => "str"
  | JArr _ => "list"
  | JObj _ => "dict"
  end.

(** The [AttributeError] of [v.get] on a value that is not a [dict]. *)
Definition no_get (v : json) : Py.exn :=
  Py.AttributeError ("'" +:+ type_name v +:+ "' object has no attribute 'get'").

(** [bool(v)] *)
Definition truthy (v : json) : bool :=
  match v with
  | JNull => false
  | JBool b => b
  | JInt z => negb (z =? 0)
  | JStr s => Py.truthy s
  | JArr l => match l with [] => false | _ => true end
  | JObj d => match d with [] => false | _ => true end
  end.

(** [str(v)]: a string is itself; the text of any other value is
    Python's [repr], taken as a parameter. *)
Definition py_str (repr : json -> string) (v : json) : string :=
  match v with
  | JStr s => s
  | _ => repr v
  end.

End Json.

(** ** apiserver/dao/heartbeat_dao.py *)
Module HeartbeatDao.

(** A row of [ai_task_client_heartbeats]; [last_sync_at] is nullable. *)
Record ClientHeartbeat : Type := {
  instance_uuid : string;
  last_sync_at : option Z
}.

(** The table, indexed by its unique key [(user_id, client_id)]. *)
Abbreviation table := (gmap (Z * Z) ClientHeartbeat).

(** [timedelta(seconds=n)] in microseconds. *)
Definition seconds (n : Z) : Z := n * 1000000.

Definition cooldown_message (remaining : Z) : string :=
  "客户端实例变更，请等待" +:+ pretty remaining +:+ "秒后再重试客户端".

Definition none_minus_error : Py.exn :=
  Py.TypeError "unsupported operand type(s) for -: 'datetime.datetime' and 'NoneType'".

(** [update_heartbeat]; [now] is the value of [datetime.now()]. A raised
    exception rolls the session back. *)
Definition update_heartbeat (tbl : table) (user_id client_id : Z)
    (instance_uuid' : string) (instance_change_cooldown_seconds : Z) (now : Z)
  : table * Py.result (bool * string) :=
  match tbl !! (user_id, client_id) with
  | None =>
      (<[(user_id, client_id) :=
           {| instance_uuid := instance_uuid'; last_sync_at := Some now |}]> tbl,
       Py.Ok (true, ""))
  | Some heartbeat =>
      if decide (instance_uuid heartbeat = instance_uuid') then
        (<[(user_id, client_id) :=
             {| instance_uuid := instance_uuid heartbeat; last_sync_at := Some now |}]> tbl,
         Py.Ok (true, ""))
      else
        match last_sync_at heartbeat with
        | None => (tbl, Py.Raise none_minus_error)
        | Some last =>
            let time_since_last := now - last in
            if seconds instance_change_cooldown_seconds <=? time_since_last then
              (<[(user_id, client_id) :=
                   {| instance_uuid := instance_uuid'; last_sync_at := Some now |}]> tbl,
               Py.Ok (true, ""))
            else
              let remaining :=
                Z.quot (seconds instance_change_cooldown_seconds - time_since_last) 1000000 in
              (tbl, Py.Ok (false, cooldown_message remaining))
        end
  end.

(** [check_instance_uuid_valid] *)
Definition check_instance_uuid_valid (tbl : table) (user_id client_id : Z)
    (instance_uuid' : string) (cooldown_seconds : Z) (now : Z) : bool :=
  match tbl !! (user_id, client_id) with
  | None => true
  | Some heartbeat =>
      if decide (instance_uuid heartbeat = instance_uuid') then true
      else
        match last_sync_at heartbeat with
        | Some last =>
            let time_diff := now - last in
            if time_diff <? seconds cooldown_seconds then false else true
        | None => true
        end
  end.

(** The arbitration decision in the words of the specification
    (section 4.1): a different token wins when
    [now - lastSeen > cooldownSeconds], and is rejected otherwise. *)
Inductive verdict : Type := ACCEPT | REJECT.

Definition acceptHeartbeat_spec (tbl : table) (owner clientId : Z)
    (instanceToken : string) (cooldownSeconds : Z) (now : Z) : table * verdict :=
  match tbl !! (owner, clientId) with
  | None =>
      (<[(owner, clientId) :=
           {| instance_uuid := instanceToken; last_sync_at := Some now |}]> tbl, ACCEPT)
  | Some lease =>
      if decide (instance_uuid lease = instanceToken) then
        (<[(owner, clientId) :=
             {| instance_uuid := instanceToken; last_sync_at := Some now |}]> tbl, ACCEPT)
      else
        match last_sync_at lease with
        | Some lastSeen =>
            if seconds cooldownSeconds <? now - lastSeen then
              (<[(owner, clientId) :=
                   {| instance_uuid := instanceToken; last_sync_at := Some now |}]> tbl, ACCEPT)
            else (tbl, REJECT)
        | None => (tbl, REJECT)
        end
  end.

(** A series of heartbeats of one instance, at the given times. *)
Fixpoint heartbeats (tbl : table) (user_id client_id : Z) (instance_uuid' : string)
    (cooldown : Z) (times : list Z) : table * list (Py.result (bool * string)) :=
  match times with
  | [] => (tbl, [])
  | now :: later =>
      let '(tbl1, r) := update_heartbeat tbl user_id client_id instance_uuid' cooldown now in
      let '(tbl2, rs) := heartbeats tbl1 user_id client_id instance_uuid' cooldown later in
      (tbl2, r :: rs)
  end.

(** The decision a call of [update_heartbeat] reports. *)
Definition verdict_of (r : Py.result (bool * string)) : option verdict :=
  match r with
  | Py.Ok (true, _) => Some ACCEPT
  | Py.Ok (false, _) => Some REJECT
  | Py.Raise _ => None
  end.

Definition lease (token : string) (seen : Z) : ClientHeartbeat :=
  {| instance_uuid := token; last_sync_at := Some seen |}.

End HeartbeatDao.

(** ** apiserver/routes/auth_plugin.py *)
Module AuthPlugin.

(** The user row a secret or a session token resolves to. *)
Record user_info : Type := { id : Z }.

(** The request headers that [login_required] reads; [None] is an absent
    header. *)
Record request : Type := {
  X_Client_Secret : option string;
  X_Instance_UUID : option string;
  X_Client_ID : option string;
  Authorization : option string
}.

(** The user store: [get_user_by_secret], and
    [session_dao.get_session_by_token(token).user_id] followed by
    [user_dao.get_user_by_id]; both may raise. *)
Record backend : Type := {
  get_user_by_secret : string -> Py.result (option user_info);
  get_user_by_token : string -> Py.result (option user_info)
}.

(** A response: status code and the [message] of its JSON body. *)
Definition response : Type := Z * string.

(** [bool(h)] for a header value. *)
Definition present (h : option string) : bool :=
  match h with Some s => Py.truthy s | None => false end.

(** [auth_header.split(' ')[1]] for a header that starts with
    ['Bearer ']: the text between the first and the second space. *)
Fixpoint until_space (s : string) : string :=
  match s with
  | EmptyString => EmptyString
  | String c r => if Ascii.eqb c " " then EmptyString else String c (until_space r)
  end.

Definition bearer_token (auth_header : string) : string :=
  until_space (String.substring 7 (String.length auth_header - 7) auth_header).

(** The cooldown [login_required] checks with: it passes none, so the
    default of [check_instance_uuid_valid] applies. *)
Definition gate_cooldown_seconds : Z := 60.

(** The instance check of the secret path: [true] when the request is
    to be refused. A client id that is not an integer skips the check. *)
Definition instance_conflict (tbl : HeartbeatDao.table) (now : Z)
    (user : user_info) (req : request) : bool :=
  match X_Instance_UUID req, X_Client_ID req with
  | Some instance_uuid, Some client_id_str =>
      if (Py.truthy instance_uuid && Py.truthy client_id_str)%bool then
        match Py.int client_id_str with
        | Some client_id =>
            negb (HeartbeatDao.check_instance_uuid_valid tbl (id user) client_id
                    instance_uuid gate_cooldown_seconds now)
        | None => false
        end
      else false
  | _, _ => false
  end.

(** [login_required(f)] applied to a request. The first component
    records whether the wrapped handler [f] was called. An exception of
    the handler is caught on the secret path and propagates on the
    token path. *)
Definition login_required (be : backend) (tbl : HeartbeatDao.table) (now : Z)
    (f : user_info -> Py.result response) (req : request)
  : bool * Py.result response :=
  if present (X_Client_Secret req) then
    match get_user_by_secret be (default "" (X_Client_Secret req)) with
    | Py.Raise _ => (false, Py.Ok (401, "秘钥验证失败"))
    | Py.Ok None => (false, Py.Ok (401, "无效的秘钥"))
    | Py.Ok (Some user) =>
        if instance_conflict tbl now user req then
          (false, Py.Ok (409, "重复客户端，请确认只有一个客户端实例在运行，或者等待一分钟后重试"))
        else
          match f user with
          | Py.Ok r => (true, Py.Ok r)
          | Py.Raise _ => (true, Py.Ok (401, "秘钥验证失败"))
          end
    end
  else
    match Authorization req with
    | None => (false, Py.Ok (401, "缺少认证token"))
    | Some auth_header =>
        if negb (Py.truthy auth_header) then (false, Py.Ok (401, "缺少认证token"))
        else if negb (Py.startswith "Bearer " auth_header) then
          (false, Py.Ok (401, "Token格式错误"))
        else
          let token := bearer_token auth_header in
          if negb (Py.truthy token) then (false, Py.Ok (401, "缺少认证token"))
          else
            match get_user_by_token be token with
            | Py.Raise _ => (false, Py.Ok (401, "Token验证失败"))
            | Py.Ok None => (false, Py.Ok (401, "无效的认证信息"))
            | Py.Ok (Some user) => (true, f user)
            end
    end.

Definition conflict_response : response :=
  (409, "重复客户端，请确认只有一个客户端实例在运行，或者等待一分钟后重试").

End AuthPlugin.

(** ** apiserver/dao/task_dao.py, service/task_service.py, routes/task.py *)
Module TaskDao.

Import Json.

(** A row of [ai_task_tasks]; [flow] and [flow_status] are nullable,
    [updated_at] is set by the database on every update. *)
Record Task : Type := {
  user_id : Z;
  key : string;
  title : string;
  status : string;
  flow : option json;
  flow_status : option string;
  updated_at : Z
}.

(** The table, indexed by its primary key [id]. *)
Abbreviation table := (gmap Z Task).

(** The columns an update statement sets. *)
Definition apply_update (flow' : option json) (flow_status' : option string)
    (now : Z) (t : Task) : Task :=
  {| user_id := user_id t;
     key := key t;
     title := title t;
     status := status t;
     flow := match flow' with Some f => Some f | None => flow t end;
     flow_status := match flow_status' with Some s => Some s | None => flow_status t end;
     updated_at := now |}.

(** [get_task_by_id] *)
Definition get_task_by_id (tbl : table) (task_id user_id' : Z) : option Task :=
  match tbl !! task_id with
  | Some t => if decide (user_id t = user_id') then Some t else None
  | None => None
  end.

(** [update_task_flow]: the new table and [affected > 0]. *)
Definition update_task_flow (tbl : table) (now : Z) (task_id user_id' : Z)
    (flow' : option json) (flow_status' : option string) : table * bool :=
  match flow', flow_status' with
  | None, None => (tbl, true)
  | _, _ =>
      match get_task_by_id tbl task_id user_id' with
      | Some t => (<[task_id := apply_update flow' flow_status' now t]> tbl, true)
      | None => (tbl, false)
      end
  end.

(** Exceptions of the service layer. *)
Inductive service_error : Type :=
| TaskNotFoundException (msg : string)
| TaskValidationException (msg : string).

(** [task_service.update_flow] *)
Definition update_flow (tbl : table) (now : Z) (task_id user_id' : Z)
    (flow' : option json) (flow_status' : option string)
  : table * option service_error :=
  match get_task_by_id tbl task_id user_id' with
  | None => (tbl, Some (TaskNotFoundException "任务不存在"))
  | Some _ =>
      let flow_check :=
        match flow' with
        | None => None
        | Some (JObj d) =>
            match dict_get "nodes" d with
            | Some (JArr _) | None => None
            | Some _ => Some (TaskValidationException "流程节点必须是数组类型")
            end
        | Some _ => Some (TaskValidationException "流程数据必须是对象类型")
        end in
      match flow_check with
      | Some e => (tbl, Some e)
      | None =>
          match flow_status' with
          | Some s =>
              if 32 <? Py.len s
              then (tbl, Some (TaskValidationException "流程状态长度不能超过32个字符"))
              else (fst (update_task_flow tbl now task_id user_id' flow' flow_status'), None)
          | None => (fst (update_task_flow tbl now task_id user_id' flow' flow_status'), None)
          end
      end
  end.

(** [data.get(k)] on a decoded request body: [null] and an absent key
    both give [None]. *)
Definition body_field (k : string) (data : dict) : option json :=
  match dict_get k data with
  | Some JNull | None => None
  | Some v => Some v
  end.

(** The columns no flow update writes. *)
Definition identity_columns (t : Task) : Z * string * string * string :=
  (user_id t, key t, title t, status t).

End TaskDao.

(** ** clients/rpc/apiserver_rpc.py *)
Module Rpc.

Import Json.

(** What [response.json()] gives: the decoded value, or a decoding
    error with its text. *)
Inductive body : Type :=
| Parsed (data : json)
| Unparsable (json_err : string).

(** What one [requests.request] call gives: a raised
    [requests.RequestException] with its text, or a response. *)
Inductive attempt : Type :=
| RequestException (e : string)
| Response (status_code : Z) (b : body).

Record sent_request : Type := {
  method : string;
  endpoint : string;
  json_data : option json;
  params : option dict
}.

(** The network as the client sees it: the outcome of the n-th call of
    [requests.request], the requests made so far (latest first) and the
    [time.sleep] calls made so far (latest first). *)
Record net : Type := {
  outcome : nat -> attempt;
  sent : list sent_request;
  slept : list Z
}.

Definition send (r : sent_request) (n : net) : attempt * net :=
  (outcome n (List.length (sent n)),
   {| outcome := outcome n; sent := r :: sent n; slept := slept n |}).

Definition sleep (s : Z) (n : net) : net :=
  {| outcome := outcome n; sent := sent n; slept := s :: slept n |}.

Definition max_network_retries : nat := 10.

(** [data.get('message', '请求失败')], rendered as [ApiException] renders
    it; a value that is not a [dict] has no [get]. *)
Definition error_message (repr : json -> string) (data : json) : Py.result string :=
  match data with
  | JObj d => Py.Ok (py_str repr (dict_get_default "message" (JStr "请求失败") d))
  | v => Py.Raise (no_get v)
  end.

(** What [_request] does with a response. *)
Definition on_response (repr : json -> string) (status_code : Z) (b : body)
  : Py.result json :=
  match b with
  | Unparsable json_err =>
      Py.Raise (Py.ApiException status_code ("服务器返回非 JSON 响应: " +:+ json_err))
  | Parsed data =>
      if 400 <=? status_code then
        match error_message repr data with
        | Py.Ok m => Py.Raise (Py.ApiException status_code m)
        | Py.Raise e => Py.Raise e
        end
      else Py.Ok data
  end.

(** [_request], by recursion on the retries that remain
    ([max_network_retries - _network_retry_count]). *)
Fixpoint request_retrying (repr : json -> string) (retries_left : nat)
    (r : sent_request) (n : net) : net * Py.result json :=
  let '(a, n1) := send r n in
  match a with
  | Response status_code b => (n1, on_response repr status_code b)
  | RequestException e =>
      match retries_left with
      | O => (n1, Py.Raise (Py.ApiException 0 ("请求异常: " +:+ e)))
      | S k => request_retrying repr k r (sleep 10 n1)
      end
  end.

Definition _request (repr : json -> string) (r : sent_request)
    (_network_retry_count : nat) (n : net) : net * Py.result json :=
  request_retrying repr (max_network_retries - _network_retry_count) r n.

Definition opt_json {A : Type} (f : A -> json) (o : option A) : json :=
  match o with Some a => f a | None => JNull end.

(** The request [update_task_flow] makes. *)
Definition flow_request (task_id : Z) (flow_status : option string)
    (flow : option dict) : sent_request :=
  {| method := "PUT";
     endpoint := "/api/task/" +:+ pretty task_id +:+ "/flow";
     json_data := Some (JObj [("flow_status", opt_json JStr flow_status);
                              ("flow", opt_json JObj flow)]);
     params := None |}.

(** [ApiServerRpc.update_task_flow] *)
Definition update_task_flow (repr : json -> string) (task_id : Z)
    (flow_status : option string) (flow : option dict) (n : net)
  : net * Py.result bool :=
  match _request repr (flow_request task_id flow_status flow) 0 n with
  | (n', Py.Ok _) => (n', Py.Ok true)
  | (n', Py.Raise (Py.ApiException _ _)) => (n', Py.Ok false)
  | (n', Py.Raise e) => (n', Py.Raise e)
  end.

(** The net after [k] more requests [r] and [j] more sleeps of 10 s. *)
Definition after (n : net) (r : sent_request) (k j : nat) : net :=
  {| outcome := outcome n;
     sent := repeat r k ++ sent n;
     slept := repeat 10 j ++ slept n |}.

(** The (i+1)-th next call of [requests.request] raises. *)
Definition raises_at (n : net) (i : nat) (e : string) : Prop :=
  outcome n (List.length (sent n) + i)%nat = RequestException e.

(** A network that answers as listed and refuses connections after. *)
Definition scripted (answers : list attempt) : net :=
  {| outcome := fun i => nth i answers (RequestException "Connection refused");
     sent := [];
     slept := [] |}.

End Rpc.

(** ** The machine a worker runs on *)
Module Host.

Import Json.

(** [rpc.apiserver_rpc.Task], with the fields the workflow reads. *)
Record Task : Type := {
  id : Z;
  key : string;
  title : string;
  desc : string;
  flow : dict;
  flow_status : string
}.

(** What [subprocess.run(cmd, cwd=..., capture_output=True, text=True,
    timeout=...)] gives: a completed process, [TimeoutExpired], or any
    other exception with its text. *)
Inductive proc : Type :=
| Completed (returncode : Z) (stdout stderr : string)
| TimeoutExpired
| RunError (e : string).

(** Every call that leaves the Python process, in the order made
    (latest first in a trail). *)
Inductive effect : Type :=
| GitCommand (cwd : string) (cmd : list string)
| AgentPrompt (trace_id cwd prompt : string) (json_parse : bool)
| CopyTree (src dst : string)
| RpcGetTask (task_id : Z)
| RpcUpdateTaskFlow (task_id : Z) (flow_status : option string) (flow : option dict)
| RpcSyncConfig
| Stage (name : string).

(** The primitives, over a state [S] of everything outside the process:
    file system, repositories, agent, server. *)
Record host (S : Type) : Type := {
  subprocess_run : S -> string -> list string -> S * proc;
  path_exists : S -> string -> bool;
  (** [BaseAgent.run_prompt]: [(success, reply)] *)
  run_prompt : S -> string -> string -> string -> bool -> S * (bool * json);
  copytree : S -> string -> string -> S * option Py.exn;
  (** [ApiServerRpc.get_task], [update_task_flow], [ClientConfig.sync_config] *)
  get_task : S -> Z -> S * Py.result Task;
  update_task_flow : S -> Z -> option string -> option dict -> S * Py.result bool;
  sync_config : S -> S * option Py.exn;
  (** Python's [repr] *)
  repr : json -> string
}.
Arguments subprocess_run {S} h.
Arguments path_exists {S} h.
Arguments run_prompt {S} h.
Arguments copytree {S} h.
Arguments get_task {S} h.
Arguments update_task_flow {S} h.
Arguments sync_config {S} h.
Arguments repr {S} h.

(** The outside state together with the trail of calls made. *)
Record world (S : Type) : Type := {
  st : S;
  trail : list effect
}.
Arguments st {S} w.
Arguments trail {S} w.

Definition record {S : Type} (e : effect) (s : S) (w : world S) : world S :=
  {| st := s; trail := e :: trail w |}.

(** [os.path.join(a, b)] *)
Definition path_join (a b : string) : string :=
  if Py.startswith "/" b then b
  else match a with
       | EmptyString => b
       | _ => if Py.startswith "/" (String.rev a) then a +:+ b else a +:+ "/" +:+ b
       end.

End Host.

(** ** clients/utils/git_utils.py *)
Module GitUtils.

Import Host.

Record GitResult : Type := {
  success : bool;
  message : string;
  default_branch : string;
  diff_message : string
}.

Definition succeeded (msg : string) : GitResult :=
  {| success := true; message := msg; default_branch := ""; diff_message := "" |}.

Definition failed (msg : string) : GitResult :=
  {| success := false; message := msg; default_branch := ""; diff_message := "" |}.

(** What [_run_git_command] makes of the outcome of [subprocess.run]. *)
Definition result_of (cmd : list string) (p : proc) : GitResult :=
  match p with
  | Completed returncode stdout stderr =>
      if returncode =? 0 then
        succeeded (if Py.truthy stdout then Py.strip stdout else "")
      else
        failed (if Py.truthy stderr then Py.strip stderr else Py.strip stdout)
  | TimeoutExpired => failed ("命令超时: " +:+ String.concat " " cmd)
  | RunError e => failed ("执行命令异常: " +:+ e)
  end.

Section WithHost.

Context {S : Type} (h : host S).

(** [_run_git_command] *)
Definition _run_git_command (cmd : list string) (cwd : string) (w : world S)
  : world S * GitResult :=
  let '(s, p) := subprocess_run h (st w) cwd cmd in
  (record (GitCommand cwd cmd) s w, result_of cmd p).

(** A step whose failure ends the operation with a prefixed message. *)
Definition step (cmd : list string) (cwd : string) (prefix : string)
    (k : GitResult -> world S -> world S * GitResult) (w : world S)
  : world S * GitResult :=
  let '(w1, r) := _run_git_command cmd cwd w in
  if success r then k r w1 else (w1, failed (prefix +:+ message r)).

(** [_check_remote_branch_exists] *)
Definition _check_remote_branch_exists (repo_dir branch : string) (w : world S)
  : world S * bool :=
  let '(w1, r) := _run_git_command ["git"; "ls-remote"; "--heads"; "origin"; branch] repo_dir w in
  (w1, success r && Py.contains branch (message r)).

(** [_check_local_branch_exists] *)
Definition _check_local_branch_exists (repo_dir branch : string) (w : world S)
  : world S * bool :=
  let '(w1, r) := _run_git_command ["git"; "branch"; "--list"; branch] repo_dir w in
  (w1, success r && Py.contains branch (message r)).

(** The part of [sync_and_rebase_branch] from the rebase on. *)
Definition rebase_and_push (repo_dir dev_branch default_branch' : string)
    (w : world S) : world S * GitResult :=
  let '(w1, rebase_result) :=
    _run_git_command ["git"; "rebase"; "origin/" +:+ default_branch'] repo_dir w in
  if negb (success rebase_result) then
    let '(w2, _) := _run_git_command ["git"; "rebase"; "--abort"] repo_dir w1 in
    (w2, failed "rebase conflict")
  else
    step ["git"; "push"; "-f"; "origin"; dev_branch] repo_dir "push 失败: "
      (fun _ w3 =>
         (w3, succeeded ("分支 " +:+ dev_branch +:+ " 已成功 rebase 并推送到云端")))
      w1.

(** [sync_and_rebase_branch] *)
Definition sync_and_rebase_branch (repo_dir dev_branch default_branch' : string)
    (w : world S) : world S * GitResult :=
  if negb (path_exists h (st w) repo_dir) then
    (w, failed ("仓库目录不存在: " +:+ repo_dir))
  else if negb (path_exists h (st w) (path_join repo_dir ".git")) then
    (w, failed ("目录不是有效的 Git 仓库: " +:+ repo_dir))
  else
    step ["git"; "fetch"; "--all"; "--prune"] repo_dir "fetch 远端失败: "
      (fun _ w1 =>
         let '(w2, remote_branch_exists) :=
           _check_remote_branch_exists repo_dir dev_branch w1 in
         if remote_branch_exists then
           step ["git"; "checkout"; dev_branch] repo_dir
             ("切换到分支 " +:+ dev_branch +:+ " 失败: ")
             (fun _ =>
                step ["git"; "reset"; "--hard"; "origin/" +:+ dev_branch] repo_dir
                  "同步到云端分支失败: "
                  (fun _ => rebase_and_push repo_dir dev_branch default_branch'))
             w2
         else
           step ["git"; "checkout"; default_branch'] repo_dir
             ("切换到主分支 " +:+ default_branch' +:+ " 失败: ")
             (fun _ =>
                step ["git"; "reset"; "--hard"; "origin/" +:+ default_branch'] repo_dir
                  "同步主分支失败: "
                  (fun _ w3 =>
                     let '(w4, local_branch_exists) :=
                       _check_local_branch_exists repo_dir dev_branch w3 in
                     let w5 :=
                       if local_branch_exists
                       then fst (_run_git_command ["git"; "branch"; "-D"; dev_branch] repo_dir w4)
                       else w4 in
                     step ["git"; "checkout"; "-b"; dev_branch] repo_dir
                       ("创建分支 " +:+ dev_branch +:+ " 失败: ")
                       (fun _ => rebase_and_push repo_dir dev_branch default_branch')
                       w5))
             w2)
      w.

(** The text of the [ValueError] of [int(s)]. *)
Definition int_error (s : string) : string :=
  "invalid literal for int() with base 10: " +:+ repr h (Json.JStr s).

(** [_check_diff_with_default_branch]; it raises when the count that
    [git rev-list] printed is not an integer. *)
Definition _check_diff_with_default_branch (repo_dir default_branch' : string)
    (w : world S) : world S * Py.result string :=
  let '(w1, branch_result) :=
    _run_git_command ["git"; "rev-parse"; "--abbrev-ref"; "HEAD"] repo_dir w in
  if negb (success branch_result) then (w1, Py.Ok "")
  else
    let current_branch := Py.strip (message branch_result) in
    if decide (current_branch = default_branch') then (w1, Py.Ok "")
    else
      let '(w2, diff_stat_result) :=
        _run_git_command
          ["git"; "rev-list"; "--count";
           "origin/" +:+ default_branch' +:+ ".." +:+ current_branch] repo_dir w1 in
      if success diff_stat_result then
        match Py.int (Py.strip (message diff_stat_result)) with
        | None =>
            (w2, Py.Raise (Py.ValueError (int_error (Py.strip (message diff_stat_result)))))
        | Some ahead =>
            if ahead =? 0 then (w2, Py.Ok "")
            else (w2, Py.Ok ("有 " +:+ pretty ahead +:+ " 个提交需要合并到 " +:+ default_branch'))
        end
      else (w2, Py.Ok "").

(** The end of both branches of [commit_and_push_changes]: the
    ahead-count, and the handler of the enclosing [try]. *)
Definition report_with_diff (repo_dir default_branch' msg : string) (w : world S)
  : world S * GitResult :=
  match _check_diff_with_default_branch repo_dir default_branch' w with
  | (w1, Py.Ok diff) =>
      (w1, {| success := true; message := msg; default_branch := "";
              diff_message := diff |})
  | (w1, Py.Raise e) => (w1, failed ("操作异常: " +:+ Py.str_exn e))
  end.

(** [commit_and_push_changes] *)
Definition commit_and_push_changes (repo_dir commit_msg default_branch' : string)
    (w : world S) : world S * GitResult :=
  if negb (path_exists h (st w) repo_dir) then
    (w, failed ("仓库目录不存在: " +:+ repo_dir))
  else if negb (path_exists h (st w) (path_join repo_dir ".git")) then
    (w, failed ("目录不是有效的 Git 仓库: " +:+ repo_dir))
  else
    step ["git"; "status"; "--porcelain"] repo_dir "检查仓库状态失败: "
      (fun status_result w1 =>
         if negb (Py.truthy (Py.strip (message status_result))) then
           report_with_diff repo_dir default_branch' "没有需要提交的修改" w1
         else
           step ["git"; "add"; "-A"] repo_dir "添加文件到暂存区失败: "
             (fun _ =>
                step ["git"; "commit"; "-m"; commit_msg] repo_dir "提交失败: "
                  (fun _ =>
                     step ["git"; "rev-parse"; "--abbrev-ref"; "HEAD"] repo_dir
                       "获取当前分支失败: "
                       (fun branch_result =>
                          let current_branch := Py.strip (message branch_result) in
                          step ["git"; "push"; "origin"; current_branch] repo_dir
                            "推送失败: "
                            (fun _ =>
                               report_with_diff repo_dir default_branch'
                                 ("提交并推送成功: " +:+ current_branch)))))
             w1)
      w.

(** *** One working copy: the commands run in it and what they tell *)
Section Repo.

Variables repo_dir dev_branch default_branch' : string.

Implicit Types (w : world S) (s : S) (x : world S * GitResult).

Definition status_cmd : list string := ["git"; "status"; "--porcelain"].
Definition rev_parse_cmd : list string := ["git"; "rev-parse"; "--abbrev-ref"; "HEAD"].
Definition rev_list_cmd (range : string) : list string :=
  ["git"; "rev-list"; "--count"; range].
Definition push_cmd (branch : string) : list string := ["git"; "push"; "origin"; branch].
Definition commit_cmd (msg : string) : list string := ["git"; "commit"; "-m"; msg].

(** One git command: the state after it, and its result. *)
Definition next s (cmd : list string) : S := (subprocess_run h s repo_dir cmd).1.
Definition answer s (cmd : list string) : GitResult :=
  result_of cmd (subprocess_run h s repo_dir cmd).2.

(** The working copy is there and [git status --porcelain] succeeds
    and reports no changes. *)
Definition clean_at s : Prop :=
  path_exists h s repo_dir = true
  /\ path_exists h s (path_join repo_dir ".git") = true
  /\ success (answer s status_cmd) = true
  /\ Py.strip (message (answer s status_cmd)) = "".

(** [git rev-list --count] prints an integer when it succeeds. *)
Definition counts_are_integers : Prop :=
  forall s range,
    success (answer s (rev_list_cmd range)) = true ->
    is_Some (Py.int (Py.strip (message (answer s (rev_list_cmd range))))).

(** What the ahead-count report adds to the trail: the branch query,
    and the count when the branch is not the default one. *)
Definition report_trail s : list effect :=
  let branch := answer s rev_parse_cmd in
  if success branch then
    if decide (Py.strip (message branch) = default_branch') then
      [GitCommand repo_dir rev_parse_cmd]
    else
      [GitCommand repo_dir
         (rev_list_cmd ("origin/" +:+ default_branch' +:+ ".." +:+ Py.strip (message branch)));
       GitCommand repo_dir rev_parse_cmd]
  else [GitCommand repo_dir rev_parse_cmd].

Definition report_state s : S :=
  let branch := answer s rev_parse_cmd in
  if success branch then
    if decide (Py.strip (message branch) = default_branch') then next s rev_parse_cmd
    else next (next s rev_parse_cmd)
           (rev_list_cmd ("origin/" +:+ default_branch' +:+ ".." +:+ Py.strip (message branch)))
  else next s rev_parse_cmd.

(** The ahead-count is only reported. *)
Definition ahead_report (diff : string) : Prop :=
  diff = "" \/ exists ahead : Z,
    ahead <> 0 /\ diff = "有 " +:+ pretty ahead +:+ " 个提交需要合并到 " +:+ default_branch'.

(** What the operation relies on from git: the queries it makes and a
    plain push leave a clean working copy clean, and a commit that
    succeeds leaves it clean. *)
Definition git_contract : Prop :=
  (forall s cmd,
      cmd = status_cmd \/ cmd = rev_parse_cmd
      \/ (exists range, cmd = rev_list_cmd range) \/ (exists branch, cmd = push_cmd branch) ->
      clean_at s -> clean_at (next s cmd))
  /\ (forall s msg,
        success (answer s (commit_cmd msg)) = true -> clean_at (next s (commit_cmd msg))).

(** The result of a call that found nothing to commit, from world [w]. *)
Definition nothing_to_commit commit_msg w : Prop :=
  exists diff,
    commit_and_push_changes repo_dir commit_msg default_branch' w
    = ({| st := report_state (next (st w) status_cmd);
          trail := (report_trail (next (st w) status_cmd)
                    ++ GitCommand repo_dir status_cmd :: trail w)%list |},
       {| success := true; message := "没有需要提交的修改"; default_branch := "";
          diff_message := diff |})
    /\ ahead_report diff.

Definition rebase_cmd : list string := ["git"; "rebase"; "origin/" +:+ default_branch'].
Definition abort_cmd : list string := ["git"; "rebase"; "--abort"].
Definition force_push_cmd : list string := ["git"; "push"; "-f"; "origin"; dev_branch].

(** The rebase was tried, failed and was aborted, and the result is the
    conflict signal. *)
Definition conflict_signalled x : Prop :=
  x.2 = failed "rebase conflict"
  /\ exists w, success (answer (st w) rebase_cmd) = false
       /\ trail x.1 = GitCommand repo_dir abort_cmd :: GitCommand repo_dir rebase_cmd :: trail w.

(** The rebase succeeded and the branch was force-pushed; the push
    decides the result. *)
Definition force_pushed x : Prop :=
  exists w, success (answer (st w) rebase_cmd) = true
    /\ trail x.1 = GitCommand repo_dir force_push_cmd :: GitCommand repo_dir rebase_cmd :: trail w
    /\ x.2 = let push := answer (next (st w) rebase_cmd) force_push_cmd in
             if success push
             then succeeded ("分支 " +:+ dev_branch +:+ " 已成功 rebase 并推送到云端")
             else failed ("push 失败: " +:+ message push).

(** Any other failure: its message does not begin like the
    conflict signal. *)
Definition ordinary_failure x : Prop :=
  success x.2 = false /\ Py.startswith "r" (message x.2) = false.

Definition outcome x : Prop :=
  conflict_signalled x \/ force_pushed x \/ ordinary_failure x.

End Repo.

End WithHost.

End GitUtils.

(** ** clients/worker: base_node.py, code_develop_node.py, task_worker.py *)
Module Worker.

Import Json Host.

Section WithHost.

Context {S : Type} (h : host S).

(** A method of a node: it reads and mutates [self.task] and the
    outside world, and returns or raises. *)
Definition M (A : Type) : Type := Task -> world S -> world S * Task * Py.result A.

Definition ret {A : Type} (a : A) : M A := fun t w => (w, t, Py.Ok a).

Definition raise {A : Type} (e : Py.exn) : M A := fun t w => (w, t, Py.Raise e).

Definition bind {A B : Type} (m : M A) (k : A -> M B) : M B :=
  fun t w =>
    match m t w with
    | (w1, t1, Py.Ok a) => k a t1 w1
    | (w1, t1, Py.Raise e) => (w1, t1, Py.Raise e)
    end.

Notation "x <- m ;; k" := (bind m (fun x => k))
  (at level 100, m at level 99, k at level 200, right associativity).
Notation "m ;;; k" := (bind m (fun _ => k))
  (at level 100, k at level 200, right associativity).

(** [self.client_config.apiserver_rpc.update_task_flow(...)] *)
Definition rpc_update_task_flow (task_id : Z) (flow_status' : option string)
    (flow' : option dict) : M bool :=
  fun t w =>
    let '(s, r) := update_task_flow h (st w) task_id flow_status' flow' in
    (record (RpcUpdateTaskFlow task_id flow_status' flow') s w, t, r).

(** An abstract method, announced on the trail under its name. *)
Definition staged (name : string) (m : M unit) : M unit :=
  fun t w => m t (record (Stage name) (st w) w).

(** The abstract methods of [BaseNode]. *)
Record node_impl : Type := {
  node_name : string;
  execute_for_pending : M unit;
  execute_for_reviewed : M unit;
  execute_for_revising : M unit;
  before_execute : M unit;
  after_execute : M unit
}.

(** [BaseNode._execute_and_persist] *)
Definition _execute_and_persist (impl : node_impl)
    (current_status executing_status default_next_status : string)
    (executor_name : string) (main_executor : M unit) : M unit :=
  (if decide (current_status = executing_status) then ret true
   else fun t => rpc_update_task_flow (id t) (Some executing_status) None t) ;;;
  staged "before_execute" (before_execute impl) ;;;
  staged executor_name main_executor ;;;
  staged "after_execute" (after_execute impl) ;;;
  (fun t => rpc_update_task_flow (id t) (Some default_next_status) (Some (flow t)) t) ;;;
  ret tt.

(** [BaseNode.execute] *)
Definition execute (impl : node_impl) : M unit :=
  fun t =>
    let flow_status' := flow_status t in
    if (bool_decide (flow_status' = "pending") || bool_decide (flow_status' = "running"))%bool then
      _execute_and_persist impl flow_status' "running" "reviewing"
        "execute_for_pending" (execute_for_pending impl) t
    else if bool_decide (flow_status' = "revising") then
      _execute_and_persist impl flow_status' "revising" "reviewing"
        "execute_for_revising" (execute_for_revising impl) t
    else if bool_decide (flow_status' = "reviewed") then
      _execute_and_persist impl flow_status' "reviewed" "done"
        "execute_for_reviewed" (execute_for_reviewed impl) t
    else if bool_decide (flow_status' ∈ ["reviewing"; "done"; "error"; "client_error"]) then
      ret tt t
    else
      raise (Py.ValueError ("当前节点 " +:+ node_name impl +:+ " 状态不正确: " +:+ flow_status')) t.

(** [BaseNode.user_feedback] *)
Definition user_feedback (t : Task) : Py.result json :=
  match dict_get_default "nodes" (JArr []) (flow t) with
  | JArr nodes =>
      match last nodes with
      | None => Py.Ok (JStr "")
      | Some (JObj node) =>
          match dict_get "type" node with
          | Some (JStr type) =>
              if decide (type = "user_feedback")
              then Py.Ok (dict_get_default "content" (JStr "") node)
              else Py.Ok (JStr "")
          | _ => Py.Ok (JStr "")
          end
      | Some v => Py.Raise (no_get v)
      end
  | JStr s => if Py.truthy s then Py.Raise (no_get (JStr s)) else Py.Ok (JStr "")
  | JObj d => match d with [] => Py.Ok (JStr "") | _ => Py.Raise (Py.KeyError "-1") end
  | v => Py.Raise (Py.TypeError ("object of type '" +:+ type_name v +:+ "' has no len()"))
  end.

(** The paths a prompt mentions. *)
Record paths : Type := {
  work_dir : string;
  docs_dir : string;
  develop_file_path : string;
  current_execute_record_dir_path : string
}.

(** What [CodeDevelopNode] takes from its surroundings: the path
    properties (they create directories and may raise), the texts of
    the development prompt before and after its feedback step, the
    merge-preparation prompt, and the two hooks. *)
Record develop_env : Type := {
  resolve_paths : M paths;
  prompt_before_feedback : paths -> Task -> string;
  prompt_after_feedback : paths -> string;
  merge_prepare_prompt : string;
  develop_before_execute : M unit;
  develop_after_execute : M unit
}.

(** Step 4 of [_build_development_prompt]. *)
Definition feedback_step (p : paths) (feedback : string) : string :=
  "### Step 4: 处理用户反馈（优先级最高）

**反馈内容：**
```
" +:+ feedback +:+ "
```

**处理流程：**
1. 更新开发文档 " +:+ develop_file_path p +:+ " 的「需求内容」章节，整合反馈要点
2. 评估是否需要调整技术方案
3. 按更新后的文档执行代码修改

---

".

(** [CodeDevelopNode._build_development_prompt] *)
Definition _build_development_prompt (env : develop_env) : M string :=
  p <- resolve_paths env ;;
  fun t =>
    match user_feedback t with
    | Py.Raise e => raise e t
    | Py.Ok feedback =>
        ret (prompt_before_feedback env p t +:+
             (if truthy feedback then feedback_step p (py_str (repr h) feedback) else "") +:+
             prompt_after_feedback env p) t
    end.

(** [agent.run_prompt(...)] *)
Definition agent_run_prompt (trace_id cwd prompt : string) (json_parse : bool)
  : M (bool * json) :=
  fun t w =>
    let '(s, r) := run_prompt h (st w) trace_id cwd prompt json_parse in
    (record (AgentPrompt trace_id cwd prompt json_parse) s w, t, Py.Ok r).

(** The agent call that ends [execute_for_pending] and
    [execute_for_reviewed]. *)
Definition prompt_agent (env : develop_env) (trace_id prompt : string) : M unit :=
  p <- resolve_paths env ;;
  r <- agent_run_prompt trace_id (work_dir p) prompt false ;;
  if fst r then ret tt
  else raise (Py.Exception ("[" +:+ trace_id +:+ "] Agent 执行失败: " +:+ py_str (repr h) (snd r))).

(** [CodeDevelopNode.execute_for_pending] *)
Definition develop_execute_for_pending (env : develop_env) (trace_id : string) : M unit :=
  prompt <- _build_development_prompt env ;;
  prompt_agent env trace_id prompt.

(** [CodeDevelopNode.execute_for_reviewed] *)
Definition develop_execute_for_reviewed (env : develop_env) (trace_id : string) : M unit :=
  prompt_agent env trace_id (merge_prepare_prompt env).

(** [CodeDevelopNode] as a node; [execute_for_revising] calls
    [execute_for_pending]. *)
Definition CodeDevelopNode (env : develop_env) (trace_id : string) : node_impl :=
  {| node_name := "代码开发";
     execute_for_pending := develop_execute_for_pending env trace_id;
     execute_for_reviewed := develop_execute_for_reviewed env trace_id;
     execute_for_revising := develop_execute_for_pending env trace_id;
     before_execute := develop_before_execute env;
     after_execute := develop_after_execute env |}.

(** [config.config_model.GitRepoConfig], with the fields used here. *)
Record GitRepoConfig : Type := {
  name : string;
  branch_prefix : string;
  repo_default_branch : string
}.

Definition dq : string := String (ascii_of_nat 34) EmptyString.

(** The prompt that hands a rebase conflict to the agent. *)
Definition conflict_prompt (dev_branch default_branch' : string) : string :=
  "当前分支 `" +:+ dev_branch +:+ "` 与云端分支 `" +:+ default_branch' +:+ "` 存在冲突，请解决冲突并提交。

## 操作步骤
1. 查看冲突文件：`git status`
2. 分析并解决每个冲突文件
3. 添加已解决的文件：`git add <file>`
4. 继续 rebase：`git rebase --continue`
5. 如果有更多冲突，重复步骤 1-4

## 返回格式
请返回以下 JSON 结构：
{
    " +:+ dq +:+ "success" +:+ dq +:+ ": true/false,
    " +:+ dq +:+ "msg" +:+ dq +:+ ": " +:+ dq +:+ "执行成功的描述" +:+ dq +:+ " 或 "
  +:+ dq +:+ "执行失败的原因" +:+ dq +:+ "
}

**重要**：直接返回纯 JSON 字符串，可被 json.loads() 直接解析。禁止使用 ```json 等 markdown 代码块包裹。".

(** What [_sync_repo] does with the agent's reply. *)
Definition check_conflict_reply (r : bool * json) : M unit :=
  if negb (fst r) then
    raise (Py.Exception ("Agent 处理 rebase 冲突失败: " +:+ py_str (repr h) (snd r)))
  else
    match snd r with
    | JObj reply =>
        if negb (truthy (dict_get_default "success" (JBool false) reply)) then
          raise (Py.Exception
                   ("解决冲突失败: " +:+
                    py_str (repr h) (dict_get_default "msg" (JStr "未知错误") reply)))
        else ret tt
    | v => raise (no_get v)
    end.

(** [CodeDevelopNode._sync_repo]; [work_dir'] and
    [git_repo_cache_dir] are the values of the two properties. *)
Definition _sync_repo (work_dir' git_repo_cache_dir : string)
    (git_repo : GitRepoConfig) : M unit :=
  let work_repo_dir := path_join work_dir' (name git_repo) in
  (fun t w =>
     if path_exists h (st w) work_repo_dir then ret tt t w
     else
       let src_repo_dir := path_join git_repo_cache_dir (name git_repo) in
       let '(s, r) := copytree h (st w) src_repo_dir work_repo_dir in
       let w1 := record (CopyTree src_repo_dir work_repo_dir) s w in
       match r with
       | Some e => raise e t w1
       | None => ret tt t w1
       end) ;;;
  fun t w =>
    let dev_branch := branch_prefix git_repo +:+ pretty (id t) in
    let '(w1, git_result) :=
      GitUtils.sync_and_rebase_branch h work_repo_dir dev_branch
        (repo_default_branch git_repo) w in
    if GitUtils.success git_result then ret tt t w1
    else if negb (Py.contains "conflict" (Py.lower (GitUtils.message git_result))) then
      raise (Py.Exception (work_repo_dir +:+ " 同步并 rebase 失败: " +:+
                           GitUtils.message git_result)) t w1
    else
      (r <- agent_run_prompt "agent_rebase_conflict" work_repo_dir
              (conflict_prompt dev_branch (repo_default_branch git_repo)) true ;;
       check_conflict_reply r) t w1.

(** A [TaskWorker] thread: [self.task] and the world around it. *)
Record thread : Type := {
  task : Task;
  outside : world S
}.

Definition with_error (e : Py.exn) (t : Task) : Task :=
  {| id := id t; key := key t; title := title t; desc := desc t;
     flow := dict_set "error" (JStr (Py.str_exn e)) (flow t);
     flow_status := "client_error" |}.

(** The [except Exception] clause of [TaskWorker.run]. An exception
    raised in it leaves [run]: the second component is then that
    exception. *)
Definition on_exception (e : Py.exn) (t : Task) (w : world S)
  : thread * option Py.exn :=
  let t' := with_error e t in
  match rpc_update_task_flow (id t') (Some "client_error") (Some (flow t')) t' w with
  | (w1, t1, Py.Ok _) => ({| task := t1; outside := w1 |}, None)
  | (w1, t1, Py.Raise e') => ({| task := t1; outside := w1 |}, Some e')
  end.

(** One turn of the [while not self.stopped] loop of [TaskWorker.run];
    [impl] is the node built for the turn. The waiting of the
    [finally] clause has no effect on the task and is left out. *)
Definition run_once (impl : node_impl) (th : thread) : thread * option Py.exn :=
  let w := outside th in
  let '(s1, r) := get_task h (st w) (id (task th)) in
  let w1 := record (RpcGetTask (id (task th))) s1 w in
  match r with
  | Py.Raise e => on_exception e (task th) w1
  | Py.Ok t =>
      if Py.contains "error" (flow_status t) then
        ({| task := t; outside := w1 |}, None)
      else
        let '(s2, c) := sync_config h (st w1) in
        let w2 := record RpcSyncConfig s2 w1 in
        match c with
        | Some e => on_exception e t w2
        | None =>
            match execute impl t w2 with
            | (w3, t3, Py.Ok _) => ({| task := t3; outside := w3 |}, None)
            | (w3, t3, Py.Raise e) => on_exception e t3 w3
            end
        end
  end.

(** [n] turns of the loop, stopping early when an exception leaves
    [run]. *)
Fixpoint run (impl : node_impl) (n : nat) (th : thread) : thread * option Py.exn :=
  match n with
  | O => (th, None)
  | Datatypes.S k =>
      match run_once impl th with
      | (th1, None) => run impl k th1
      | (th1, Some e) => (th1, Some e)
      end
  end.

(** *** The phases of a stage and the turns of the loop *)

Implicit Types (impl : node_impl) (t : Task) (w : world S) (th : thread).

(** The three phases of [_execute_and_persist]. *)
Definition announce (current_status executing_status : string) : M bool :=
  if decide (current_status = executing_status) then ret true
  else fun t => rpc_update_task_flow (id t) (Some executing_status) None t.

Definition envelope impl (executor_name : string) (main_executor : M unit) : M unit :=
  bind (staged "before_execute" (before_execute impl)) (fun _ =>
  bind (staged executor_name main_executor) (fun _ =>
  staged "after_execute" (after_execute impl))).

Definition persist (next_status : string) : M bool :=
  fun t => rpc_update_task_flow (id t) (Some next_status) (Some (flow t)) t.

(** One row of the transition table: once the executing status is
    announced and the envelope has returned, [execute] ends with the
    single update that persists the flow document and [next]. *)
Definition stage_runs impl t w (executing next name : string) (main : M unit) : Prop :=
  forall w0 t0 b w3 t3 s4 b',
    announce (flow_status t) executing t w = (w0, t0, Py.Ok b) ->
    envelope impl name main t0 w0 = (w3, t3, Py.Ok tt) ->
    update_task_flow h (st w3) (id t3) (Some next) (Some (flow t3)) = (s4, Py.Ok b') ->
    execute impl t w
    = (record (RpcUpdateTaskFlow (id t3) (Some next) (Some (flow t3))) s4 w3, t3, Py.Ok tt).

(** An exception of the envelope leaves [execute]. *)
Definition stage_fails impl t w (executing next name : string) (main : M unit) : Prop :=
  forall w0 t0 b w3 t3 e,
    announce (flow_status t) executing t w = (w0, t0, Py.Ok b) ->
    envelope impl name main t0 w0 = (w3, t3, Py.Raise e) ->
    execute impl t w = (w3, t3, Py.Raise e).

(** The names of the stage methods called, latest first. *)
Definition stages (tr : list effect) : list string :=
  omap (fun e => match e with Stage name => Some name | _ => None end) tr.

(** The turn on which the fetched task is ready to run. *)
Definition ready th t w2 : Prop :=
  exists s1 s2,
    get_task h (st (outside th)) (id (task th)) = (s1, Py.Ok t)
    /\ Py.contains "error" (flow_status t) = false
    /\ sync_config h s1 = (s2, None)
    /\ w2 = record RpcSyncConfig s2 (record (RpcGetTask (id (task th))) s1 (outside th)).

(** What the [except] clause leaves behind. *)
Definition caught (e : Py.exn) t3 w3 (r : S * Py.result bool) : thread * option Py.exn :=
  ({| task := with_error e t3;
      outside := record (RpcUpdateTaskFlow (id t3) (Some "client_error")
                           (Some (flow (with_error e t3)))) r.1 w3 |},
   match r.2 with Py.Ok _ => None | Py.Raise e' => Some e' end).

(** Nobody resets the task: from the states of [Inv] on, the server
    keeps answering with an error status (or not at all), also after an
    attempt to store [client_error]. *)
Definition error_persists (Inv : S -> Prop) : Prop :=
  (forall s i, Inv s ->
     Inv (get_task h s i).1
     /\ forall t, (get_task h s i).2 = Py.Ok t -> Py.contains "error" (flow_status t) = true)
  /\ (forall s i f, Inv s -> Inv (update_task_flow h s i (Some "client_error") f).1).

End WithHost.

End Worker.

(** ** A small machine to run the model on *)
Module Bench.

Import HeartbeatDao AuthPlugin Json Host Worker.

(** A working copy that is dirty or clean, the server's copy of one
    task, and whether the server accepts flow updates. *)
Record machine : Type := {
  dirty : bool;
  stored : Task;
  accepting : bool
}.

Definition with_dirty (d : bool) (s : machine) : machine :=
  {| dirty := d; stored := stored s; accepting := accepting s |}.

Definition store (fs : option string) (f : option dict) (s : machine) : machine :=
  {| dirty := dirty s;
     stored := {| id := id (stored s); key := key (stored s); title := title (stored s);
                  desc := desc (stored s);
                  flow := from_option (fun x => x) (flow (stored s)) f;
                  flow_status := from_option (fun x => x) (flow_status (stored s)) fs |};
     accepting := accepting s |}.

(** git: [status] shows the dirty flag, [commit] clears it, a forced
    push is refused by the remote, everything else succeeds quietly. *)
Definition git (s : machine) (cwd : string) (cmd : list string) : machine * proc :=
  match cmd with
  | ["git"; "status"; "--porcelain"] =>
      (s, Completed 0 (if dirty s then " M app.py" else "") "")
  | ["git"; "commit"; "-m"; _] => (with_dirty false s, Completed 0 "" "")
  | ["git"; "rev-parse"; "--abbrev-ref"; "HEAD"] => (s, Completed 0 "ai_7" "")
  | ["git"; "rev-list"; "--count"; _] => (s, Completed 0 "1" "")
  | ["git"; "push"; "-f"; "origin"; _] =>
      (s, Completed 1 "" "! [remote rejected] ai_7 -> ai_7 (directory file conflict)")
  | _ => (s, Completed 0 "" "")
  end.

Definition bench : host machine :=
  {| subprocess_run := git;
     path_exists := fun _ _ => true;
     run_prompt := fun s _ _ _ json_parse =>
       (s, (true, if json_parse then JObj [("success", JBool true); ("msg", JStr "resolved")]
                  else JStr "done"));
     copytree := fun s _ _ => (s, None);
     get_task := fun s _ => (s, Py.Ok (stored s));
     update_task_flow := fun s _ fs f =>
       if accepting s then (store fs f s, Py.Ok true) else (s, Py.Ok false);
     sync_config := fun s => (s, None);
     repr := fun _ => "?" |}.

Definition task7 (flow' : dict) (flow_status' : string) : Task :=
  {| id := 7; key := "AbCdEfGh"; title := "demo"; desc := "";
     flow := flow'; flow_status := flow_status' |}.

Definition start (t : Task) (d up : bool) : world machine :=
  {| st := {| dirty := d; stored := t; accepting := up |}; trail := [] |}.

Definition here : paths :=
  {| work_dir := "/cache/42/code_develop/AbCdEfGh";
     docs_dir := "/cache/42/code_develop/AbCdEfGh/docs/AbCdEfGh";
     develop_file_path := "/cache/42/code_develop/AbCdEfGh/docs/AbCdEfGh/develop.md";
     current_execute_record_dir_path :=
       "/cache/42/code_develop/AbCdEfGh/docs/AbCdEfGh/20260101_000000" |}.

(** A development node whose hooks do nothing, or whose
    [before_execute] fails. *)
Definition develop (before_fails : bool) : develop_env (S := machine) :=
  {| resolve_paths := ret here;
     prompt_before_feedback := fun _ _ => "# develop ";
     prompt_after_feedback := fun _ => "## rules";
     merge_prepare_prompt := "# merge";
     develop_before_execute :=
       if before_fails then raise (Py.Exception "代码仓库 app 准备失败: timeout") else ret tt;
     develop_after_execute := ret tt |}.

Definition node (before_fails : bool) : node_impl :=
  CodeDevelopNode bench (develop before_fails) "AbCdEfGh".

Definition feedback_flow : dict :=
  [("nodes", JArr [JObj [("id", JStr "code_develop")];
                   JObj [("type", JStr "user_feedback"); ("content", JStr "use tabs")]])].

Definition app_repo : GitRepoConfig :=
  {| name := "app"; branch_prefix := "ai_"; repo_default_branch := "main" |}.

Definition lease_u1 : table := {[ (1, 42) := lease "u1" 0 ]}.

Definition one_user : backend :=
  {| get_user_by_secret :=
       fun s => if decide (s = "s3cret") then Py.Ok (Some {| AuthPlugin.id := 1 |})
                else Py.Ok None;
     get_user_by_token := fun _ => Py.Ok None |}.

Definition worker_request (token client_id : string) : request :=
  {| X_Client_Secret := Some "s3cret";
     X_Instance_UUID := Some token;
     X_Client_ID := Some client_id;
     Authorization := None |}.

Definition ok_handler (u : user_info) : Py.result response := Py.Ok (200, "ok").

Definition failure : Py.exn := Py.Exception "代码仓库 app 准备失败: timeout".

Definition pending : thread := {| task := task7 [] "pending"; outside := start (task7 [] "pending") false true |}.

(** The server's copy says [client_error]. *)
Definition parked (s : machine) : Prop := flow_status (stored s) = "client_error".

Definition refused : string := "! [remote rejected] ai_7 -> ai_7 (directory file conflict)".

End Bench.

(** ** Series of heartbeats: heartbeat_dao.py *)
Module HeartbeatSeries.

Import HeartbeatDao.

(** [get_heartbeat] *)
Definition get_heartbeat (tbl : table) (user_id client_id : Z) : option ClientHeartbeat :=
  tbl !! (user_id, client_id).

(** [get_latest_instance_uuid] *)
Definition get_latest_instance_uuid (tbl : table) (user_id client_id : Z) : option string :=
  match tbl !! (user_id, client_id) with
  | Some heartbeat => Some (instance_uuid heartbeat)
  | None => None
  end.

(** Whether a call of [update_heartbeat] returned [(True, "")]. *)
Definition accepts (r : Py.result (bool * string)) : bool :=
  match r with
  | Py.Ok (true, _) => true
  | _ => false
  end.

(** Heartbeats of any instances for one client, each a token and the
    time it arrives at, in the order they arrive: the table they leave. *)
Fixpoint arrive (tbl : table) (user_id client_id cooldown : Z)
    (events : list (string * Z)) : table :=
  match events with
  | [] => tbl
  | (token, now) :: later =>
      arrive (update_heartbeat tbl user_id client_id token cooldown now).1
        user_id client_id cooldown later
  end.

(** The heartbeats of such a series that were accepted, in order. *)
Fixpoint accepted (tbl : table) (user_id client_id cooldown : Z)
    (events : list (string * Z)) : list (string * Z) :=
  match events with
  | [] => []
  | (token, now) :: later =>
      let r := update_heartbeat tbl user_id client_id token cooldown now in
      (if accepts r.2 then [(token, now)] else [])
      ++ accepted r.1 user_id client_id cooldown later
  end.

(** Neighbours with different tokens are at least a cooldown apart. *)
Fixpoint spaced (cooldown : Z) (l : list (string * Z)) : Prop :=
  match l with
  | x :: (y :: _) as rest =>
      (x.1 <> y.1 -> seconds cooldown <= y.2 - x.2) /\ spaced cooldown rest
  | _ => True
  end.

(** Every heartbeat of another instance comes less than a cooldown
    after the latest heartbeat of [holder], which was at [last]. *)
Fixpoint kept_alive (holder : string) (cooldown last : Z)
    (events : list (string * Z)) : Prop :=
  match events with
  | [] => True
  | (token, now) :: later =>
      if decide (token = holder) then kept_alive holder cooldown now later
      else now - last < seconds cooldown /\ kept_alive holder cooldown last later
  end.

End HeartbeatSeries.

(** ** apiserver/routes/client.py: the heartbeat route;
    clients/rpc/apiserver_rpc.py: the call that reaches it *)
Module ClientRoutes.

Import Json HeartbeatDao AuthPlugin.

(** [jsonify({'code': c, 'message': m})] *)
Definition jsonify (r : response) : json :=
  JObj [("code", JInt r.1); ("message", JStr r.2)].

(** The [AttributeError] of [v.strip] on a value that is not a [str]. *)
Definition no_strip (v : json) : Py.exn :=
  Py.AttributeError ("'" +:+ type_name v +:+ "' object has no attribute 'strip'").

(** [data = request.get_json() or {}] and
    [data.get('instance_uuid', '').strip()], for a decoded body. *)
Definition body_instance_uuid (body : json) : Py.result string :=
  let data := if truthy body then body else JObj [] in
  match data with
  | JObj d =>
      match dict_get_default "instance_uuid" (JStr "") d with
      | JStr s => Py.Ok (Py.strip s)
      | v => Py.Raise (no_strip v)
      end
  | v => Py.Raise (no_get v)
  end.

(** The route function [heartbeat(client_id)], for the user that
    [login_required] put into [request.user_info]. [client_exists] is
    [get_client_by_id_no_user_check], [config_cooldown] the entry
    [INSTANCE_CHANGE_COOLDOWN_SECONDS] of the application's
    configuration, if it has one. *)
Definition heartbeat (client_exists : Z -> bool) (config_cooldown : option Z)
    (tbl : table) (now : Z) (client_id : Z) (body : json) (user : user_info)
  : table * Py.result response :=
  match body_instance_uuid body with
  | Py.Raise e => (tbl, Py.Raise e)
  | Py.Ok instance_uuid' =>
      if negb (Py.truthy instance_uuid') then (tbl, Py.Ok (400, "instance_uuid不能为空"))
      else if negb (client_exists client_id) then (tbl, Py.Ok (404, "客户端不存在"))
      else
        let cooldown_seconds := default 60 config_cooldown in
        match update_heartbeat tbl (id user) client_id instance_uuid' cooldown_seconds now with
        | (tbl', Py.Ok (true, _)) => (tbl', Py.Ok (200, "心跳更新成功"))
        | (tbl', Py.Ok (false, error_msg)) => (tbl', Py.Ok (409, error_msg))
        | (tbl', Py.Raise e) => (tbl', Py.Raise e)
        end
  end.

(** The route as it is registered: [login_required(heartbeat)]. The
    wrapper reads the clock at [gate_now], the route function at [now]. *)
Definition heartbeat_endpoint (be : backend) (client_exists : Z -> bool)
    (config_cooldown : option Z) (tbl : table) (gate_now now : Z)
    (client_id : Z) (body : json) (req : request) : bool * Py.result response :=
  login_required be tbl gate_now
    (fun user => (heartbeat client_exists config_cooldown tbl now client_id body user).2)
    req.

(** The fields of an [ApiServerRpc] that its requests carry. *)
Record ApiServerRpc : Type := {
  secret : string;
  client_id : Z;
  instance_uuid : option string
}.

(** [_get_headers], the headers that [login_required] reads. *)
Definition _get_headers (self : ApiServerRpc) : request :=
  {| X_Client_Secret := Some (secret self);
     X_Instance_UUID :=
       match instance_uuid self with
       | Some u => if Py.truthy u then Some u else None
       | None => None
       end;
     X_Client_ID := Some (pretty (client_id self));
     Authorization := None |}.

(** The request [sync_client] makes. *)
Definition heartbeat_request (client_id' : Z) (instance_uuid' : string) : Rpc.sent_request :=
  {| Rpc.method := "POST";
     Rpc.endpoint := "/api/client/" +:+ pretty client_id' +:+ "/heartbeat";
     Rpc.json_data := Some (JObj [("instance_uuid", JStr instance_uuid')]);
     Rpc.params := None |}.

(** [ApiServerRpc.sync_client] *)
Definition sync_client (repr : json -> string) (client_id' : Z) (instance_uuid' : string)
    (n : Rpc.net) : Rpc.net * Py.result json :=
  match Rpc._request repr (heartbeat_request client_id' instance_uuid') 0 n with
  | (n', Py.Ok result) =>
      match result with
      | JObj d => (n', Py.Ok (dict_get_default "data" (JObj []) d))
      | v => (n', Py.Raise (no_get v))
      end
  | (n', Py.Raise e) => (n', Py.Raise e)
  end.

(** The network hands the next request to the server and brings back
    the response [r]. *)
Definition delivers (n : Rpc.net) (r : response) : Prop :=
  Rpc.outcome n (List.length (Rpc.sent n)) = Rpc.Response r.1 (Rpc.Parsed (jsonify r)).

End ClientRoutes.

(** ** apiserver/dao/task_dao.py, service/task_service.py: the writes
    beside the flow update; dao/models.py and clients/rpc/apiserver_rpc.py:
    a task on its way to the worker *)
Module TaskService.

Import Json TaskDao.

(** [task_dao.update_task_status] *)
Definition update_task_status (tbl : table) (now : Z) (task_id user_id' : Z)
    (status' : string) : table * bool :=
  match get_task_by_id tbl task_id user_id' with
  | Some t =>
      (<[task_id := {| user_id := user_id t;
                       key := key t;
                       title := title t;
                       status := status';
                       flow := flow t;
                       flow_status := flow_status t;
                       updated_at := now |}]> tbl, true)
  | None => (tbl, false)
  end.

(** [task_dao.delete_task] *)
Definition delete_task (tbl : table) (task_id user_id' : Z) : table * bool :=
  match get_task_by_id tbl task_id user_id' with
  | Some _ => (delete task_id tbl, true)
  | None => (tbl, false)
  end.

(** [Task.STATUS_TEXT] *)
Definition STATUS_TEXT : list (string * string) :=
  [("pending", "未开始"); ("running", "进行中"); ("suspended", "已挂起"); ("completed", "已结束")].

(** [STATUS_TEXT.get(status)] *)
Fixpoint status_text (texts : list (string * string)) (status' : string) : option string :=
  match texts with
  | [] => None
  | (k, v) :: r => if decide (k = status') then Some v else status_text r status'
  end.

(** [task_service.update_status]: the table, and the exception or the
    returned [status] and [status_text]. *)
Definition update_status (tbl : table) (now : Z) (task_id user_id' : Z)
    (status' : option string) : table * (service_error + string * string) :=
  let status'' := Py.strip (default "" status') in
  match status_text STATUS_TEXT status'' with
  | None =>
      (tbl, inl (TaskValidationException
                   "无效的状态，可选值：['pending', 'running', 'suspended', 'completed']"))
  | Some text =>
      match get_task_by_id tbl task_id user_id' with
      | None => (tbl, inl (TaskNotFoundException "任务不存在"))
      | Some _ => ((update_task_status tbl now task_id user_id' status'').1, inr (status'', text))
      end
  end.

(** How a call of [review_task] ends: with its result, with an
    exception of the service layer, or with any other exception. *)
Inductive outcome : Type :=
| Updated (message flow_status' : string)
| Refused (e : service_error)
| Crashed (e : Py.exn).

(** The [AttributeError] of [v.append] on a value that is not a [list]. *)
Definition no_append (v : json) : Py.exn :=
  Py.AttributeError ("'" +:+ type_name v +:+ "' object has no attribute 'append'").

Definition feedback_node (feedback : string) : json :=
  JObj [("type", JStr "user_feedback"); ("content", JStr (Py.strip feedback))].

(** [not feedback or not feedback.strip()] *)
Definition no_feedback (feedback : option string) : bool :=
  match feedback with
  | None => true
  | Some s => negb (Py.truthy s) || negb (Py.truthy (Py.strip s))
  end.

(** [task.flow or {}] *)
Definition flow_or_empty (flow' : option json) : json :=
  match flow' with
  | Some f => if truthy f then f else JObj []
  | None => JObj []
  end.

(** [task_service.review_task] *)
Definition review_task (tbl : table) (now : Z) (task_id user_id' : Z)
    (action : string) (feedback : option string) : table * outcome :=
  if negb (bool_decide (action ∈ ["approve"; "revise"])) then
    (tbl, Refused (TaskValidationException "无效的审核动作，可选值：approve, revise"))
  else
    match get_task_by_id tbl task_id user_id' with
    | None => (tbl, Refused (TaskNotFoundException "任务不存在"))
    | Some task =>
        let current_flow_status :=
          match flow_status task with
          | Some s => if Py.truthy s then s else ""
          | None => ""
          end in
        if negb (bool_decide (current_flow_status ∈ ["reviewing"; "done"])) then
          (tbl, Refused (TaskValidationException
                           ("当前流程状态 [" +:+ current_flow_status +:+ "] 不允许审核操作")))
        else if bool_decide (action = "approve") then
          if negb (bool_decide (current_flow_status = "reviewing")) then
            (tbl, Refused (TaskValidationException "只有待审核状态的任务可以通过审核"))
          else
            ((update_task_flow tbl now task_id user_id' None (Some "reviewed")).1,
             Updated "审核通过" "reviewed")
        else
          if no_feedback feedback then
            (tbl, Refused (TaskValidationException "修订时必须提供反馈内容"))
          else
            match flow_or_empty (flow task) with
            | JObj flow' =>
                match dict_get_default "nodes" (JArr []) flow' with
                | JArr nodes =>
                    let nodes' := (nodes ++ [feedback_node (default "" feedback)])%list in
                    ((update_task_flow tbl now task_id user_id'
                        (Some (JObj (dict_set "nodes" (JArr nodes') flow')))
                        (Some "revising")).1,
                     Updated "已提交修订反馈" "revising")
                | v => (tbl, Crashed (no_append v))
                end
            | v => (tbl, Crashed (no_get v))
            end
    end.

(** The [flow] column holds what the service layer writes: nothing, or
    an object whose [nodes], if it has any, is an array. *)
Definition well_formed_flow (t : Task) : Prop :=
  match flow t with
  | None => True
  | Some (JObj d) =>
      match dict_get "nodes" d with
      | Some (JArr _) | None => True
      | Some _ => False
      end
  | Some _ => False
  end.

(** [Task.to_dict], with the entries of the columns of [TaskDao.Task]
    and of [desc], a nullable column that [TaskDao.Task] leaves out. *)
Definition to_dict (task_id : Z) (desc : option string) (t : Task) : dict :=
  [("id", JInt task_id);
   ("key", JStr (key t));
   ("title", JStr (title t));
   ("desc", JStr (default "" desc));
   ("status", JStr (status t));
   ("flow", flow_or_empty (flow t));
   ("flow_status", JStr (match flow_status t with
                         | Some s => s
                         | None => ""
                         end))].

(** [task_service.get_task] *)
Definition get_task (tbl : table) (task_id user_id' : Z) (desc : option string)
  : service_error + dict :=
  match get_task_by_id tbl task_id user_id' with
  | None => inl (TaskNotFoundException "任务不存在")
  | Some task => inr (to_dict task_id desc task)
  end.

(** [rpc.apiserver_rpc.Task.from_dict], for the fields of [Host.Task].
    The source stores whatever the entries hold; [None] stands for a
    [Task] object that has a field of another type than the worker's
    code takes it to have. *)
Definition from_dict (data : dict) : option Host.Task :=
  match dict_get_default "id" (JInt 0) data,
        dict_get_default "key" (JStr "") data,
        dict_get_default "title" (JStr "") data,
        dict_get_default "desc" (JStr "") data,
        dict_get_default "flow" (JObj []) data,
        dict_get_default "flow_status" (JStr "") data with
  | JInt id', JStr key', JStr title', JStr desc', JObj flow', JStr flow_status' =>
      Some {| Host.id := id'; Host.key := key'; Host.title := title'; Host.desc := desc';
              Host.flow := flow'; Host.flow_status := flow_status' |}
  | _, _, _, _, _, _ => None
  end.

End TaskService.

(** ** A task table to try the service on *)
Module Desk.

Import Json TaskDao.

Definition row (flow' : option json) (flow_status' : string) : Task :=
  {| user_id := 1; key := "AbCdEfGh"; title := "demo"; status := "running";
     flow := flow'; flow_status := Some flow_status'; updated_at := 0 |}.

Definition tasks (flow' : option json) (flow_status' : string) : table :=
  {[ 7 := row flow' flow_status' ]}.

Definition developed : json :=
  JObj [("nodes", JArr [JObj [("type", JStr "code_develop")]])].

End Desk.

(** ** clients/config/config_model.py: a repository's address *)
Module ConfigModel.

(** [GitRepoConfig], with the fields the modelled code reads. *)
Record GitRepoConfig : Type := {
  url : string;
  token : option string;
  default_branch : string;
  branch_prefix : string
}.

(** [Some p] when [s] is [p] followed by [".git"]: [s.endswith('.git')]
    and [s[:-4]]. *)
Fixpoint without_git_suffix (s : string) : option string :=
  match s with
  | EmptyString => None
  | String c r =>
      if String.eqb s ".git" then Some EmptyString
      else match without_git_suffix r with
           | Some p => Some (String c p)
           | None => None
           end
  end.

(** [url[:-4] if url.endswith('.git') else url] *)
Definition remove_git_suffix (s : string) : string :=
  match without_git_suffix s with
  | Some p => p
  | None => s
  end.

Definition is_sep (c : ascii) : bool := (Ascii.eqb c ":" || Ascii.eqb c "/")%bool.

Fixpoint has_sep (s : string) : bool :=
  match s with
  | EmptyString => false
  | String c r => (is_sep c || has_sep r)%bool
  end.

(** The text after the last [':'] or ['/'] of [s], if [s] has one: the
    only place where [re.search(r'[:/]([^/:]+)$', s)] can match, and it
    does when that text is not empty. *)
Fixpoint after_last_sep (s : string) : option string :=
  match s with
  | EmptyString => None
  | String c r =>
      match after_last_sep r with
      | Some t => Some t
      | None => if is_sep c then Some r else None
      end
  end.

(** [get_repo_name_from_url], which the property [name] returns. *)
Definition get_repo_name_from_url (self : GitRepoConfig) : Py.result string :=
  let url' := remove_git_suffix (url self) in
  match after_last_sep url' with
  | Some (String a r) => Py.Ok (String a r)
  | _ => Py.Raise (Py.ValueError ("无法从 URL " +:+ url' +:+ " 中提取仓库名称"))
  end.

Definition name (self : GitRepoConfig) : Py.result string := get_repo_name_from_url self.

(** [s.replace(old, new)] for an [old] that is not empty: [skip] counts
    the characters of a replaced occurrence that are still to pass. *)
Fixpoint replace_from (old new : string) (skip : nat) (s : string) : string :=
  match s with
  | EmptyString => EmptyString
  | String c r =>
      match skip with
      | S k => replace_from old new k r
      | O =>
          if Py.startswith old s
          then new +:+ replace_from old new (String.length old - 1) r
          else String c (replace_from old new 0 r)
      end
  end.

Definition replace (old new s : string) : string := replace_from old new 0 s.

(** [s.replace(c, new, 1)] for a single character [c]. *)
Fixpoint replace_first_char (c : ascii) (new : string) (s : string) : string :=
  match s with
  | EmptyString => EmptyString
  | String a r => if Ascii.eqb a c then new +:+ r else String a (replace_first_char c new r)
  end.

(** [bool(self.token)] *)
Definition has_token (self : GitRepoConfig) : bool :=
  match token self with
  | Some t => Py.truthy t
  | None => false
  end.

(** [get_auth_url] *)
Definition get_auth_url (self : GitRepoConfig) : string :=
  if (Py.startswith "https://" (url self) && has_token self)%bool then
    replace "https://" ("https://" +:+ default "" (token self) +:+ "@") (url self)
  else url self.

(** [get_web_url] *)
Definition get_web_url (self : GitRepoConfig) : Py.result string :=
  if Py.startswith "git@" (url self) then
    Py.Ok (remove_git_suffix
             (replace "git@" "https://" (replace_first_char ":" "/" (url self))))
  else if Py.startswith "https://" (url self) then
    Py.Ok (remove_git_suffix (url self))
  else
    match name self with
    | Py.Ok n => Py.Raise (Py.ValueError ("Git 仓库 " +:+ n +:+ " 地址格式不正确: " +:+ url self))
    | Py.Raise e => Py.Raise e
    end.

(** [get_mr_url] *)
Definition get_mr_url (self : GitRepoConfig) (branch : string) : Py.result string :=
  match get_web_url self with
  | Py.Raise e => Py.Raise e
  | Py.Ok base_url =>
      if Py.contains "gitlab" base_url then
        Py.Ok (base_url +:+ "/-/merge_requests?scope=all&state=opened&source_branch=" +:+ branch)
      else
        Py.Ok (base_url +:+ "/pulls?q=is%3Apr+is%3Aopen+head%3A" +:+ branch)
  end.

End ConfigModel.

(** ** clients/utils/git_utils.py: the cache of a repository *)
Module GitClone.

Import Host GitUtils ConfigModel.

Section WithHost.

Context {S : Type} (h : host S).

(** [os.makedirs]: the state after it and, if it raised, the text of
    the exception. *)
Variable makedirs : S -> string -> S * option string.

Definition symbolic_ref_cmd : list string :=
  ["git"; "symbolic-ref"; "refs/remotes/origin/HEAD"; "--short"].
Definition set_head_cmd : list string := ["git"; "remote"; "set-head"; "origin"; "--auto"].
Definition branch_r_cmd : list string := ["git"; "branch"; "-r"].

(** [branch[7:]] for a branch that starts with ['origin/']. *)
Definition strip_origin (branch : string) : string :=
  if Py.startswith "origin/" branch
  then String.substring 7 (String.length branch - 7) branch
  else branch.

(** One reading of the remote [HEAD]. *)
Definition read_remote_head (repo_dir : string) (w : world S) : world S * option string :=
  let '(w1, result) := _run_git_command h symbolic_ref_cmd repo_dir w in
  if (success result && Py.truthy (message result))%bool
  then (w1, Some (strip_origin (message result)))
  else (w1, None).

(** [_get_remote_default_branch] *)
Definition _get_remote_default_branch (repo_dir : string) (w : world S)
  : world S * GitResult :=
  match read_remote_head repo_dir w with
  | (w1, Some branch) => (w1, succeeded branch)
  | (w1, None) =>
      let '(w2, set_head_result) := _run_git_command h set_head_cmd repo_dir w1 in
      let '(w3, again) :=
        if success set_head_result then read_remote_head repo_dir w2 else (w2, None) in
      match again with
      | Some branch => (w3, succeeded branch)
      | None =>
          let '(w4, branches_result) := _run_git_command h branch_r_cmd repo_dir w3 in
          if success branches_result then
            if Py.contains "origin/main" (message branches_result) then (w4, succeeded "main")
            else if Py.contains "origin/master" (message branches_result)
            then (w4, succeeded "master")
            else (w4, failed "无法获取远端默认分支")
          else (w4, failed "无法获取远端默认分支")
      end
  end.

Definition fetch_cmd : list string := ["git"; "fetch"; "--all"; "--prune"].
Definition checkout_cmd (branch : string) : list string := ["git"; "checkout"; branch].
Definition restore_cmd : list string := ["git"; "restore"; "."].
Definition clean_cmd : list string := ["git"; "clean"; "-fd"].
Definition reset_cmd (branch : string) : list string :=
  ["git"; "reset"; "--hard"; "origin/" +:+ branch].

(** What a successful update of the cache has run last, latest first. *)
Definition synced_trail (repo_dir branch : string) (rest : list effect) : list effect :=
  GitCommand repo_dir (reset_cmd branch)
  :: GitCommand repo_dir clean_cmd
  :: GitCommand repo_dir restore_cmd
  :: GitCommand repo_dir (checkout_cmd branch)
  :: GitCommand repo_dir fetch_cmd :: rest.

(** Steps 3 to 5 of [clone_or_sync_repo]: switch to the default branch,
    discard every local change, reset to the remote branch. *)
Definition checkout_and_reset (repo_dir default_branch' : string) (w : world S)
  : world S * GitResult :=
  step h fetch_cmd repo_dir "fetch 远端失败: "
    (fun _ =>
       step h (checkout_cmd default_branch') repo_dir
         ("切换到分支 " +:+ default_branch' +:+ " 失败: ")
         (fun _ w2 =>
            let '(w3, _) := _run_git_command h restore_cmd repo_dir w2 in
            let '(w4, _) := _run_git_command h clean_cmd repo_dir w3 in
            step h (reset_cmd default_branch') repo_dir "重置到远端分支失败: "
              (fun _ w5 =>
                 (w5, {| success := true;
                         message := "仓库同步成功: " +:+ repo_dir;
                         GitUtils.default_branch := default_branch';
                         diff_message := "" |}))
              w4))
    w.

(** Step 2: the configured default branch, or the remote's. *)
Definition resolve_default_branch (repo_dir : string) (repo_config : GitRepoConfig)
    (w : world S) : world S * GitResult :=
  if Py.truthy (ConfigModel.default_branch repo_config) then
    checkout_and_reset repo_dir (ConfigModel.default_branch repo_config) w
  else
    let '(w1, branch_result) := _get_remote_default_branch repo_dir w in
    if negb (success branch_result) then
      (w1, failed ("获取远端默认分支失败: " +:+ message branch_result))
    else checkout_and_reset repo_dir (message branch_result) w1.

(** [clone_or_sync_repo]. The name of the repository is taken before
    the [try], so its [ValueError] is raised; an exception of
    [os.makedirs] is caught and reported. *)
Definition clone_or_sync_repo (work_dir : string) (repo_config : GitRepoConfig)
    (w : world S) : world S * Py.result GitResult :=
  match name repo_config with
  | Py.Raise e => (w, Py.Raise e)
  | Py.Ok repo_name =>
      let repo_dir := path_join work_dir repo_name in
      let auth_url := get_auth_url repo_config in
      let '(s0, made) :=
        if negb (path_exists h (st w) work_dir) then makedirs (st w) work_dir
        else (st w, None) in
      let w0 := {| st := s0; trail := trail w |} in
      match made with
      | Some e => (w0, Py.Ok (failed ("仓库操作异常: " +:+ e)))
      | None =>
          let '(w', r) :=
            if path_exists h s0 repo_dir then
              if negb (path_exists h s0 (path_join repo_dir ".git")) then
                (w0, failed ("目录已存在但不是有效的 Git 仓库: " +:+ repo_dir))
              else resolve_default_branch repo_dir repo_config w0
            else
              step h ["git"; "clone"; auth_url; repo_dir] work_dir "克隆仓库失败: "
                (fun _ => resolve_default_branch repo_dir repo_config) w0 in
          (w', Py.Ok r)
      end
  end.

End WithHost.

End GitClone.

(** ** clients/main.py: the threads of a client *)
Module ClientRunner.

Import Host.

(** A [TaskWorker]: the task it was created for and its [stopped] flag. *)
Record TaskWorker : Type := {
  worker_task : Task;
  stopped : bool
}.

(** A [ClientRunner]: [self.task_threads], and beside it the keys of
    the threads on which [stop()] was called and the keys for which a
    worker was created and started, latest first. *)
Record runner : Type := {
  task_threads : gmap string TaskWorker;
  stop_calls : gset string;
  started : list string
}.

(** The first loop of [cleanup_finished_threads]: the keys it collects
    and the keys of the threads it stops. [is_alive] tells of the thread
    registered under a key whether it is alive. *)
Definition keys_to_remove (is_alive : string -> bool) (running_task_keys : gset string)
    (threads : gmap string TaskWorker) : list string :=
  omap (fun '(task_key, thread) =>
          if negb (is_alive task_key) then Some task_key
          else if bool_decide (task_key ∉ running_task_keys) then Some task_key
          else None)
       (map_to_list threads).

Definition keys_to_stop (is_alive : string -> bool) (running_task_keys : gset string)
    (threads : gmap string TaskWorker) : list string :=
  omap (fun '(task_key, thread) =>
          if negb (is_alive task_key) then None
          else if bool_decide (task_key ∉ running_task_keys) then Some task_key
          else None)
       (map_to_list threads).

(** [cleanup_finished_threads] *)
Definition cleanup_finished_threads (is_alive : string -> bool)
    (running_task_keys : gset string) (self : runner) : runner :=
  {| task_threads :=
       foldr delete (task_threads self)
         (keys_to_remove is_alive running_task_keys (task_threads self));
     stop_calls :=
       stop_calls self
       ∪ list_to_set (keys_to_stop is_alive running_task_keys (task_threads self));
     started := started self |}.

(** The body of the loop over [tasks] in [run]. *)
Definition start_worker (self : runner) (task : Task) : runner :=
  if decide (is_Some (task_threads self !! key task)) then self
  else
    {| task_threads :=
         <[key task := {| worker_task := task; stopped := false |}]> (task_threads self);
       stop_calls := stop_calls self;
       started := key task :: started self |}.

(** One turn of the loop of [run], before its sleep. [heartbeat] is the
    exception [sync_client] raised, if any, and [tasks] what
    [get_running_tasks] then gave; any exception ends the turn. *)
Definition poll (heartbeat : option Py.exn) (tasks : Py.result (list Task))
    (is_alive : string -> bool) (self : runner) : runner :=
  match heartbeat with
  | Some _ => self
  | None =>
      match tasks with
      | Py.Raise _ => self
      | Py.Ok tasks =>
          let running_task_keys : gset string := list_to_set (key <$> tasks) in
          foldl start_worker (cleanup_finished_threads is_alive running_task_keys self) tasks
      end
  end.

End ClientRunner.

(** ** What a trail says about the statuses sent to the server *)
Module WorkerTrail.

Import Host Worker.

(** The flow statuses of the calls of [update_task_flow] on a trail,
    latest first. *)
Fixpoint statuses_sent (tr : list effect) : list string :=
  match tr with
  | [] => []
  | RpcUpdateTaskFlow _ (Some flow_status') _ :: r => flow_status' :: statuses_sent r
  | _ :: r => statuses_sent r
  end.

Section WithHost.

Context {S : Type}.

(** A hook that does not itself call [update_task_flow] with a status. *)
Definition quiet (m : M (S := S) unit) : Prop :=
  forall t w, statuses_sent (trail (m t w).1.1) = statuses_sent (trail w).

Definition quiet_node (impl : node_impl (S := S)) : Prop :=
  quiet (before_execute impl) /\ quiet (execute_for_pending impl)
  /\ quiet (execute_for_revising impl) /\ quiet (execute_for_reviewed impl)
  /\ quiet (after_execute impl).

(** The statuses a stage may send for a task whose flow status is
    [current]. *)
Definition allowed (current sent : string) : Prop :=
  (sent = "running" /\ current = "pending")
  \/ (sent = "reviewing" /\ (current = "pending" \/ current = "running" \/ current = "revising"))
  \/ (sent = "done" /\ current = "reviewed").

End WithHost.

End WorkerTrail.

(** ** What a trail says about pushes *)
Module GitTrail.

Import Host GitUtils.

(** A [git push] of any kind. *)
Definition is_push (e : effect) : bool :=
  match e with
  | GitCommand _ ("git" :: "push" :: _) => true
  | _ => false
  end.

(** The pushes on a trail, latest first. *)
Definition pushes (tr : list effect) : list effect := List.filter is_push tr.

Section Repo.

Context {S : Type} (h : host S).

Variables repo_dir dev_branch default_branch' : string.

(** From a trail whose pushes are [base]: either the rebase succeeded
    and the one push made is the forced push right after it, or the
    operation failed and pushed nothing. *)
Definition pushed_rebased_or_nothing (x : world S * GitResult) (base : list effect) : Prop :=
  (force_pushed h repo_dir dev_branch default_branch' x
   /\ pushes (trail x.1) = GitCommand repo_dir (force_push_cmd dev_branch) :: base)
  \/ (success x.2 = false /\ pushes (trail x.1) = base).

End Repo.

End GitTrail.

(** ** A machine whose remote refuses every push *)
Module Offline.

Import Json Host Bench.

Definition git (s : machine) (cwd : string) (cmd : list string) : machine * proc :=
  match cmd with
  | ["git"; "push"; "origin"; _] =>
      (s, Completed 128 "" "fatal: unable to access the remote")
  | _ => Bench.git s cwd cmd
  end.

Definition bench : host machine :=
  {| subprocess_run := git;
     path_exists := path_exists Bench.bench;
     run_prompt := run_prompt Bench.bench;
     copytree := copytree Bench.bench;
     get_task := get_task Bench.bench;
     update_task_flow := update_task_flow Bench.bench;
     sync_config := sync_config Bench.bench;
     repr := repr Bench.bench |}.

End Offline.

(** * Properties *)

(** ** Arbitration: heartbeat_dao.py and auth_plugin.py *)
Section Arbitration.

Import HeartbeatDao Bench.

Implicit Types (tbl : table) (hb : ClientHeartbeat).

Lemma update_heartbeat_first tbl user client tok cd now :
  tbl !! (user, client) = None ->
  update_heartbeat tbl user client tok cd now
  = (<[(user, client) := lease tok now]> tbl, Py.Ok (true, "")).
Proof. intros E. unfold update_heartbeat. now rewrite E. Qed.

Lemma update_heartbeat_same tbl user client tok cd now hb :
  tbl !! (user, client) = Some hb -> instance_uuid hb = tok ->
  update_heartbeat tbl user client tok cd now
  = (<[(user, client) := lease tok now]> tbl, Py.Ok (true, "")).
Proof.
  intros E <-. unfold update_heartbeat. rewrite E.
  destruct (decide _) as [_|N]; [reflexivity | now destruct N].
Qed.

Lemma update_heartbeat_takeover tbl user client tok cd now hb last :
  tbl !! (user, client) = Some hb -> instance_uuid hb <> tok ->
  last_sync_at hb = Some last -> seconds cd <= now - last ->
  update_heartbeat tbl user client tok cd now
  = (<[(user, client) := lease tok now]> tbl, Py.Ok (true, "")).
Proof.
  intros E N L C. unfold update_heartbeat. rewrite E, L.
  destruct (decide _) as [Y|_]; [now destruct N |].
  destruct (Z.leb_spec (seconds cd) (now - last)); [reflexivity | lia].
Qed.

Lemma update_heartbeat_cooling tbl user client tok cd now hb last :
  tbl !! (user, client) = Some hb -> instance_uuid hb <> tok ->
  last_sync_at hb = Some last -> now - last < seconds cd ->
  update_heartbeat tbl user client tok cd now
  = (tbl, Py.Ok (false, cooldown_message ((seconds cd - (now - last)) `quot` 1000000))).
Proof.
  intros E N L C. unfold update_heartbeat. rewrite E, L.
  destruct (decide _) as [Y|_]; [now destruct N |].
  destruct (Z.leb_spec (seconds cd) (now - last)); [lia | reflexivity].
Qed.

Lemma heartbeats_same_token tbl user client tok cd times hb :
  tbl !! (user, client) = Some hb -> instance_uuid hb = tok ->
  Forall (fun r => r = Py.Ok (true, "")) (heartbeats tbl user client tok cd times).2
  /\ instance_uuid <$> (heartbeats tbl user client tok cd times).1 !! (user, client)
     = Some tok.
Proof.
  revert tbl hb. induction times as [|now later IH]; intros tbl hb E U; simpl.
  - split; [constructor | now rewrite E; simpl; f_equal].
  - rewrite (update_heartbeat_same _ _ _ _ _ _ _ E U).
    specialize (IH (<[(user, client) := lease tok now]> tbl) (lease tok now)).
    rewrite lookup_insert_eq in IH. specialize (IH eq_refl eq_refl).
    destruct (heartbeats _ user client tok cd later) as [tbl2 rs]; simpl in *.
    destruct IH as [F T]. split; [constructor; [reflexivity | exact F] | exact T].
Qed.

(** C1 (as amended). Every call of [update_heartbeat]: with no lease it
    creates one and accepts; with the stored token it refreshes the
    time and accepts; with another token it overwrites token and time
    and accepts when [now - lastSeen >= cooldown], and otherwise rejects
    with the remaining whole seconds and leaves the table as it was.
    Any series of heartbeats with the stored token is accepted
    throughout and keeps the token. *)
Theorem update_heartbeat_arbitration tbl user client tok cd now :
  let taken := <[(user, client) := lease tok now]> tbl in
  (tbl !! (user, client) = None ->
   update_heartbeat tbl user client tok cd now = (taken, Py.Ok (true, "")))
  /\ (forall hb, tbl !! (user, client) = Some hb -> instance_uuid hb = tok ->
      update_heartbeat tbl user client tok cd now = (taken, Py.Ok (true, "")))
  /\ (forall hb last, tbl !! (user, client) = Some hb -> instance_uuid hb <> tok ->
      last_sync_at hb = Some last -> seconds cd <= now - last ->
      update_heartbeat tbl user client tok cd now = (taken, Py.Ok (true, "")))
  /\ (forall hb last, tbl !! (user, client) = Some hb -> instance_uuid hb <> tok ->
      last_sync_at hb = Some last -> now - last < seconds cd ->
      update_heartbeat tbl user client tok cd now
      = (tbl, Py.Ok (false, cooldown_message ((seconds cd - (now - last)) `quot` 1000000))))
  /\ (forall hb times, tbl !! (user, client) = Some hb -> instance_uuid hb = tok ->
      Forall (fun r => verdict_of r = Some ACCEPT)
             (heartbeats tbl user client tok cd times).2
      /\ instance_uuid <$> (heartbeats tbl user client tok cd times).1 !! (user, client)
         = Some tok).
Proof.
  intros taken. split; [| split; [| split; [| split]]].
  - apply update_heartbeat_first.
  - intros hb. apply update_heartbeat_same.
  - intros hb last. apply update_heartbeat_takeover.
  - intros hb last. apply update_heartbeat_cooling.
  - intros hb times E U.
    destruct (heartbeats_same_token tbl user client tok cd times hb E U) as [F T].
    split; [| exact T].
    eapply Forall_impl; [exact F |]. now intros r ->.
Qed.

Lemma update_heartbeat_arbitration_witness :
  update_heartbeat ∅ 1 42 "u1" 60 0 = (lease_u1, Py.Ok (true, ""))
  /\ update_heartbeat lease_u1 1 42 "u1" 60 (seconds 5)
     = (<[(1, 42) := lease "u1" (seconds 5)]> lease_u1, Py.Ok (true, ""))
  /\ update_heartbeat lease_u1 1 42 "u2" 60 (seconds 61)
     = (<[(1, 42) := lease "u2" (seconds 61)]> lease_u1, Py.Ok (true, ""))
  /\ update_heartbeat lease_u1 1 42 "u2" 60 (seconds 30)
     = (lease_u1, Py.Ok (false, cooldown_message 30))
  /\ instance_uuid <$> (heartbeats lease_u1 1 42 "u1" 60 [seconds 1; seconds 2]).1 !! (1, 42)
     = Some "u1".
Proof.
  split; [| split; [| split; [| split]]].
  - apply (update_heartbeat_arbitration ∅ 1 42 "u1" 60 0). reflexivity.
  - apply (update_heartbeat_arbitration lease_u1 1 42 "u1" 60 (seconds 5)) with (lease "u1" 0);
      reflexivity.
  - apply (update_heartbeat_arbitration lease_u1 1 42 "u2" 60 (seconds 61))
      with (lease "u1" 0) 0; [reflexivity | discriminate | reflexivity | vm_compute; discriminate].
  - apply (update_heartbeat_arbitration lease_u1 1 42 "u2" 60 (seconds 30))
      with (hb := lease "u1" 0) (last := 0);
      [reflexivity | discriminate | reflexivity | reflexivity].
  - apply (update_heartbeat_arbitration lease_u1 1 42 "u1" 60 0) with (lease "u1" 0);
      reflexivity.
Defined.

(** C1 as stated puts a different token at exactly the cooldown in the
    rejected case ([now - lastSeen > cooldown] fails); the code accepts
    it and overwrites the lease. *)
Lemma update_heartbeat_at_cooldown_counterexample :
  ~ (seconds 60 < seconds 60 - 0)
  /\ acceptHeartbeat_spec lease_u1 1 42 "u2" 60 (seconds 60) = (lease_u1, REJECT)
  /\ update_heartbeat lease_u1 1 42 "u2" 60 (seconds 60)
     = (<[(1, 42) := lease "u2" (seconds 60)]> lease_u1, Py.Ok (true, ""))
  /\ verdict_of (update_heartbeat lease_u1 1 42 "u2" 60 (seconds 60)).2
     <> Some (acceptHeartbeat_spec lease_u1 1 42 "u2" 60 (seconds 60)).2.
Proof.
  split; [vm_compute; discriminate |].
  split; [reflexivity |]. split; [reflexivity |]. vm_compute. discriminate.
Qed.

Lemma remaining_bounds cd d :
  d < seconds cd ->
  let remaining := (seconds cd - d) `quot` 1000000 in
  seconds remaining <= seconds cd - d < seconds (remaining + 1).
Proof.
  intros C remaining. unfold seconds in *.
  assert (Q : remaining = (cd * 1000000 - d) `div` 1000000)
    by (unfold remaining; apply Z.quot_div_nonneg; lia).
  rewrite Q.
  pose proof (Z.div_mod (cd * 1000000 - d) 1000000 ltac:(lia)) as D.
  pose proof (Z.mod_pos_bound (cd * 1000000 - d) 1000000 ltac:(lia)) as B.
  lia.
Qed.



Import AuthPlugin.

Lemma check_instance_uuid_valid_iff tbl user client tok cd now :
  check_instance_uuid_valid tbl user client tok cd now = true
  <-> (tbl !! (user, client) = None
       \/ exists hb, tbl !! (user, client) = Some hb
            /\ (instance_uuid hb = tok
                \/ last_sync_at hb = None
                \/ exists last, last_sync_at hb = Some last /\ seconds cd <= now - last)).
Proof.
  unfold check_instance_uuid_valid.
  destruct (tbl !! (user, client)) as [hb|] eqn:E; [| split; auto].
  destruct (decide (instance_uuid hb = tok)) as [Y|N].
  { split; [| reflexivity]. intros _. right. exists hb. auto. }
  destruct (last_sync_at hb) as [last|] eqn:L.
  - destruct (Z.ltb_spec (now - last) (seconds cd)) as [C|C].
    + split; [discriminate |].
      intros [H|(hb' & H & [U|[U|(l & U & G)]])]; try discriminate.
      * congruence.
      * injection H as <-. congruence.
      * injection H as <-. rewrite L in U. injection U as <-. lia.
    + split; [| reflexivity]. intros _. right. exists hb.
      split; [reflexivity |]. right. right. exists last. auto.
  - split; [| reflexivity]. intros _. right. exists hb. auto.
Qed.




End Arbitration.

(** ** Flow update: task_dao.py, task_service.py and the client's request *)
Section FlowUpdate.

Import Json TaskDao.

Implicit Types (tbl : table).

Lemma get_task_by_id_lookup tbl task_id user t :
  get_task_by_id tbl task_id user = Some t -> tbl !! task_id = Some t.
Proof.
  unfold get_task_by_id. destruct (tbl !! task_id); [| discriminate].
  now destruct (decide _).
Qed.

(** Rows other than the addressed one are never touched. *)
Lemma update_task_flow_other tbl now task_id user f fs i :
  i <> task_id -> (update_task_flow tbl now task_id user f fs).1 !! i = tbl !! i.
Proof.
  intros N. unfold update_task_flow.
  destruct f, fs; simpl; try reflexivity;
    destruct (get_task_by_id tbl task_id user); simpl;
    rewrite ?lookup_insert_ne by congruence; reflexivity.
Qed.

(** The addressed row, when it is the caller's, gets the given columns. *)
Lemma update_task_flow_row tbl now task_id user f fs t :
  get_task_by_id tbl task_id user = Some t ->
  (update_task_flow tbl now task_id user f fs).1 !! task_id
  = Some (match f, fs with None, None => t | _, _ => apply_update f fs now t end).
Proof.
  intros G. unfold update_task_flow. rewrite G.
  destruct f, fs; simpl; rewrite ?lookup_insert_eq; try reflexivity.
  now apply get_task_by_id_lookup in G.
Qed.

Lemma update_task_flow_absent tbl now task_id user f fs :
  get_task_by_id tbl task_id user = None ->
  (update_task_flow tbl now task_id user f fs).1 = tbl.
Proof. intros G. unfold update_task_flow. rewrite G. now destruct f, fs. Qed.

Lemma update_task_flow_keeps_flow tbl now task_id user fs i :
  flow <$> (update_task_flow tbl now task_id user None fs).1 !! i = flow <$> tbl !! i.
Proof.
  destruct (decide (i = task_id)) as [->|N];
    [| now rewrite update_task_flow_other].
  destruct (get_task_by_id tbl task_id user) as [t|] eqn:G.
  - rewrite (update_task_flow_row _ _ _ _ _ _ _ G),
      (get_task_by_id_lookup _ _ _ _ G).
    now destruct fs.
  - now rewrite update_task_flow_absent.
Qed.

Lemma update_task_flow_keeps_flow_status tbl now task_id user f i :
  flow_status <$> (update_task_flow tbl now task_id user f None).1 !! i
  = flow_status <$> tbl !! i.
Proof.
  destruct (decide (i = task_id)) as [->|N];
    [| now rewrite update_task_flow_other].
  destruct (get_task_by_id tbl task_id user) as [t|] eqn:G.
  - rewrite (update_task_flow_row _ _ _ _ _ _ _ G),
      (get_task_by_id_lookup _ _ _ _ G).
    now destruct f.
  - now rewrite update_task_flow_absent.
Qed.

Lemma update_task_flow_keeps_identity tbl now task_id user f fs i :
  identity_columns <$> (update_task_flow tbl now task_id user f fs).1 !! i
  = identity_columns <$> tbl !! i.
Proof.
  destruct (decide (i = task_id)) as [->|N];
    [| now rewrite update_task_flow_other].
  destruct (get_task_by_id tbl task_id user) as [t|] eqn:G.
  - rewrite (update_task_flow_row _ _ _ _ _ _ _ G),
      (get_task_by_id_lookup _ _ _ _ G).
    now destruct f, fs.
  - now rewrite update_task_flow_absent.
Qed.

Lemma update_flow_table tbl now task_id user f fs :
  (update_flow tbl now task_id user f fs).1 = tbl
  \/ (update_flow tbl now task_id user f fs).1
     = (update_task_flow tbl now task_id user f fs).1.
Proof.
  unfold update_flow.
  destruct (get_task_by_id tbl task_id user); [| now left].
  destruct f as [[| | | | |d]|]; try (now left).
  - destruct (dict_get "nodes" d) as [[| | | | |]|]; try (now left);
      (destruct fs as [s|]; [destruct (32 <? Py.len s); [now left | now right] | now right]).
  - destruct fs as [s|]; [destruct (32 <? Py.len s); [now left | now right] | now right].
Qed.

(** C7. A flow update with only [flow_status] leaves every stored
    [flow] as it was, one with only [flow] leaves every stored
    [flow_status] as it was, on the DAO and through the service; the
    addressed row takes exactly the fields given and no other row or
    column changes; with both fields null nothing changes and the DAO
    reports success. The request the client sends carries null for a
    field it was not given, which the server reads as absent. *)
Theorem update_task_flow_frame tbl now task_id user :
  (forall fs i,
      flow <$> (update_task_flow tbl now task_id user None fs).1 !! i = flow <$> tbl !! i
      /\ flow <$> (update_flow tbl now task_id user None fs).1 !! i = flow <$> tbl !! i)
  /\ (forall f i,
        flow_status <$> (update_task_flow tbl now task_id user f None).1 !! i
        = flow_status <$> tbl !! i
        /\ flow_status <$> (update_flow tbl now task_id user f None).1 !! i
           = flow_status <$> tbl !! i)
  /\ update_task_flow tbl now task_id user None None = (tbl, true)
  /\ (forall f fs i,
        identity_columns <$> (update_task_flow tbl now task_id user f fs).1 !! i
        = identity_columns <$> tbl !! i)
  /\ (forall f fs,
        (fun t => (flow t, flow_status t))
          <$> get_task_by_id (update_task_flow tbl now task_id user f fs).1 task_id user
        = (fun t => (from_option Some (flow t) f, from_option Some (flow_status t) fs))
            <$> get_task_by_id tbl task_id user)
  /\ (forall fs f,
        Rpc.json_data (Rpc.flow_request task_id fs f)
        = Some (JObj [("flow_status", Rpc.opt_json JStr fs); ("flow", Rpc.opt_json JObj f)])
        /\ body_field "flow_status" [("flow_status", Rpc.opt_json JStr fs);
                                     ("flow", Rpc.opt_json JObj f)] = JStr <$> fs
        /\ body_field "flow" [("flow_status", Rpc.opt_json JStr fs);
                              ("flow", Rpc.opt_json JObj f)] = JObj <$> f).
Proof.
  split; [| split; [| split; [| split; [| split]]]].
  - intros fs i. split; [apply update_task_flow_keeps_flow |].
    destruct (update_flow_table tbl now task_id user None fs) as [-> | ->];
      [reflexivity | apply update_task_flow_keeps_flow].
  - intros f i. split; [apply update_task_flow_keeps_flow_status |].
    destruct (update_flow_table tbl now task_id user f None) as [-> | ->];
      [reflexivity | apply update_task_flow_keeps_flow_status].
  - reflexivity.
  - intros. apply update_task_flow_keeps_identity.
  - intros f fs.
    destruct (get_task_by_id tbl task_id user) as [t|] eqn:G.
    + unfold get_task_by_id at 1.
      rewrite (update_task_flow_row _ _ _ _ _ _ _ G).
      assert (U : user_id t = user).
      { unfold get_task_by_id in G. destruct (tbl !! task_id); [| discriminate].
        destruct (decide _); [congruence | discriminate]. }
      destruct f, fs; simpl; (destruct (decide _); [reflexivity | congruence]).
    + now rewrite update_task_flow_absent, G.
  - intros fs f. split; [reflexivity |].
    split; [now destruct fs | now destruct f].
Qed.

End FlowUpdate.

(** ** Transport: apiserver_rpc.py *)
Section Transport.

Import Json Rpc.

Variable repr : json -> string.

Lemma repeat_app_cons {A : Type} (x : A) (k : nat) (l : list A) :
  (repeat x k ++ x :: l = x :: repeat x k ++ l)%list.
Proof. induction k as [|k IH]; simpl; [reflexivity | now rewrite IH]. Qed.

Lemma after_shift n r k j :
  after (sleep 10 (send r n).2) r k j = after n r (Datatypes.S k) (Datatypes.S j).
Proof.
  unfold after, sleep, send; simpl. now rewrite !repeat_app_cons.
Qed.

(** A response ends the call at once, whatever it is. *)
Lemma request_retrying_response left r n status_code b :
  outcome n (List.length (sent n)) = Response status_code b ->
  request_retrying repr left r n = (after n r 1 0, on_response repr status_code b).
Proof. intros O. destruct left; simpl; unfold send; now rewrite O. Qed.

(** A connection failure is retried after a sleep of 10 s while retries
    remain, and raises otherwise. *)
Lemma request_retrying_failure left r n e :
  outcome n (List.length (sent n)) = RequestException e ->
  request_retrying repr left r n
  = match left with
    | O => ((send r n).2, Py.Raise (Py.ApiException 0 ("请求异常: " +:+ e)))
    | Datatypes.S k => request_retrying repr k r (sleep 10 (send r n).2)
    end.
Proof. intros O. destruct left; simpl; unfold send; now rewrite O. Qed.

(** [k] connection failures followed by a response: [k] sleeps of 10 s,
    [k + 1] requests, and the response decides. *)
Lemma request_retrying_answered r status_code b :
  forall (k left : nat) n,
    (k <= left)%nat ->
    (forall i, (i < k)%nat -> exists e, raises_at n i e) ->
    outcome n (List.length (sent n) + k)%nat = Response status_code b ->
    request_retrying repr left r n
    = (after n r (Datatypes.S k) k, on_response repr status_code b).
Proof.
  induction k as [|k IH]; intros left n L F O.
  - rewrite Nat.add_0_r in O. now apply request_retrying_response.
  - destruct left as [|left]; [lia |].
    destruct (F 0%nat ltac:(lia)) as [e E]. unfold raises_at in E.
    rewrite Nat.add_0_r in E.
    rewrite (request_retrying_failure _ _ _ _ E).
    rewrite (IH left (sleep 10 (send r n).2)).
    + now rewrite after_shift.
    + lia.
    + intros i Hi. destruct (F (Datatypes.S i) ltac:(lia)) as [e' E'].
      exists e'. unfold raises_at in *. simpl.
      now rewrite <- Nat.add_succ_r.
    + simpl. now rewrite <- Nat.add_succ_r.
Qed.

(** Connection failures throughout: after the first request and
    [left] retries, each after a sleep of 10 s, the call raises
    [ApiException(0, ...)] with the text of the last failure. *)
Lemma request_retrying_exhausted r :
  forall (left : nat) n,
    (forall i, (i <= left)%nat -> exists e, raises_at n i e) ->
    exists e, raises_at n left e
      /\ request_retrying repr left r n
         = (after n r (Datatypes.S left) left,
            Py.Raise (Py.ApiException 0 ("请求异常: " +:+ e))).
Proof.
  induction left as [|left IH]; intros n F.
  - destruct (F 0%nat ltac:(lia)) as [e E]. exists e. split; [exact E |].
    unfold raises_at in E. rewrite Nat.add_0_r in E.
    now rewrite (request_retrying_failure _ _ _ _ E).
  - destruct (F 0%nat ltac:(lia)) as [e0 E0]. unfold raises_at in E0.
    rewrite Nat.add_0_r in E0.
    destruct (IH (sleep 10 (send r n).2)) as (e & E & R).
    + intros i Hi. destruct (F (Datatypes.S i) ltac:(lia)) as [e' E'].
      exists e'. unfold raises_at in *. simpl. now rewrite <- Nat.add_succ_r.
    + exists e. split.
      * unfold raises_at in *. simpl in E. now rewrite <- Nat.add_succ_r in E.
      * rewrite (request_retrying_failure _ _ _ _ E0).
        rewrite R. now rewrite after_shift.
Qed.

(** [_request] as the source writes it: retry while
    [_network_retry_count < max_network_retries]. *)
Lemma _request_unfold r count n :
  _request repr r count n
  = match send r n with
    | (Response status_code b, n1) => (n1, on_response repr status_code b)
    | (RequestException e, n1) =>
        if (count <? max_network_retries)%nat
        then _request repr r (Datatypes.S count) (sleep 10 n1)
        else (n1, Py.Raise (Py.ApiException 0 ("请求异常: " +:+ e)))
    end.
Proof.
  unfold _request.
  destruct (Nat.ltb_spec count max_network_retries) as [L|L].
  - replace (max_network_retries - count)%nat
      with (Datatypes.S (max_network_retries - Datatypes.S count)) by lia.
    simpl. now destruct (send r n) as [[e|? ?] ?].
  - replace (max_network_retries - count)%nat with 0%nat by lia.
    simpl. now destruct (send r n) as [[e|? ?] ?].
Qed.

(** What a response with status 400 or more and a JSON body leads to. *)
Lemma on_response_error status_code data :
  400 <= status_code ->
  on_response repr status_code (Parsed data)
  = match data with
    | JObj d =>
        Py.Raise (Py.ApiException status_code
                    (py_str repr (dict_get_default "message" (JStr "请求失败") d)))
    | v => Py.Raise (no_get v)
    end.
Proof.
  intros G. unfold on_response.
  destruct (Z.leb_spec 400 status_code); [| lia]. now destruct data.
Qed.

End Transport.

(** ** Workflow: base_node.py, code_develop_node.py, task_worker.py *)
Section Workflow.

Import Json Host Worker.

Context {S : Type} (h : host S).

Implicit Types (impl : node_impl (S := S)) (t : Task) (w : world S).

Local Abbreviation announce := (Worker.announce h).
Local Abbreviation persist := (Worker.persist h).
Local Abbreviation stage_runs := (Worker.stage_runs h).

Lemma _execute_and_persist_phases impl current executing next name main t w :
  _execute_and_persist h impl current executing next name main t w
  = bind (announce current executing) (fun _ =>
    bind (envelope impl name main) (fun _ =>
    bind (persist next) (fun _ => ret tt))) t w.
Proof.
  unfold _execute_and_persist, announce, envelope, persist, bind.
  destruct (decide (current = executing)) as [_|_].
  - unfold ret.
    destruct (staged "before_execute" (before_execute impl) t w) as [[w1 t1] [[]|e1]];
      [| reflexivity].
    destruct (staged name main t1 w1) as [[w2 t2] [[]|e2]]; [| reflexivity].
    now destruct (staged "after_execute" (after_execute impl) t2 w2) as [[w3 t3] [[]|e3]].
  - destruct (rpc_update_task_flow h (id t) (Some executing) None t w) as [[w0 t0] [b|e0]];
      [| reflexivity].
    destruct (staged "before_execute" (before_execute impl) t0 w0) as [[w1 t1] [[]|e1]];
      [| reflexivity].
    destruct (staged name main t1 w1) as [[w2 t2] [[]|e2]]; [| reflexivity].
    now destruct (staged "after_execute" (after_execute impl) t2 w2) as [[w3 t3] [[]|e3]].
Qed.

(** A stage whose envelope returns ends with one update that carries
    the flow document and the next status together. *)
Lemma _execute_and_persist_success impl current executing next name main t w
      w0 t0 b w3 t3 s4 b' :
  announce current executing t w = (w0, t0, Py.Ok b) ->
  envelope impl name main t0 w0 = (w3, t3, Py.Ok tt) ->
  update_task_flow h (st w3) (id t3) (Some next) (Some (flow t3)) = (s4, Py.Ok b') ->
  _execute_and_persist h impl current executing next name main t w
  = (record (RpcUpdateTaskFlow (id t3) (Some next) (Some (flow t3))) s4 w3, t3, Py.Ok tt).
Proof.
  intros A E U. rewrite _execute_and_persist_phases. unfold bind.
  rewrite A, E. unfold persist, rpc_update_task_flow. now rewrite U.
Qed.

(** An exception of the envelope leaves [_execute_and_persist] as it
    is: nothing catches it there and no update follows it. *)
Lemma _execute_and_persist_raise impl current executing next name main t w
      w0 t0 b w3 t3 e :
  announce current executing t w = (w0, t0, Py.Ok b) ->
  envelope impl name main t0 w0 = (w3, t3, Py.Raise e) ->
  _execute_and_persist h impl current executing next name main t w = (w3, t3, Py.Raise e).
Proof.
  intros A E. rewrite _execute_and_persist_phases. unfold bind. now rewrite A, E.
Qed.

(** The dispatch of [execute] on [flow_status]. *)
Lemma execute_dispatch impl t w :
  execute h impl t w
  = let fs := flow_status t in
    if decide (fs = "pending" \/ fs = "running") then
      _execute_and_persist h impl fs "running" "reviewing" "execute_for_pending"
        (execute_for_pending impl) t w
    else if decide (fs = "revising") then
      _execute_and_persist h impl fs "revising" "reviewing" "execute_for_revising"
        (execute_for_revising impl) t w
    else if decide (fs = "reviewed") then
      _execute_and_persist h impl fs "reviewed" "done" "execute_for_reviewed"
        (execute_for_reviewed impl) t w
    else if decide (fs ∈ ["reviewing"; "done"; "error"; "client_error"]) then
      (w, t, Py.Ok tt)
    else
      (w, t, Py.Raise (Py.ValueError ("当前节点 " +:+ node_name impl +:+ " 状态不正确: " +:+ fs))).
Proof.
  unfold execute. cbv zeta.
  destruct (decide (flow_status t = "pending" \/ flow_status t = "running")) as [[E|E]|N].
  - now rewrite E.
  - now rewrite E.
  - rewrite !bool_decide_eq_false_2 by tauto. simpl.
    destruct (decide (flow_status t = "revising")) as [E|N1].
    + now rewrite E.
    + rewrite (bool_decide_eq_false_2 _ N1).
      destruct (decide (flow_status t = "reviewed")) as [E|N2].
      * now rewrite E.
      * rewrite (bool_decide_eq_false_2 _ N2).
        destruct (decide (flow_status t ∈ ["reviewing"; "done"; "error"; "client_error"])) as [E|N3].
        -- now rewrite (bool_decide_eq_true_2 _ E).
        -- now rewrite (bool_decide_eq_false_2 _ N3).
Qed.

Lemma stage_runs_of impl t w executing next name main :
  execute h impl t w
  = _execute_and_persist h impl (flow_status t) executing next name main t w ->
  stage_runs impl t w executing next name main.
Proof.
  intros D w0 t0 b w3 t3 s4 b' A E U. rewrite D.
  eapply _execute_and_persist_success; eassumption.
Qed.

Lemma user_feedback_last t nodes c :
  dict_get "nodes" (flow t)
  = Some (JArr (nodes ++ [JObj [("type", JStr "user_feedback"); ("content", JStr c)]])) ->
  user_feedback t = Py.Ok (JStr c).
Proof.
  intros G. unfold user_feedback, dict_get_default. rewrite G.
  now rewrite last_snoc.
Qed.

Lemma _build_development_prompt_feedback env t w w1 t1 p c :
  resolve_paths env t w = (w1, t1, Py.Ok p) ->
  user_feedback t1 = Py.Ok (JStr c) -> c <> "" ->
  _build_development_prompt h env t w
  = (w1, t1, Py.Ok (prompt_before_feedback env p t1 +:+ feedback_step p c
                    +:+ prompt_after_feedback env p)).
Proof.
  intros R F N. unfold _build_development_prompt, bind. rewrite R, F.
  destruct c; [congruence | reflexivity].
Qed.

Lemma waiting_status_inactive (fs : string) :
  fs ∈ ["reviewing"; "done"; "error"; "client_error"] ->
  fs <> "pending" /\ fs <> "running" /\ fs <> "revising" /\ fs <> "reviewed".
Proof.
  rewrite !elem_of_cons, elem_of_nil.
  intros [->|[->|[->|[->|[]]]]]; repeat split; discriminate.
Qed.


End Workflow.


Section WorkflowOnBench.

Import Json Host Worker Bench.


End WorkflowOnBench.

(** ** Failure of a stage: task_worker.py *)
Section StageFailure.

Import Json Host Worker.

Context {S : Type} (h : host S).

Implicit Types (impl : node_impl (S := S)) (t : Task) (w : world S) (th : thread (S := S)).

Local Abbreviation ready := (Worker.ready h).
Local Abbreviation error_persists := (Worker.error_persists h).
Local Abbreviation stage_fails := (Worker.stage_fails h).

Lemma dict_get_set k v (d : dict) : dict_get k (dict_set k v d) = Some v.
Proof.
  induction d as [|[k' v'] d IH]; simpl.
  - now destruct (decide (k = k)).
  - destruct (decide (k' = k)) as [E|N]; simpl.
    + now destruct (decide (k = k)).
    + now destruct (decide (k' = k)).
Qed.

Lemma on_exception_caught e t w :
  on_exception h e t w
  = caught e t w (update_task_flow h (st w) (id t) (Some "client_error")
                    (Some (flow (with_error e t)))).
Proof.
  unfold on_exception, caught, rpc_update_task_flow. simpl.
  now destruct (update_task_flow h (st w) (id t) _ _) as [s [b|e']].
Qed.

Lemma run_once_catches impl th t w2 w3 t3 e :
  ready th t w2 ->
  execute h impl t w2 = (w3, t3, Py.Raise e) ->
  run_once h impl th
  = caught e t3 w3 (update_task_flow h (st w3) (id t3) (Some "client_error")
                      (Some (flow (with_error e t3)))).
Proof.
  intros (s1 & s2 & G & N & C & ->) X. unfold run_once.
  rewrite G, N. simpl. rewrite C, X. apply on_exception_caught.
Qed.

Lemma run_once_skips impl th s1 t :
  get_task h (st (outside th)) (id (task th)) = (s1, Py.Ok t) ->
  Py.contains "error" (flow_status t) = true ->
  run_once h impl th
  = ({| task := t; outside := record (RpcGetTask (id (task th))) s1 (outside th) |}, None).
Proof. intros G E. unfold run_once. now rewrite G, E. Qed.

Lemma run_once_while_error Inv impl th :
  error_persists Inv -> Inv (st (outside th)) ->
  Inv (st (outside (run_once h impl th).1))
  /\ stages (trail (outside (run_once h impl th).1)) = stages (trail (outside th)).
Proof.
  intros [HG HU] I. unfold run_once.
  destruct (HG _ (id (task th)) I) as [I1 E1].
  destruct (get_task h (st (outside th)) (id (task th))) as [s1 [t|e]]; simpl in *.
  - rewrite (E1 t eq_refl). simpl. auto.
  - rewrite on_exception_caught. unfold caught; simpl.
    split; [| reflexivity]. now apply HU.
Qed.

Lemma run_while_error Inv impl :
  error_persists Inv ->
  forall n th, Inv (st (outside th)) ->
    stages (trail (outside (run h impl n th).1)) = stages (trail (outside th)).
Proof.
  intros P. induction n as [|n IH]; intros th I; [reflexivity |].
  simpl. destruct (run_once_while_error Inv impl th P I) as [I1 T1].
  destruct (run_once h impl th) as [th1 [e|]]; simpl in *; [exact T1 |].
  now rewrite IH.
Qed.

Lemma stage_fails_of impl t w executing next name main :
  execute h impl t w
  = _execute_and_persist h impl (flow_status t) executing next name main t w ->
  stage_fails impl t w executing next name main.
Proof.
  intros D w0 t0 b w3 t3 e A E. rewrite D.
  eapply _execute_and_persist_raise; eassumption.
Qed.


End StageFailure.

Section StageFailureOnBench.

Import Json Host Worker Bench.

Lemma parked_persists : error_persists bench parked.
Proof.
  split.
  - intros s i P. simpl. split; [exact P |].
    intros t E. injection E as <-. unfold parked in P. now rewrite P.
  - intros s i f P. simpl. now destruct (accepting s).
Qed.


(** When the server does not take the update that stores
    [client_error], the next turn fetches the old status and calls the
    failed stage again. *)
Lemma dropped_update_runs_stage_again :
  let refusing := {| task := task7 [] "running";
                     outside := start (task7 [] "running") false false |} in
  (run bench (node true) 2 refusing).2 = None
  /\ stages (trail (outside (run bench (node true) 2 refusing).1))
     = ["before_execute"; "before_execute"].
Proof. split; reflexivity. Qed.

End StageFailureOnBench.

(** ** Errors of the flow update: apiserver_rpc.py and task_worker.py *)
Section SilentUpdate.

Import Json Rpc.

(** C10. The flow update of the transport never raises [ApiException]:
    when [_request] raises one, be it for a status of 400 or more or
    for retries used up, it returns [False], and it returns [True] when
    [_request] returns. In the run loop the answer is not looked at:
    when storing [client_error] after a failed stage returns [False],
    the turn ends normally after that one attempt. *)
Theorem update_task_flow_swallows_api_errors
    (repr : json -> string) task_id fs f n :
  let r := flow_request task_id fs f in
  (forall c m, (update_task_flow repr task_id fs f n).2 <> Py.Raise (Py.ApiException c m))
  /\ (forall c m, (_request repr r 0 n).2 = Py.Raise (Py.ApiException c m) ->
      update_task_flow repr task_id fs f n = ((_request repr r 0 n).1, Py.Ok false))
  /\ (forall d, (_request repr r 0 n).2 = Py.Ok d ->
      update_task_flow repr task_id fs f n = ((_request repr r 0 n).1, Py.Ok true))
  /\ (forall status d, 400 <= status ->
      outcome n (List.length (sent n)) = Response status (Parsed (JObj d)) ->
      update_task_flow repr task_id fs f n = (after n r 1 0, Py.Ok false))
  /\ ((forall i, (i <= max_network_retries)%nat -> exists e, raises_at n i e) ->
      update_task_flow repr task_id fs f n = (after n r 11 10, Py.Ok false))
  /\ (forall S (h : Host.host S) impl th t w2 w3 t3 e s4,
        Worker.ready h th t w2 ->
        Worker.execute h impl t w2 = (w3, t3, Py.Raise e) ->
        Host.update_task_flow h (Host.st w3) (Host.id t3) (Some "client_error")
          (Some (Host.flow (Worker.with_error e t3))) = (s4, Py.Ok false) ->
        Worker.run_once h impl th
        = ({| Worker.task := Worker.with_error e t3;
              Worker.outside :=
                Host.record (Host.RpcUpdateTaskFlow (Host.id t3) (Some "client_error")
                               (Some (Host.flow (Worker.with_error e t3)))) s4 w3 |},
           None)).
Proof.
  intros r. unfold update_task_flow. fold r.
  split; [| split; [| split; [| split; [| split]]]].
  - intros c m.
    destruct (_request repr r 0 n) as [n' [d|[]]]; simpl; discriminate.
  - intros c m E. destruct (_request repr r 0 n) as [n' [d|e]]; simpl in *; [discriminate |].
    injection E as ->. reflexivity.
  - intros d E. destruct (_request repr r 0 n) as [n' [d'|e]]; simpl in *;
      [reflexivity | discriminate].
  - intros status d G O. unfold _request.
    rewrite (request_retrying_response repr _ r n status _ O).
    now rewrite on_response_error.
  - intros F. unfold _request.
    destruct (request_retrying_exhausted repr r (max_network_retries - 0) n) as (e & _ & R).
    { intros i Hi. apply F. simpl in Hi. exact Hi. }
    now rewrite R.
  - intros S h impl th t w2 w3 t3 e s4 R X U.
    rewrite (run_once_catches h impl th t w2 w3 t3 e R X), U. reflexivity.
Qed.

Lemma update_task_flow_swallows_api_errors_witness :
  update_task_flow (fun _ => "?") 7 (Some "client_error") (Some [])
    (scripted [Response 409 (Parsed (JObj [("code", JInt 409); ("message", JStr "重复客户端")]))])
  = (after (scripted [Response 409 (Parsed (JObj [("code", JInt 409);
                                                   ("message", JStr "重复客户端")]))])
       (flow_request 7 (Some "client_error") (Some [])) 1 0,
     Py.Ok false)
  /\ update_task_flow (fun _ => "?") 7 (Some "client_error") (Some []) (scripted [])
     = (after (scripted []) (flow_request 7 (Some "client_error") (Some [])) 11 10,
        Py.Ok false)
  /\ (update_task_flow (fun _ => "?") 7 (Some "reviewing") None
        (scripted [RequestException "timed out";
                   Response 200 (Parsed (JObj [("code", JInt 200)]))])).2
     = Py.Ok true
  /\ (update_task_flow (fun _ => "?") 7 (Some "reviewing") None
        (scripted [Response 502 (Unparsable "Expecting value: line 1 column 1 (char 0)")])).2
     = Py.Ok false
  /\ (exists th,
        Worker.run_once Bench.bench (Bench.node true)
          {| Worker.task := Bench.task7 [] "pending";
             Worker.outside := Bench.start (Bench.task7 [] "pending") false false |}
        = (th, None)
        /\ Host.flow_status (Bench.stored (Host.st (Worker.outside th))) = "pending"
        /\ Host.trail (Worker.outside th)
           = [Host.RpcUpdateTaskFlow 7 (Some "client_error")
                (Some [("error", JStr "代码仓库 app 准备失败: timeout")]);
              Host.Stage "before_execute"; Host.RpcUpdateTaskFlow 7 (Some "running") None;
              Host.RpcSyncConfig; Host.RpcGetTask 7]).
Proof.
  split; [| split; [| split; [| split]]].
  - apply (update_task_flow_swallows_api_errors (fun _ => "?") 7 (Some "client_error") (Some []))
      with (status := 409) (d := [("code", JInt 409); ("message", JStr "重复客户端")]);
      [vm_compute; discriminate | reflexivity].
  - apply (update_task_flow_swallows_api_errors (fun _ => "?") 7 (Some "client_error") (Some [])
             (scripted [])).
    intros i _. exists "Connection refused". unfold raises_at, scripted. simpl.
    now destruct i.
  - destruct (update_task_flow_swallows_api_errors (fun _ => "?") 7 (Some "reviewing") None
                (scripted [RequestException "timed out";
                           Response 200 (Parsed (JObj [("code", JInt 200)]))]))
      as (_ & _ & T & _).
    rewrite (T (JObj [("code", JInt 200)])); reflexivity.
  - destruct (update_task_flow_swallows_api_errors (fun _ => "?") 7 (Some "reviewing") None
                (scripted [Response 502 (Unparsable "Expecting value: line 1 column 1 (char 0)")]))
      as (_ & T & _).
    rewrite (T 502 ("服务器返回非 JSON 响应: " +:+ "Expecting value: line 1 column 1 (char 0)"));
      reflexivity.
  - destruct (update_task_flow_swallows_api_errors (fun _ => "?") 0 None None (scripted []))
      as (_ & _ & _ & _ & _ & W).
    eexists. split.
    { eapply (W _ Bench.bench (Bench.node true)) with (t := Bench.task7 [] "pending").
      - do 2 eexists. split; [reflexivity |]. split; [reflexivity |]. split; reflexivity.
      - reflexivity.
      - reflexivity. }
    split; reflexivity.
Defined.

End SilentUpdate.

(** ** Commit and push: git_utils.py *)
Section CommitAndPush.

Import Json Host GitUtils.

Context {S : Type} (h : host S).

Variables repo_dir default_branch' : string.

Implicit Types (w : world S) (s : S).

Local Abbreviation next := (GitUtils.next h repo_dir).
Local Abbreviation answer := (GitUtils.answer h repo_dir).
Local Abbreviation clean_at := (GitUtils.clean_at h repo_dir).
Local Abbreviation counts_are_integers := (GitUtils.counts_are_integers h repo_dir).
Local Abbreviation report_trail := (GitUtils.report_trail h repo_dir default_branch').
Local Abbreviation report_state := (GitUtils.report_state h repo_dir default_branch').
Local Abbreviation ahead_report := (GitUtils.ahead_report default_branch').
Local Abbreviation git_contract := (GitUtils.git_contract h repo_dir).
Local Abbreviation nothing_to_commit := (GitUtils.nothing_to_commit h repo_dir default_branch').

Lemma _run_git_command_eq cmd w :
  _run_git_command h cmd repo_dir w
  = (record (GitCommand repo_dir cmd) (next (st w) cmd) w, answer (st w) cmd).
Proof.
  unfold _run_git_command, next, answer.
  now destruct (subprocess_run h (st w) repo_dir cmd) as [s p].
Qed.

Lemma step_eq cmd prefix k w :
  step h cmd repo_dir prefix k w
  = if success (answer (st w) cmd)
    then k (answer (st w) cmd) (record (GitCommand repo_dir cmd) (next (st w) cmd) w)
    else (record (GitCommand repo_dir cmd) (next (st w) cmd) w,
          failed (prefix +:+ message (answer (st w) cmd))).
Proof. unfold step. now rewrite _run_git_command_eq. Qed.

Lemma report_with_diff_reports msg w :
  counts_are_integers ->
  exists diff,
    report_with_diff h repo_dir default_branch' msg w
    = ({| st := report_state (st w); trail := (report_trail (st w) ++ trail w)%list |},
       {| success := true; message := msg; default_branch := ""; diff_message := diff |})
    /\ ahead_report diff.
Proof.
  intros C. unfold report_with_diff, _check_diff_with_default_branch,
    report_state, report_trail.
  rewrite _run_git_command_eq. fold rev_parse_cmd.
  destruct (success (answer (st w) rev_parse_cmd)) eqn:B; simpl.
  - destruct (decide (Py.strip (message (answer (st w) rev_parse_cmd)) = default_branch'))
      as [E|N].
    + exists "". split; [reflexivity | now left].
    + rewrite _run_git_command_eq. simpl.
      set (range := "origin/" +:+ default_branch' +:+ ".."
                    +:+ Py.strip (message (answer (st w) rev_parse_cmd))).
      fold (rev_list_cmd range).
      destruct (success (answer (next (st w) rev_parse_cmd) (rev_list_cmd range))) eqn:L.
      * destruct (C _ _ L) as [ahead A]. rewrite A.
        destruct (Z.eqb_spec ahead 0) as [Z0|Z0].
        -- exists "". split; [reflexivity | now left].
        -- eexists. split; [reflexivity |]. right. now exists ahead.
      * exists "". split; [reflexivity | now left].
  - exists "". split; [reflexivity | now left].
Qed.

(** With nothing to commit the operation only reads. *)
Lemma commit_and_push_changes_clean commit_msg w :
  clean_at (st w) -> counts_are_integers ->
  exists diff,
    commit_and_push_changes h repo_dir commit_msg default_branch' w
    = ({| st := report_state (next (st w) status_cmd);
          trail := (report_trail (next (st w) status_cmd)
                    ++ GitCommand repo_dir status_cmd :: trail w)%list |},
       {| success := true; message := "没有需要提交的修改"; default_branch := "";
          diff_message := diff |})
    /\ ahead_report diff.
Proof.
  intros (P1 & P2 & P3 & P4) C. unfold commit_and_push_changes.
  rewrite P1, P2. simpl. rewrite step_eq. fold status_cmd. rewrite P3, P4. simpl.
  destruct (report_with_diff_reports "没有需要提交的修改"
              (record (GitCommand repo_dir status_cmd) (next (st w) status_cmd) w) C)
    as (diff & R & A).
  exists diff. split; [exact R | exact A].
Qed.

Lemma report_state_clean s :
  git_contract -> clean_at s -> clean_at (report_state s).
Proof.
  intros [K _] C. unfold report_state.
  assert (C1 : clean_at (next s rev_parse_cmd)) by (apply K; auto).
  destruct (success (answer s rev_parse_cmd)); [| exact C1].
  destruct (decide _); [exact C1 |].
  apply K; [| exact C1]. right. right. left. eexists. reflexivity.
Qed.

Lemma report_with_diff_state msg w :
  (report_with_diff h repo_dir default_branch' msg w).1.(st) = report_state (st w).
Proof.
  unfold report_with_diff, _check_diff_with_default_branch, report_state.
  rewrite _run_git_command_eq. fold rev_parse_cmd.
  destruct (success (answer (st w) rev_parse_cmd)); simpl; [| reflexivity].
  destruct (decide _); [reflexivity |].
  rewrite _run_git_command_eq. simpl.
  destruct (success (answer _ _)); [| reflexivity].
  destruct (Py.int _) as [ahead|]; [| reflexivity].
  now destruct (ahead =? 0).
Qed.

Lemma truthy_false (x : string) : Py.truthy x = false -> x = "".
Proof. now destruct x. Qed.

(** A call that reports success leaves a clean working copy. *)
Lemma commit_and_push_changes_leaves_clean commit_msg w w1 r1 :
  git_contract ->
  commit_and_push_changes h repo_dir commit_msg default_branch' w = (w1, r1) ->
  success r1 = true -> clean_at (st w1).
Proof.
  intros K. pose proof K as [KR KC]. unfold commit_and_push_changes.
  destruct (path_exists h (st w) repo_dir) eqn:P1; simpl;
    [| intros E; injection E as <- <-; discriminate].
  destruct (path_exists h (st w) (path_join repo_dir ".git")) eqn:P2; simpl;
    [| intros E; injection E as <- <-; discriminate].
  rewrite step_eq. fold status_cmd.
  destruct (success (answer (st w) status_cmd)) eqn:P3;
    [| intros E; injection E as <- <-; discriminate].
  destruct (Py.truthy (Py.strip (message (answer (st w) status_cmd)))) eqn:P4; simpl.
  - rewrite step_eq.
    destruct (success (answer _ ["git"; "add"; "-A"]));
      [| intros E; injection E as <- <-; discriminate].
    rewrite step_eq. fold (commit_cmd commit_msg). simpl.
    set (s2 := next (next (st w) status_cmd) ["git"; "add"; "-A"]).
    destruct (success (answer s2 (commit_cmd commit_msg))) eqn:C3;
      [| intros E; injection E as <- <-; discriminate].
    pose proof (KC _ _ C3) as CL.
    rewrite step_eq. fold rev_parse_cmd. simpl.
    set (s3 := next s2 (commit_cmd commit_msg)) in *.
    destruct (success (answer s3 rev_parse_cmd));
      [| intros E; injection E as <- <-; discriminate].
    rewrite step_eq. simpl.
    set (branch := Py.strip (message (answer s3 rev_parse_cmd))).
    fold (push_cmd branch).
    destruct (success (answer (next s3 rev_parse_cmd) (push_cmd branch)));
      [| intros E; injection E as <- <-; discriminate].
    intros E _. apply (f_equal (fun x => st x.1)) in E. simpl in E.
    rewrite report_with_diff_state in E. simpl in E. rewrite <- E.
    apply report_state_clean; [exact K |].
    apply KR; [right; right; right; eexists; reflexivity |].
    apply KR; [auto |]. exact CL.
  - intros E _. apply (f_equal (fun x => st x.1)) in E. simpl in E.
    rewrite report_with_diff_state in E. simpl in E. rewrite <- E.
    apply report_state_clean; [exact K |].
    apply KR; [auto |].
    apply truthy_false in P4. repeat split; assumption.
Qed.

Lemma report_trail_reads s e :
  e ∈ report_trail s ->
  e = GitCommand repo_dir rev_parse_cmd
  \/ exists range, e = GitCommand repo_dir (rev_list_cmd range).
Proof.
  unfold report_trail.
  destruct (success _); [destruct (decide _) |];
    rewrite ?elem_of_cons, elem_of_nil; intros [->|[->|[]]] || intros [->|[]];
    (now left) || (right; eexists; reflexivity).
Qed.


End CommitAndPush.

Section CommitAndPushOnBench.

Import Json Host GitUtils Bench.

Lemma bench_counts : counts_are_integers bench "/w/app".
Proof. intros s range _. exists 1. reflexivity. Qed.

Lemma bench_git_contract : git_contract bench "/w/app".
Proof.
  split.
  - intros s cmd [->|[->|[[range ->]|[branch ->]]]] C; exact C.
  - intros s msg _. repeat split; reflexivity.
Qed.


End CommitAndPushOnBench.

(** ** A response of 400 or more whose body is JSON but not an object *)
Section ErrorBody.

Import Json Rpc.

(** C6, at a response the code does not handle. Status 500 with the
    body [[]]: [_request] raises [AttributeError], not [ApiException],
    after one request and no sleep, and [update_task_flow], which
    catches [ApiException] only, lets it through. *)
Theorem _request_error_body_not_object (repr : json -> string) :
  let r := flow_request 7 (Some "reviewing") None in
  let n := scripted [Response 500 (Parsed (JArr []))] in
  _request repr r 0 n
  = (after n r 1 0, Py.Raise (Py.AttributeError "'list' object has no attribute 'get'"))
  /\ update_task_flow repr 7 (Some "reviewing") None n
     = (after n r 1 0, Py.Raise (Py.AttributeError "'list' object has no attribute 'get'")).
Proof. split; reflexivity. Qed.

End ErrorBody.

(** ** Sync and rebase: git_utils.py and code_develop_node.py *)
Section SyncAndRebase.

Import Json Host GitUtils.

Context {S : Type} (h : host S).

Variables repo_dir dev_branch default_branch' : string.

Implicit Types (w : world S) (x : world S * GitResult).

Local Abbreviation rebase_cmd := (GitUtils.rebase_cmd default_branch').
Local Abbreviation force_push_cmd := (GitUtils.force_push_cmd dev_branch).
Local Abbreviation conflict_signalled := (GitUtils.conflict_signalled h repo_dir default_branch').
Local Abbreviation force_pushed := (GitUtils.force_pushed h repo_dir dev_branch default_branch').
Local Abbreviation outcome := (GitUtils.outcome h repo_dir dev_branch default_branch').

Lemma rebase_and_push_outcome w :
  conflict_signalled (rebase_and_push h repo_dir dev_branch default_branch' w)
  \/ force_pushed (rebase_and_push h repo_dir dev_branch default_branch' w).
Proof.
  unfold rebase_and_push. rewrite _run_git_command_eq. fold rebase_cmd.
  destruct (success (answer h repo_dir (st w) rebase_cmd)) eqn:R; simpl.
  - right. exists w. rewrite step_eq. fold force_push_cmd. simpl.
    split; [exact R |].
    now destruct (success (answer h repo_dir (next h repo_dir (st w) rebase_cmd) force_push_cmd)).
  - left. rewrite _run_git_command_eq. fold abort_cmd. simpl.
    split; [reflexivity |]. exists w. split; [exact R | reflexivity].
Qed.

Lemma step_outcome cmd prefix k w :
  (forall m, Py.startswith "r" (prefix +:+ m) = false) ->
  (forall r w1, outcome (k r w1)) ->
  outcome (step h cmd repo_dir prefix k w).
Proof.
  intros P K. rewrite step_eq.
  destruct (success (answer h repo_dir (st w) cmd)); [apply K |].
  right. right. split; [reflexivity | apply P].
Qed.

(** Every result of [sync_and_rebase_branch] is of one of three kinds. *)
Lemma sync_and_rebase_branch_outcome w :
  outcome (sync_and_rebase_branch h repo_dir dev_branch default_branch' w).
Proof.
  assert (RP : forall w', outcome (rebase_and_push h repo_dir dev_branch default_branch' w')).
  { intros w'. destruct (rebase_and_push_outcome w'); [now left | now right; left]. }
  unfold sync_and_rebase_branch.
  destruct (path_exists h (st w) repo_dir); simpl;
    [| right; right; split; reflexivity].
  destruct (path_exists h (st w) (path_join repo_dir ".git")); simpl;
    [| right; right; split; reflexivity].
  apply step_outcome; [reflexivity |]. intros _ w1.
  destruct (_check_remote_branch_exists h repo_dir dev_branch w1) as [w2 [|]].
  - apply step_outcome; [reflexivity |]. intros _ w3.
    apply step_outcome; [reflexivity |]. intros _ w4. apply RP.
  - apply step_outcome; [reflexivity |]. intros _ w3.
    apply step_outcome; [reflexivity |]. intros _ w4.
    destruct (_check_local_branch_exists h repo_dir dev_branch w4) as [w5 b].
    apply step_outcome; [reflexivity |]. intros _ w6. apply RP.
Qed.

(** The conflict signal and nothing else has the message
    ["rebase conflict"]; a failed push has a message that begins with
    ["push 失败: "]. *)
Lemma rebase_conflict_is_distinguished w :
  let x := sync_and_rebase_branch h repo_dir dev_branch default_branch' w in
  (message x.2 = "rebase conflict" <-> conflict_signalled x)
  /\ (force_pushed x -> success x.2 = false ->
      exists m, message x.2 = "push 失败: " +:+ m).
Proof.
  intros x. split.
  - split.
    + intros M. destruct (sync_and_rebase_branch_outcome w) as [C|[F|[_ B]]].
      * exact C.
      * exfalso. destruct F as (w' & _ & _ & E). fold x in E.
        rewrite E in M. cbv zeta in M.
        destruct (success (answer h repo_dir (next h repo_dir (st w') rebase_cmd)
                             force_push_cmd)); simpl in M.
        -- apply (f_equal (Py.startswith "r")) in M. discriminate.
        -- discriminate.
      * exfalso. fold x in B. rewrite M in B. discriminate.
    + intros [E _]. now rewrite E.
  - intros (w' & _ & _ & E) F. rewrite E in *. cbv zeta in *.
    destruct (success (answer h repo_dir (next h repo_dir (st w') rebase_cmd)
                         force_push_cmd)); [discriminate |].
    eexists. reflexivity.
Qed.

End SyncAndRebase.

Section SyncRepo.

Import Json Host GitUtils Worker.

Context {S : Type} (h : host S).

(** What [_sync_repo] does once the working copy is there: it returns
    on success, raises on a failure whose message does not contain
    [conflict] in any case of letters, and asks the agent otherwise. *)
Lemma _sync_repo_decides work_dir' cache (git_repo : GitRepoConfig) t (w w1 : world S) r :
  let work_repo_dir := path_join work_dir' (name git_repo) in
  let dev_branch := branch_prefix git_repo +:+ pretty (id t) in
  path_exists h (st w) work_repo_dir = true ->
  sync_and_rebase_branch h work_repo_dir dev_branch (repo_default_branch git_repo) w = (w1, r) ->
  _sync_repo h work_dir' cache git_repo t w
  = if success r then (w1, t, Py.Ok tt)
    else if negb (Py.contains "conflict" (Py.lower (message r))) then
      (w1, t, Py.Raise (Py.Exception (work_repo_dir +:+ " 同步并 rebase 失败: " +:+ message r)))
    else
      bind (agent_run_prompt h "agent_rebase_conflict" work_repo_dir
              (conflict_prompt dev_branch (repo_default_branch git_repo)) true)
           (check_conflict_reply h) t w1.
Proof.
  intros work_repo_dir dev_branch P E. unfold _sync_repo.
  fold work_repo_dir. unfold bind at 1. rewrite P. unfold ret at 1.
  fold dev_branch. rewrite E. reflexivity.
Qed.

(** The stage fails when the agent fails or reports failure. *)
Lemma check_conflict_reply_failure (r : bool * json) t (w : world S) :
  fst r = false
  \/ (exists reply, snd r = JObj reply
        /\ truthy (dict_get_default "success" (JBool false) reply) = false) ->
  exists e, check_conflict_reply h r t w = (w, t, Py.Raise e).
Proof.
  unfold check_conflict_reply. intros [F|(reply & E & F)].
  - rewrite F. simpl. eexists. reflexivity.
  - destruct (fst r); simpl; [| eexists; reflexivity].
    rewrite E, F. simpl. eexists. reflexivity.
Qed.

End SyncRepo.

Section SyncRepoOnBench.

Import Json Host GitUtils Worker Bench.

(** C8, at a failure the caller takes for a conflict. The rebase
    succeeds and the forced push is refused by the remote with a text
    that has the word [conflict] in it: [sync_and_rebase_branch]
    returns an ordinary push failure, not the conflict signal, and
    [_sync_repo] hands it to the agent with the rebase-conflict prompt
    and returns normally once the agent answers with success. *)
Theorem _sync_repo_hands_over_push_failure :
  let w := start (task7 [] "pending") false true in
  let x := sync_and_rebase_branch bench "/w/app" "ai_7" "main" w in
  x.2 = failed ("push 失败: " +:+ refused)
  /\ trail x.1
     = [GitCommand "/w/app" (force_push_cmd "ai_7");
        GitCommand "/w/app" (rebase_cmd "main");
        GitCommand "/w/app" ["git"; "checkout"; "-b"; "ai_7"];
        GitCommand "/w/app" ["git"; "branch"; "--list"; "ai_7"];
        GitCommand "/w/app" ["git"; "reset"; "--hard"; "origin/main"];
        GitCommand "/w/app" ["git"; "checkout"; "main"];
        GitCommand "/w/app" ["git"; "ls-remote"; "--heads"; "origin"; "ai_7"];
        GitCommand "/w/app" ["git"; "fetch"; "--all"; "--prune"]]
  /\ ~ conflict_signalled bench "/w/app" "main" x
  /\ _sync_repo bench "/w" "/c" app_repo (task7 [] "pending") w
     = (record (AgentPrompt "agent_rebase_conflict" "/w/app"
                  (conflict_prompt "ai_7" "main") true) (st x.1) x.1,
        task7 [] "pending", Py.Ok tt).
Proof.
  intros w x. split; [reflexivity |]. split; [reflexivity |].
  split; [| reflexivity].
  intros [E _]. vm_compute in E. discriminate.
Qed.

End SyncRepoOnBench.

(** * Further properties of the code *)

(** ** Series of heartbeats *)
Section HeartbeatSeriesFacts.

Import HeartbeatDao HeartbeatSeries.

Implicit Types (tbl : table) (events : list (string * Z)).

(** What one call leaves under the key it was made for. *)
Lemma update_heartbeat_stored tbl user client tok cd now :
  let r := update_heartbeat tbl user client tok cd now in
  if accepts r.2 then r.1 !! (user, client) = Some (lease tok now)
  else r.1 = tbl.
Proof.
  unfold update_heartbeat.
  destruct (tbl !! (user, client)) as [hb|] eqn:E; simpl.
  - destruct (decide (instance_uuid hb = tok)) as [<-|N]; simpl.
    + apply lookup_insert_eq.
    + destruct (last_sync_at hb) as [last|]; simpl; [| reflexivity].
      destruct (seconds cd <=? now - last); simpl; [apply lookup_insert_eq | reflexivity].
  - apply lookup_insert_eq.
Qed.

Lemma update_heartbeat_accepts_iff tbl user client tok cd now hb :
  tbl !! (user, client) = Some hb ->
  accepts (update_heartbeat tbl user client tok cd now).2 = true ->
  instance_uuid hb = tok
  \/ exists last, last_sync_at hb = Some last /\ seconds cd <= now - last.
Proof.
  unfold update_heartbeat. intros ->.
  destruct (decide (instance_uuid hb = tok)) as [E|N]; [now left |].
  destruct (last_sync_at hb) as [last|]; simpl; [| discriminate].
  destruct (Z.leb_spec (seconds cd) (now - last)); simpl; [| discriminate].
  intros _. right. eauto.
Qed.

Lemma accepted_spaced_after tbl user client cd events a ta :
  tbl !! (user, client) = Some (lease a ta) ->
  spaced cd ((a, ta) :: accepted tbl user client cd events).
Proof.
  revert tbl a ta. induction events as [|[tok now] later IH]; intros tbl a ta E.
  - exact I.
  - cbn [accepted].
    pose proof (update_heartbeat_stored tbl user client tok cd now) as St. cbv zeta in St.
    destruct (accepts (update_heartbeat tbl user client tok cd now).2) eqn:A.
    + cbn [app spaced]. split.
      * simpl. intros N.
        destruct (update_heartbeat_accepts_iff _ _ _ _ _ _ _ E A) as [U|(last & L & G)].
        -- simpl in U. congruence.
        -- simpl in L. injection L as <-. exact G.
      * apply IH. exact St.
    + simpl. rewrite St. now apply IH.
Qed.

(** X1. Whatever heartbeats arrive for a client, from whatever table,
    two heartbeats accepted one after the other for different tokens are
    at least a cooldown apart. *)
Theorem accepted_heartbeats_spaced tbl user client cd events :
  spaced cd (accepted tbl user client cd events).
Proof.
  revert tbl. induction events as [|[tok now] later IH]; intros tbl; [exact I |].
  cbn [accepted].
  pose proof (update_heartbeat_stored tbl user client tok cd now) as St. cbv zeta in St.
  destruct (accepts (update_heartbeat tbl user client tok cd now).2).
  - apply (accepted_spaced_after _ user client cd later tok now St).
  - simpl. apply IH.
Qed.

(** X2. While the holder of the lease keeps sending heartbeats so that
    no other instance's heartbeat comes a cooldown or more after the
    holder's latest, exactly the holder's heartbeats are accepted and
    the lease stays the holder's. *)
Theorem holder_is_kept_alive tbl user client cd holder last events :
  tbl !! (user, client) = Some (lease holder last) ->
  kept_alive holder cd last events ->
  accepted tbl user client cd events = filter (fun e => e.1 = holder) events
  /\ get_latest_instance_uuid (arrive tbl user client cd events) user client = Some holder.
Proof.
  revert tbl last. induction events as [|[tok now] later IH]; intros tbl last E K.
  - split; [reflexivity |]. unfold get_latest_instance_uuid. simpl. now rewrite E.
  - cbn [accepted arrive kept_alive] in *.
    destruct (decide (tok = holder)) as [->|N].
    + rewrite (update_heartbeat_same tbl user client holder cd now _ E eq_refl). simpl.
      rewrite filter_cons_True by reflexivity.
      destruct (IH (<[(user, client) := lease holder now]> tbl) now) as [A L];
        [apply lookup_insert_eq | exact K |].
      split; [now f_equal | exact L].
    + destruct K as [C K].
      rewrite (update_heartbeat_cooling tbl user client tok cd now _ last E) by
        (simpl; congruence || reflexivity || exact C).
      simpl. rewrite filter_cons_False by (simpl; congruence).
      now apply (IH tbl last).
Qed.

Lemma holder_is_kept_alive_witness :
  accepted Bench.lease_u1 1 42 60 [("u2", seconds 30); ("u1", seconds 40); ("u2", seconds 99)]
  = [("u1", seconds 40)]
  /\ get_latest_instance_uuid
       (arrive Bench.lease_u1 1 42 60 [("u2", seconds 30); ("u1", seconds 40); ("u2", seconds 99)])
       1 42 = Some "u1".
Proof.
  apply (holder_is_kept_alive Bench.lease_u1 1 42 60 "u1" 0
           [("u2", seconds 30); ("u1", seconds 40); ("u2", seconds 99)]).
  - reflexivity.
  - simpl. split; [reflexivity |]. split; [reflexivity | exact I].
Defined.

End HeartbeatSeriesFacts.

(** ** The lease table and the gate *)
Section LeaseFacts.

Import HeartbeatDao HeartbeatSeries AuthPlugin.

Implicit Types (tbl : table).

(** X3. A heartbeat changes at most the lease of its own user and
    client: every other lease is as it was, and the token stored for its
    own key afterwards is the caller's if the call was accepted and the
    one stored before if it was not. *)
Theorem update_heartbeat_touches_one_lease tbl user client tok cd now :
  let r := update_heartbeat tbl user client tok cd now in
  get_latest_instance_uuid r.1 user client
  = (if accepts r.2 then Some tok else get_latest_instance_uuid tbl user client)
  /\ forall user' client', (user', client') <> (user, client) ->
       get_heartbeat r.1 user' client' = get_heartbeat tbl user' client'.
Proof.
  cbv zeta. pose proof (update_heartbeat_stored tbl user client tok cd now) as St.
  cbv zeta in St. split.
  - unfold get_latest_instance_uuid.
    destruct (accepts _); [now rewrite St | now rewrite St].
  - intros user' client' N. unfold get_heartbeat, update_heartbeat.
    destruct (tbl !! (user, client)) as [hb|]; simpl.
    + destruct (decide _); simpl; [now apply lookup_insert_ne |].
      destruct (last_sync_at hb); simpl; [| reflexivity].
      destruct (_ <=? _); simpl; [now apply lookup_insert_ne | reflexivity].
    + now apply lookup_insert_ne.
Qed.


(** X5. A token whose heartbeat has just been accepted passes the gate
    from then on, at any time and with any cooldown, until another
    heartbeat is accepted. *)
Theorem accepted_token_passes_gate tbl user client tok cd now cd' now' :
  accepts (update_heartbeat tbl user client tok cd now).2 = true ->
  check_instance_uuid_valid (update_heartbeat tbl user client tok cd now).1
    user client tok cd' now' = true.
Proof.
  intros A. pose proof (update_heartbeat_stored tbl user client tok cd now) as St.
  cbv zeta in St. rewrite A in St.
  unfold check_instance_uuid_valid. rewrite St. simpl.
  destruct (decide _) as [_|N]; [reflexivity | now destruct N].
Qed.

Lemma accepted_token_passes_gate_witness :
  check_instance_uuid_valid
    (update_heartbeat Bench.lease_u1 1 42 "u2" 60 (seconds 60)).1 1 42 "u2" 3600 (seconds 61)
  = true.
Proof.
  apply (accepted_token_passes_gate Bench.lease_u1 1 42 "u2" 60 (seconds 60) 3600 (seconds 61)).
  reflexivity.
Defined.

End LeaseFacts.

Lemma update_heartbeat_touches_one_lease_witness :
  HeartbeatSeries.get_heartbeat
    (HeartbeatDao.update_heartbeat Bench.lease_u1 1 42 "u2" 60 (HeartbeatDao.seconds 61)).1 1 43
  = HeartbeatSeries.get_heartbeat Bench.lease_u1 1 43.
Proof.
  apply (update_heartbeat_touches_one_lease Bench.lease_u1 1 42 "u2" 60
           (HeartbeatDao.seconds 61)).
  intros [=].
Defined.

(** ** The heartbeat route behind its gate *)
Section HeartbeatRoute.

Import Json HeartbeatDao AuthPlugin ClientRoutes.

Variable be : backend.
Variable client_exists : Z -> bool.
Variable config_cooldown : option Z.

Local Abbreviation cooldown_seconds := (default 60 config_cooldown).

(** X6. A worker that presents a valid secret and a new instance token
    for a client whose lease another token holds takes the lease over
    only when both the gate's fixed 60 s and the configured cooldown have
    passed since the holder's last heartbeat: before 60 s the gate
    answers 409 itself, after that the route answers 409 with the
    seconds left of the configured cooldown, and 200 otherwise. *)
Theorem heartbeat_endpoint_takeover (tbl : table) (gate_now now : Z)
    (self : ApiServerRpc) (u : user_info) (holder tok : string) (last : Z) :
  Py.truthy (secret self) = true ->
  get_user_by_secret be (secret self) = Py.Ok (Some u) ->
  instance_uuid self = Some tok -> Py.truthy tok = true -> Py.strip tok = tok ->
  Py.int (pretty (client_id self)) = Some (client_id self) ->
  client_exists (client_id self) = true ->
  tbl !! (id u, client_id self) = Some (lease holder last) ->
  holder <> tok ->
  (heartbeat_endpoint be client_exists config_cooldown tbl gate_now now (client_id self)
     (JObj [("instance_uuid", JStr tok)]) (_get_headers self)).2
  = Py.Ok
      (if gate_now - last <? seconds 60 then conflict_response
       else if seconds cooldown_seconds <=? now - last then (200, "心跳更新成功")
       else (409, cooldown_message
                    ((seconds cooldown_seconds - (now - last)) `quot` 1000000))).
Proof.
  intros Hs Hu Hi Ht Hst Hc He Hl Hn.
  unfold heartbeat_endpoint, login_required, _get_headers, present. cbn [X_Client_Secret].
  rewrite Hs. cbn [from_option]. unfold Datatypes.id. rewrite Hu.
  unfold instance_conflict. cbn [X_Instance_UUID X_Client_ID]. rewrite Hi, Ht, Ht.
  assert (Py.truthy (pretty (client_id self)) = true) as ->.
  { destruct (pretty (client_id self)); [discriminate Hc | reflexivity]. }
  cbn [andb]. rewrite Hc.
  unfold check_instance_uuid_valid, gate_cooldown_seconds. rewrite Hl. unfold lease. cbn [HeartbeatDao.instance_uuid last_sync_at].
  destruct (decide (holder = tok)) as [E|_]; [now destruct Hn |].
  cbv zeta. destruct (gate_now - last <? seconds 60); cbn [negb]; [reflexivity |].
  unfold heartbeat, body_instance_uuid. cbn [truthy].
  replace (dict_get_default "instance_uuid" (JStr "") [("instance_uuid", JStr tok)])
    with (JStr tok)
    by (unfold dict_get_default; cbn [dict_get]; now destruct (decide _)).
  rewrite Hst, Ht, He. cbn [negb].
  unfold update_heartbeat. rewrite Hl. unfold lease. cbn [HeartbeatDao.instance_uuid last_sync_at].
  destruct (decide (holder = tok)) as [E|_]; [now destruct Hn |].
  cbv zeta. destruct (seconds _ <=? now - last); reflexivity.
Qed.

(** X7. An exception that the route function raises for a request
    authenticated by secret never reaches the caller: it is answered
    401 with the text of a failed secret check. The same exception
    for a request authenticated by session token propagates. *)
Theorem login_required_masks_handler_exception (tbl : table) (now : Z)
    (f : user_info -> Py.result response) (req : request) (u : user_info) (e : Py.exn) :
  f u = Py.Raise e ->
  (present (X_Client_Secret req) = true ->
   get_user_by_secret be (default "" (X_Client_Secret req)) = Py.Ok (Some u) ->
   instance_conflict tbl now u req = false ->
   login_required be tbl now f req = (true, Py.Ok (401, "秘钥验证失败")))
  /\ (present (X_Client_Secret req) = false ->
      forall token,
      Authorization req = Some ("Bearer " +:+ token) -> Py.truthy (until_space token) = true ->
      get_user_by_token be (until_space token) = Py.Ok (Some u) ->
      login_required be tbl now f req = (true, Py.Raise e)).
Proof.
  intros Hf. split.
  - intros Hp Hu Hc. unfold login_required. now rewrite Hp, Hu, Hc, Hf.
  - intros Hp token Ha Ht Hu. unfold login_required. rewrite Hp, Ha.
    assert (bearer_token ("Bearer " +:+ token) = until_space token) as Hb.
    { unfold bearer_token. f_equal. simpl. rewrite Nat.sub_0_r.
      change (String.append EmptyString token) with token. clear. induction token as [|c r IH]; [reflexivity |]. simpl. now rewrite IH. }
    rewrite Hb. cbn [Py.truthy String.append negb Py.startswith Ascii.eqb Bool.eqb].
    rewrite Ht. cbn [negb]. now rewrite Hu, Hf.
Qed.

End HeartbeatRoute.

Lemma heartbeat_endpoint_takeover_witness :
  (ClientRoutes.heartbeat_endpoint Bench.one_user (fun _ => true) (Some 120) Bench.lease_u1
     (HeartbeatDao.seconds 61) (HeartbeatDao.seconds 61) 42
     (Json.JObj [("instance_uuid", Json.JStr "u2")])
     (ClientRoutes._get_headers
        {| ClientRoutes.secret := "s3cret"; ClientRoutes.client_id := 42;
           ClientRoutes.instance_uuid := Some "u2" |})).2
  = Py.Ok (409, HeartbeatDao.cooldown_message 59).
Proof.
  exact (heartbeat_endpoint_takeover Bench.one_user (fun _ => true) (Some 120) Bench.lease_u1
           (HeartbeatDao.seconds 61) (HeartbeatDao.seconds 61)
           {| ClientRoutes.secret := "s3cret"; ClientRoutes.client_id := 42;
              ClientRoutes.instance_uuid := Some "u2" |}
           {| AuthPlugin.id := 1 |} "u1" "u2" 0
           eq_refl eq_refl eq_refl eq_refl eq_refl eq_refl eq_refl eq_refl
           ltac:(discriminate)).
Defined.

Lemma login_required_masks_handler_exception_witness :
  AuthPlugin.login_required Bench.one_user Bench.lease_u1 (HeartbeatDao.seconds 5)
    (fun user => (ClientRoutes.heartbeat (fun _ => true) None Bench.lease_u1
                    (HeartbeatDao.seconds 5) 42 (Json.JArr [Json.JInt 1]) user).2)
    (Bench.worker_request "u1" "42")
  = (true, Py.Ok (401, "秘钥验证失败")).
Proof.
  destruct (login_required_masks_handler_exception Bench.one_user Bench.lease_u1
              (HeartbeatDao.seconds 5)
              (fun user => (ClientRoutes.heartbeat (fun _ => true) None Bench.lease_u1
                              (HeartbeatDao.seconds 5) 42 (Json.JArr [Json.JInt 1]) user).2)
              (Bench.worker_request "u1" "42") {| AuthPlugin.id := 1 |}
              (Json.no_get (Json.JArr [Json.JInt 1])) eq_refl) as [A _].
  apply A; reflexivity.
Defined.

Section Gate.

Import Json HeartbeatDao AuthPlugin ClientRoutes.

Variable be : backend.


Variable repr : json -> string.

(** X9. A response as the routes build it, with status [c] and the
    body [{'code': c, 'message': m}], that reaches [sync_client] on the
    first attempt is handed to its caller after a single request and no
    sleep: for [c] of 400 or more as [ApiException(c, m)], so the 409 of
    a rejected heartbeat arrives with the server's message, and
    otherwise as the empty [dict]. *)
Theorem sync_client_reports_server_answer (client_id' : Z) (uuid : string) (n : Rpc.net)
    (r : response) :
  delivers n r ->
  sync_client repr client_id' uuid n
  = (Rpc.after n (heartbeat_request client_id' uuid) 1 0,
     if 400 <=? r.1 then Py.Raise (Py.ApiException r.1 r.2) else Py.Ok (JObj [])).
Proof.
  intros D. unfold sync_client, Rpc._request.
  rewrite (request_retrying_response repr _ _ _ _ _ D).
  unfold Rpc.on_response, jsonify.
  destruct (400 <=? r.1); reflexivity.
Qed.

End Gate.


Lemma sync_client_reports_server_answer_witness :
  let answer :=
    (ClientRoutes.heartbeat_endpoint Bench.one_user (fun _ => true) (Some 120) Bench.lease_u1
       (HeartbeatDao.seconds 61) (HeartbeatDao.seconds 61) 42
       (Json.JObj [("instance_uuid", Json.JStr "u2")])
       (ClientRoutes._get_headers
          {| ClientRoutes.secret := "s3cret"; ClientRoutes.client_id := 42;
             ClientRoutes.instance_uuid := Some "u2" |})).2 in
  let n := Rpc.scripted [Rpc.Response 409
                           (Rpc.Parsed (ClientRoutes.jsonify
                                          (409, HeartbeatDao.cooldown_message 59)))] in
  answer = Py.Ok (409, HeartbeatDao.cooldown_message 59)
  /\ ClientRoutes.sync_client (fun _ => "") 42 "u2" n
     = (Rpc.after n (ClientRoutes.heartbeat_request 42 "u2") 1 0,
        Py.Raise (Py.ApiException 409 (HeartbeatDao.cooldown_message 59))).
Proof.
  intros answer n. split; [reflexivity |].
  apply (sync_client_reports_server_answer (fun _ => "") 42 "u2" n
           (409, HeartbeatDao.cooldown_message 59)).
  reflexivity.
Defined.

(** ** Transport: every call of [_request] *)
Section TransportBounds.

Import Json Rpc.

Variable repr : json -> string.

Lemma request_retrying_course r :
  forall (left : nat) n,
  exists k, (k <= left)%nat
    /\ (request_retrying repr left r n).1 = after n r (Datatypes.S k) k
    /\ (forall i, (i < k)%nat -> exists e, raises_at n i e)
    /\ ((exists status_code b,
           outcome n (List.length (sent n) + k)%nat = Response status_code b
           /\ (request_retrying repr left r n).2 = on_response repr status_code b)
        \/ (k = left
            /\ exists e, raises_at n left e
                 /\ (request_retrying repr left r n).2
                    = Py.Raise (Py.ApiException 0 ("请求异常: " +:+ e)))).
Proof.
  induction left as [|left IH]; intros n.
  - exists 0%nat. split; [lia |].
    destruct (outcome n (List.length (sent n))) as [e|status_code b] eqn:O.
    + rewrite (request_retrying_failure repr _ _ _ _ O).
      split; [reflexivity |]. split; [intros i Hi; lia |].
      right. split; [reflexivity |]. exists e. split; [| reflexivity].
      unfold raises_at. now rewrite Nat.add_0_r.
    + rewrite (request_retrying_response repr _ _ _ _ _ O).
      split; [reflexivity |]. split; [intros i Hi; lia |].
      left. exists status_code, b. rewrite Nat.add_0_r. auto.
  - destruct (outcome n (List.length (sent n))) as [e|status_code b] eqn:O.
    + rewrite (request_retrying_failure repr _ _ _ _ O).
      destruct (IH (sleep 10 (send r n).2)) as (k & L & N & F & R).
      exists (Datatypes.S k). split; [lia |].
      split; [now rewrite N, after_shift |].
      assert (forall i, outcome (sleep 10 (send r n).2)
                          (List.length (sent (sleep 10 (send r n).2)) + i)%nat
                        = outcome n (List.length (sent n) + Datatypes.S i)%nat) as Sh.
      { intros i. simpl. now rewrite <- Nat.add_succ_r. }
      split.
      { intros [|i] Hi.
        - exists e. unfold raises_at. now rewrite Nat.add_0_r.
        - destruct (F i ltac:(lia)) as [e' E']. exists e'.
          unfold raises_at in *. now rewrite <- Sh. }
      destruct R as [(status_code & b & O' & R)|(-> & e' & E' & R)].
      * left. exists status_code, b. split; [now rewrite <- Sh | exact R].
      * right. split; [reflexivity |]. exists e'. split; [| exact R].
        unfold raises_at in *. now rewrite <- Sh.
    + rewrite (request_retrying_response repr _ _ _ _ _ O).
      exists 0%nat. split; [lia |]. split; [reflexivity |]. split; [intros i Hi; lia |].
      left. exists status_code, b. rewrite Nat.add_0_r. auto.
Qed.

(** X10. Every call of [_request], whatever the network does, sends
    the same request between 1 and 11 times and sleeps 10 s before each
    but the first: [k] connection failures, [k <= 10], are followed
    either by a response, which decides the result, or, when [k = 10],
    by an eleventh failure, which raises [ApiException(0, ...)]. *)
Theorem _request_course r n :
  exists k, (k <= 10)%nat
    /\ (_request repr r 0 n).1 = after n r (Datatypes.S k) k
    /\ (forall i, (i < k)%nat -> exists e, raises_at n i e)
    /\ ((exists status_code b,
           outcome n (List.length (sent n) + k)%nat = Response status_code b
           /\ (_request repr r 0 n).2 = on_response repr status_code b)
        \/ (k = 10%nat
            /\ exists e, raises_at n 10 e
                 /\ (_request repr r 0 n).2
                    = Py.Raise (Py.ApiException 0 ("请求异常: " +:+ e)))).
Proof. exact (request_retrying_course r 10 n). Qed.

End TransportBounds.

(** ** Tasks: ownership, review, and the way to the worker *)
Section TaskFacts.

Import Json TaskDao TaskService.

Implicit Types (tbl : table) (t : Task).

Lemma get_task_by_id_foreign tbl task_id other :
  (forall t, tbl !! task_id = Some t -> user_id t <> other) ->
  get_task_by_id tbl task_id other = None.
Proof.
  intros F. unfold get_task_by_id. destruct (tbl !! task_id) as [t|] eqn:E; [| reflexivity].
  destruct (decide _) as [U|_]; [| reflexivity]. now destruct (F t eq_refl).
Qed.

(** X11. No write reaches a task for a user who does not own it, or a
    task that does not exist: the table stays as it is, the updates of
    status and the delete return [False], the service calls end with
    [TaskNotFoundException] or, for a review with an unknown action, with
    a validation error. *)
Theorem writes_require_ownership tbl now task_id other :
  (forall t, tbl !! task_id = Some t -> user_id t <> other) ->
  (forall flow' flow_status',
     (update_task_flow tbl now task_id other flow' flow_status').1 = tbl
     /\ update_flow tbl now task_id other flow' flow_status'
        = (tbl, Some (TaskNotFoundException "任务不存在")))
  /\ (forall status', update_task_status tbl now task_id other status' = (tbl, false))
  /\ delete_task tbl task_id other = (tbl, false)
  /\ (forall action feedback,
        exists e, review_task tbl now task_id other action feedback = (tbl, Refused e)).
Proof.
  intros F. pose proof (get_task_by_id_foreign tbl task_id other F) as G.
  split; [| split; [| split]].
  - intros flow' flow_status'. split.
    + unfold update_task_flow. rewrite G. now destruct flow', flow_status'.
    + unfold update_flow. now rewrite G.
  - intros status'. unfold update_task_status. now rewrite G.
  - unfold delete_task. now rewrite G.
  - intros action feedback. unfold review_task. rewrite G.
    destruct (negb _); eexists; reflexivity.
Qed.

Lemma writes_require_ownership_witness :
  delete_task {[ 7 := {| user_id := 1; key := "AbCdEfGh"; title := "demo"; status := "running";
                         flow := None; flow_status := Some "reviewing"; updated_at := 0 |} ]}
    7 2
  = ({[ 7 := {| user_id := 1; key := "AbCdEfGh"; title := "demo"; status := "running";
                flow := None; flow_status := Some "reviewing"; updated_at := 0 |} ]}, false).
Proof.
  apply (writes_require_ownership _ 0 7 2).
  intros t E. apply lookup_singleton_Some in E as [_ <-]. simpl. lia.
Defined.

(** X12. A review that is refused changes nothing, and an approval
    goes through exactly for a task of the caller whose flow status is
    [reviewing]: it sets the status to [reviewed] and leaves the flow
    document as it is. *)
Theorem review_task_approves_only_reviewing tbl now task_id user action feedback :
  ((forall m s, (review_task tbl now task_id user action feedback).2 <> Updated m s) ->
   (review_task tbl now task_id user action feedback).1 = tbl)
  /\ ((exists m s, (review_task tbl now task_id user "approve" feedback).2 = Updated m s)
      <-> exists t, get_task_by_id tbl task_id user = Some t
                    /\ flow_status t = Some "reviewing")
  /\ (forall t, get_task_by_id tbl task_id user = Some t ->
      flow_status t = Some "reviewing" ->
      review_task tbl now task_id user "approve" feedback
      = (<[task_id := apply_update None (Some "reviewed") now t]> tbl,
         Updated "审核通过" "reviewed")).
Proof.
  split; [| split].
  - unfold review_task. destruct (negb _); [reflexivity |].
    destruct (get_task_by_id tbl task_id user) as [t|]; [| reflexivity].
    cbv zeta. destruct (negb _); [reflexivity |].
    destruct (bool_decide (action = "approve")).
    + destruct (negb _); [reflexivity |]. intros N. now destruct (N _ _ eq_refl).
    + destruct (no_feedback feedback); [reflexivity |].
      destruct (flow_or_empty (flow t)) as [| | | | |d]; try reflexivity.
      destruct (dict_get_default "nodes" (JArr []) d); try reflexivity.
      intros N. now destruct (N _ _ eq_refl).
  - unfold review_task. cbn [negb].
    replace (bool_decide ("approve" ∈ ["approve"; "revise"])) with true by reflexivity.
    cbn [negb]. destruct (get_task_by_id tbl task_id user) as [t|].
    + cbv zeta. destruct (decide (flow_status t = Some "reviewing")) as [E|N].
      * rewrite E. split; [intros _; now exists t | intros _].
        eexists _, _. reflexivity.
      * split; [| intros (t' & [= <-] & E); now destruct N].
        set (cur := match flow_status t with
                    | Some s => if Py.truthy s then s else ""
                    | None => ""
                    end).
        assert (cur <> "reviewing") as C.
        { subst cur. destruct (flow_status t) as [[|c s]|]; simpl; congruence. }
        destruct (negb (bool_decide (cur ∈ ["reviewing"; "done"]))); [intros (m & s' & [=]) |].
        replace (bool_decide ("approve" = "approve")) with true by reflexivity.
        rewrite (bool_decide_eq_false_2 _ C). cbn [negb]. intros (m & s' & [=]).
    + split; [intros (m & s & [=]) | intros (t' & [=] & _)].
  - intros t G Fs. unfold review_task, update_task_flow. rewrite G, Fs. reflexivity.
Qed.

Lemma review_task_approves_only_reviewing_witness :
  review_task {[ 7 := {| user_id := 1; key := "AbCdEfGh"; title := "demo"; status := "running";
                         flow := None; flow_status := Some "done"; updated_at := 0 |} ]}
    5 7 1 "approve" None
  = ({[ 7 := {| user_id := 1; key := "AbCdEfGh"; title := "demo"; status := "running";
                flow := None; flow_status := Some "done"; updated_at := 0 |} ]},
     Refused (TaskValidationException "只有待审核状态的任务可以通过审核")).
Proof.
  assert (forall x y : table * outcome, x.1 = y.1 -> x.2 = y.2 -> x = y) as P
    by (intros [] []; simpl; congruence).
  apply P; [| reflexivity].
  apply (review_task_approves_only_reviewing _ 5 7 1 "approve" None).
  intros m s. vm_compute. discriminate.
Defined.

End TaskFacts.

Section ReviewRoundTrip.

Import Json TaskDao TaskService.

Implicit Types (tbl : table) (t : Task).

Lemma truthy_dict_set k v d : truthy (JObj (dict_set k v d)) = true.
Proof. destruct d as [|[k' v'] d]; simpl; [reflexivity |]. now destruct (decide _). Qed.

(** A well-formed flow column reads as an object whose [nodes] are a list. *)
Lemma well_formed_flow_nodes t :
  well_formed_flow t ->
  exists d nodes, flow_or_empty (flow t) = JObj d
                  /\ dict_get_default "nodes" (JArr []) d = JArr nodes.
Proof.
  unfold well_formed_flow, flow_or_empty, dict_get_default.
  destruct (flow t) as [[| | | | |d]|]; try contradiction.
  - destruct d as [|p d]; cbn [truthy].
    + intros _. exists [], []. split; reflexivity.
    + destruct (dict_get "nodes" (p :: d)) as [[| | | |nodes|]|] eqn:G; try contradiction;
        intros _; [exists (p :: d), nodes | exists (p :: d), []]; rewrite G; split; reflexivity.
  - intros _. exists [], []. split; reflexivity.
Qed.

Lemma review_task_revise tbl now task_id user t feedback d nodes :
  get_task_by_id tbl task_id user = Some t ->
  (flow_status t = Some "reviewing" \/ flow_status t = Some "done") ->
  Py.strip feedback <> "" ->
  flow_or_empty (flow t) = JObj d ->
  dict_get_default "nodes" (JArr []) d = JArr nodes ->
  review_task tbl now task_id user "revise" (Some feedback)
  = (<[task_id := apply_update
                    (Some (JObj (dict_set "nodes" (JArr (nodes ++ [feedback_node feedback])) d)))
                    (Some "revising") now t]> tbl,
     Updated "已提交修订反馈" "revising").
Proof.
  intros G Fs Nb Fl Nd. unfold review_task.
  replace (bool_decide ("revise" ∈ ["approve"; "revise"])) with true by reflexivity.
  cbn [negb]. rewrite G. cbv zeta.
  assert (no_feedback (Some feedback) = false) as ->.
  { unfold no_feedback. destruct feedback; [now destruct Nb |].
    destruct (Py.strip (String a feedback)); [now destruct Nb | reflexivity]. }
  rewrite Fl, Nd. unfold update_task_flow. rewrite G.
  destruct Fs as [-> | ->]; reflexivity.
Qed.


End ReviewRoundTrip.


Section FlowInvariant.

Import Json TaskDao TaskService.

Implicit Types (tbl : table) (t : Task).

Local Abbreviation well_formed := (map_Forall (fun (_ : Z) t => well_formed_flow t)).

Lemma update_task_flow_well_formed tbl now task_id user flow' flow_status' :
  well_formed tbl ->
  match flow' with
  | Some (JObj d) => match dict_get "nodes" d with
                     | Some (JArr _) | None => True
                     | Some _ => False
                     end
  | Some _ => False
  | None => True
  end ->
  well_formed (update_task_flow tbl now task_id user flow' flow_status').1.
Proof.
  intros W F. unfold update_task_flow.
  assert (well_formed
            (match get_task_by_id tbl task_id user with
             | Some t => (<[task_id:=apply_update flow' flow_status' now t]> tbl, true)
             | None => (tbl, false)
             end).1) as G.
  { destruct (get_task_by_id tbl task_id user) as [t|] eqn:G; [| exact W].
    apply map_Forall_insert_2; [| exact W].
    assert (tbl !! task_id = Some t) as L.
    { unfold get_task_by_id in G. destruct (tbl !! task_id); [| discriminate].
      destruct (decide _); congruence. }
    pose proof (W _ _ L) as Wt. unfold well_formed_flow in *. cbn [apply_update flow].
    destruct flow' as [f|]; [exact F | exact Wt]. }
  destruct flow', flow_status'; try exact G. exact W.
Qed.

(** X14. The service layer keeps every flow column well formed: after
    [update_flow], [review_task], [update_task_status] or [delete_task]
    on a table all of whose flows are well formed, they all still are;
    on such a table [review_task] ends with its result or a service
    error, never with another exception, and every task decodes into a
    [Task] whose flow is a [dict] and whose flow status is a [str]. *)
Theorem flow_stays_well_formed tbl now task_id user :
  well_formed tbl ->
  (forall flow' flow_status',
     well_formed (update_flow tbl now task_id user flow' flow_status').1)
  /\ (forall action feedback,
        well_formed (review_task tbl now task_id user action feedback).1
        /\ forall e, (review_task tbl now task_id user action feedback).2 <> Crashed e)
  /\ (forall status', well_formed (update_task_status tbl now task_id user status').1)
  /\ well_formed (delete_task tbl task_id user).1
  /\ (forall id' desc t, tbl !! id' = Some t ->
        exists task, from_dict (to_dict id' desc t) = Some task).
Proof.
  intros W. split; [| split; [| split; [| split]]].
  - intros flow' flow_status'. unfold update_flow.
    destruct (get_task_by_id tbl task_id user) as [t|]; [| exact W].
    destruct flow' as [[| | | | |d]|]; try exact W.
    + destruct (dict_get "nodes" d) as [[| | | |nodes|]|] eqn:G; try exact W.
      * destruct flow_status' as [s|]; [destruct (32 <? Py.len s); [exact W |] |];
          apply update_task_flow_well_formed; try exact W; now rewrite G.
      * destruct flow_status' as [s|]; [destruct (32 <? Py.len s); [exact W |] |];
          apply update_task_flow_well_formed; try exact W; now rewrite G.
    + destruct flow_status' as [s|]; [destruct (32 <? Py.len s); [exact W |] |];
        apply update_task_flow_well_formed; try exact W; exact I.
  - intros action feedback. unfold review_task.
    destruct (negb _); [split; [exact W | discriminate] |].
    destruct (get_task_by_id tbl task_id user) as [t|] eqn:G; [| split; [exact W | discriminate]].
    cbv zeta. destruct (negb _); [split; [exact W | discriminate] |].
    destruct (bool_decide (action = "approve")).
    + destruct (negb _); [split; [exact W | discriminate] |].
      split; [| discriminate]. cbn [fst]. now apply update_task_flow_well_formed.
    + destruct (no_feedback feedback); [split; [exact W | discriminate] |].
      assert (tbl !! task_id = Some t) as L.
      { unfold get_task_by_id in G. destruct (tbl !! task_id); [| discriminate].
        destruct (decide _); congruence. }
      destruct (well_formed_flow_nodes t (W _ _ L)) as (d & nodes & -> & ->).
      split; [| discriminate]. cbn [fst].
      apply update_task_flow_well_formed; [exact W |]. now rewrite dict_get_set.
  - intros status'. unfold update_task_status.
    destruct (get_task_by_id tbl task_id user) as [t|] eqn:G; [| exact W].
    assert (tbl !! task_id = Some t) as L.
    { unfold get_task_by_id in G. destruct (tbl !! task_id); [| discriminate].
      destruct (decide _); congruence. }
    apply map_Forall_insert_2; [exact (W _ _ L) | exact W].
  - unfold delete_task. destruct (get_task_by_id tbl task_id user); [| exact W].
    now apply map_Forall_delete.
  - intros id' desc t L.
    destruct (well_formed_flow_nodes t (W _ _ L)) as (d & nodes & Fl & _).
    unfold to_dict. rewrite Fl. eexists. vm_compute dict_get_default. reflexivity.
Qed.

End FlowInvariant.

Lemma flow_stays_well_formed_witness :
  exists task,
    TaskService.from_dict
      (TaskService.to_dict 7 None (Desk.row (Some Desk.developed) "reviewing")) = Some task.
Proof.
  destruct (flow_stays_well_formed (Desk.tasks (Some Desk.developed) "reviewing") 5 7 1)
    as (_ & _ & _ & _ & D).
  - apply map_Forall_singleton. exact I.
  - apply (D 7 None). reflexivity.
Defined.

(** ** What is pushed, and when *)
Section Pushes.

Import Json Host GitUtils GitTrail.

Context {S : Type} (h : host S).

Variables repo_dir dev_branch default_branch' : string.

Implicit Types (w : world S) (x : world S * GitResult).

Local Abbreviation force_pushed := (GitUtils.force_pushed h repo_dir dev_branch default_branch').
Local Abbreviation settled :=
  (GitTrail.pushed_rebased_or_nothing h repo_dir dev_branch default_branch').

Lemma pushes_record cmd (s : S) w :
  is_push (GitCommand repo_dir cmd) = false ->
  pushes (trail (record (GitCommand repo_dir cmd) s w)) = pushes (trail w).
Proof. intros N. unfold pushes, record. cbn [trail List.filter]. now rewrite N. Qed.

Lemma step_settled cmd prefix k w base :
  is_push (GitCommand repo_dir cmd) = false ->
  (forall r w1, pushes (trail w1) = base -> settled (k r w1) base) ->
  pushes (trail w) = base ->
  settled (step h cmd repo_dir prefix k w) base.
Proof.
  intros N K B. rewrite step_eq.
  destruct (success (answer h repo_dir (st w) cmd)).
  - apply K. now rewrite pushes_record.
  - right. split; [reflexivity |]. cbn [fst]. now rewrite pushes_record.
Qed.

Lemma rebase_and_push_settled w base :
  pushes (trail w) = base ->
  settled (rebase_and_push h repo_dir dev_branch default_branch' w) base.
Proof.
  intros B. unfold rebase_and_push. rewrite _run_git_command_eq.
  fold (rebase_cmd default_branch').
  destruct (success (answer h repo_dir (st w) (rebase_cmd default_branch'))) eqn:R; cbn [negb].
  - left. rewrite step_eq. fold (force_push_cmd dev_branch).
    split.
    + exists w. split; [exact R |]. cbv zeta. cbn [st record].
      destruct (success (answer h repo_dir _ (force_push_cmd dev_branch)));
        split; reflexivity.
    + destruct (success (answer h repo_dir _ (force_push_cmd dev_branch)));
        cbn [fst]; unfold pushes, record; cbn [trail List.filter is_push];
        now rewrite <- B.
  - right. rewrite _run_git_command_eq. split; [reflexivity |].
    cbn [fst]. rewrite !pushes_record by reflexivity. exact B.
Qed.

(** X15. [sync_and_rebase_branch] pushes at most once, and only a
    branch it has just rebased: either the rebase succeeded and the one
    push on the trail is the forced push that follows it, or the call
    fails and has pushed nothing. In particular it reports success only
    after a rebase and a forced push that both succeeded. *)
Theorem sync_and_rebase_branch_pushes_rebased w :
  let x := sync_and_rebase_branch h repo_dir dev_branch default_branch' w in
  settled x (pushes (trail w))
  /\ (success x.2 = true ->
      exists w', success (answer h repo_dir (st w') (rebase_cmd default_branch')) = true
        /\ success (answer h repo_dir (next h repo_dir (st w') (rebase_cmd default_branch'))
                      (force_push_cmd dev_branch)) = true).
Proof.
  cbv zeta.
  assert (settled (sync_and_rebase_branch h repo_dir dev_branch default_branch' w)
            (pushes (trail w))) as P.
  { unfold sync_and_rebase_branch.
    destruct (path_exists h (st w) repo_dir); cbn [negb];
      [| right; split; reflexivity].
    destruct (path_exists h (st w) (path_join repo_dir ".git")); cbn [negb];
      [| right; split; reflexivity].
    apply step_settled; [reflexivity | | reflexivity]. intros _ w1 B1.
    unfold _check_remote_branch_exists. rewrite _run_git_command_eq.
    destruct (success _ && _)%bool.
    - apply step_settled; [reflexivity | |]; [| now rewrite pushes_record].
      intros _ w3 B3. apply step_settled; [reflexivity | | exact B3].
      intros _ w4 B4. now apply rebase_and_push_settled.
    - apply step_settled; [reflexivity | |]; [| now rewrite pushes_record].
      intros _ w3 B3. apply step_settled; [reflexivity | | exact B3].
      intros _ w4 B4.
      unfold _check_local_branch_exists. rewrite _run_git_command_eq.
      destruct (success _ && _)%bool.
      + rewrite _run_git_command_eq. cbn [fst].
        apply step_settled; [reflexivity | |]; [| now rewrite !pushes_record].
        intros _ w6 B6. now apply rebase_and_push_settled.
      + apply step_settled; [reflexivity | |]; [| now rewrite pushes_record].
        intros _ w6 B6. now apply rebase_and_push_settled. }
  split; [exact P |].
  intros Ok. destruct P as [[(w' & R & _ & E) _]|[F _]]; [| congruence].
  exists w'. split; [exact R |]. rewrite E in Ok. cbv zeta in Ok.
  now destruct (success (answer h repo_dir _ (force_push_cmd dev_branch))).
Qed.

End Pushes.

(** ** A commit whose push failed *)
Section LostPush.

Import Json Host GitUtils GitTrail.

Context {S : Type} (h : host S).

Variables repo_dir default_branch' : string.

Implicit Types (w : world S) (s : S).

Local Abbreviation next := (GitUtils.next h repo_dir).
Local Abbreviation answer := (GitUtils.answer h repo_dir).
Local Abbreviation clean_at := (GitUtils.clean_at h repo_dir).
Local Abbreviation counts_are_integers := (GitUtils.counts_are_integers h repo_dir).
Local Abbreviation report_trail := (GitUtils.report_trail h repo_dir default_branch').
Local Abbreviation git_contract := (GitUtils.git_contract h repo_dir).
Local Abbreviation nothing_to_commit := (GitUtils.nothing_to_commit h repo_dir default_branch').

Lemma report_with_diff_message msg w :
  let r := (report_with_diff h repo_dir default_branch' msg w).2 in
  message r = msg \/ Py.startswith "操作异常: " (message r) = true.
Proof.
  unfold report_with_diff.
  destruct (_check_diff_with_default_branch h repo_dir default_branch' w) as [w1 [d|e]];
    [now left | now right].
Qed.

Lemma startswith_prefix (p m : string) :
  Py.startswith p m = true -> exists rest, m = p +:+ rest.
Proof.
  revert m. induction p as [|a p IH]; intros m; simpl.
  - intros _. now exists m.
  - destruct m as [|b m]; [discriminate |].
    destruct (Ascii.eqb_spec a b) as [->|]; [| discriminate].
    intros H. destruct (IH m H) as [rest ->]. now exists rest.
Qed.

Lemma pushes_report_trail s : pushes (report_trail s) = [].
Proof.
  unfold GitUtils.report_trail. destruct (success _); [destruct (decide _) |]; reflexivity.
Qed.

(** X16. A commit whose push failed is not pushed by the next call.
    When [commit_and_push_changes] fails with a push failure, the commit
    has been made; given what the operation relies on from git, the
    working copy is then clean, so the next call finds nothing to commit,
    reports success and runs no push. *)
Theorem failed_push_is_not_retried :
  counts_are_integers -> git_contract ->
  forall commit_msg commit_msg' w w1 r1,
    commit_and_push_changes h repo_dir commit_msg default_branch' w = (w1, r1) ->
    Py.startswith "推送失败: " (message r1) = true ->
    success r1 = false
    /\ GitCommand repo_dir (commit_cmd commit_msg) ∈ trail w1
    /\ nothing_to_commit commit_msg' w1
    /\ pushes (trail (commit_and_push_changes h repo_dir commit_msg' default_branch' w1).1)
       = pushes (trail w1).
Proof.
  intros C K commit_msg commit_msg' w w1 r1. pose proof K as [KR KC].
  unfold commit_and_push_changes at 1.
  destruct (path_exists h (st w) repo_dir) eqn:P1; cbn [negb];
    [| intros E; injection E as <- <-; intros M; simpl in M; discriminate M].
  destruct (path_exists h (st w) (path_join repo_dir ".git")) eqn:P2; cbn [negb];
    [| intros E; injection E as <- <-; intros M; simpl in M; discriminate M].
  rewrite step_eq. fold status_cmd.
  destruct (success (answer (st w) status_cmd)) eqn:P3;
    [| intros E; injection E as <- <-; intros M; simpl in M; discriminate M].
  destruct (Py.truthy (Py.strip (message (answer (st w) status_cmd)))) eqn:P4; cbn [negb].
  - rewrite step_eq.
    destruct (success (answer _ ["git"; "add"; "-A"]));
      [| intros E; injection E as <- <-; intros M; simpl in M; discriminate M].
    rewrite step_eq. fold (commit_cmd commit_msg). cbn [st record].
    set (s2 := next (next (st w) status_cmd) ["git"; "add"; "-A"]).
    destruct (success (answer s2 (commit_cmd commit_msg))) eqn:C3;
      [| intros E; injection E as <- <-; intros M; simpl in M; discriminate M].
    pose proof (KC _ _ C3) as CL.
    rewrite step_eq. fold rev_parse_cmd. cbn [st record].
    set (s3 := next s2 (commit_cmd commit_msg)) in *.
    destruct (success (answer s3 rev_parse_cmd));
      [| intros E; injection E as <- <-; intros M; simpl in M; discriminate M].
    rewrite step_eq. cbn [st record].
    set (branch := Py.strip (message (answer s3 rev_parse_cmd))).
    fold (push_cmd branch).
    destruct (success (answer (next s3 rev_parse_cmd) (push_cmd branch))).
    + intros E M. exfalso. apply (f_equal (fun x => message x.2)) in E. cbn [snd] in E.
      rewrite <- E in M.
      destruct (report_with_diff_message ("提交并推送成功: " +:+ branch)
                  (record (GitCommand repo_dir (push_cmd branch))
                     (next (next s3 rev_parse_cmd) (push_cmd branch))
                     (record (GitCommand repo_dir rev_parse_cmd) (next s3 rev_parse_cmd)
                        (record (GitCommand repo_dir (commit_cmd commit_msg)) s3
                           (record (GitCommand repo_dir ["git"; "add"; "-A"]) s2
                              (record (GitCommand repo_dir status_cmd)
                                 (next (st w) status_cmd) w))))))
        as [R|R]; cbv zeta in R.
      * rewrite R in M. simpl in M. discriminate M.
      * apply startswith_prefix in M as [rest M]. rewrite M in R. discriminate R.
    + intros E _. injection E as <- <-.
      assert (clean_at (next (next s3 rev_parse_cmd) (push_cmd branch))) as CL'.
      { apply KR; [right; right; right; eexists; reflexivity |]. apply KR; [auto |]. exact CL. }
      split; [reflexivity |].
      split.
      { unfold record. cbn [trail]. rewrite !elem_of_cons. right. right. left. reflexivity. }
      destruct (commit_and_push_changes_clean h repo_dir default_branch' commit_msg'
                  (record (GitCommand repo_dir (push_cmd branch))
                     (next (next s3 rev_parse_cmd) (push_cmd branch))
                     (record (GitCommand repo_dir rev_parse_cmd) (next s3 rev_parse_cmd)
                        (record (GitCommand repo_dir (commit_cmd commit_msg)) s3
                           (record (GitCommand repo_dir ["git"; "add"; "-A"]) s2
                              (record (GitCommand repo_dir status_cmd)
                                 (next (st w) status_cmd) w))))) CL' C)
        as (diff & R & A).
      split; [exists diff; split; [exact R | exact A] |].
      rewrite R. cbn [fst trail]. unfold pushes at 1. rewrite List.filter_app.
      fold (pushes (report_trail (next (next (next s3 rev_parse_cmd) (push_cmd branch))
                                    status_cmd))).
      rewrite pushes_report_trail. reflexivity.
  - intros E M. exfalso. apply (f_equal (fun x => message x.2)) in E. cbn [snd] in E.
    rewrite <- E in M.
    destruct (report_with_diff_message "没有需要提交的修改"
                (record (GitCommand repo_dir status_cmd) (next (st w) status_cmd) w))
      as [R|R]; cbv zeta in R.
    + rewrite R in M. simpl in M. discriminate M.
    + apply startswith_prefix in M as [rest M]. rewrite M in R. discriminate R.
Qed.

End LostPush.

Section LostPushOffline.

Import Json Host GitUtils GitTrail.

Lemma offline_counts : counts_are_integers Offline.bench "/w/app".
Proof. intros s range _. exists 1. reflexivity. Qed.

Lemma offline_git_contract : git_contract Offline.bench "/w/app".
Proof.
  split.
  - intros s cmd [->|[->|[[range ->]|[branch ->]]]] C; exact C.
  - intros s msg _. repeat split; reflexivity.
Qed.

Lemma failed_push_is_not_retried_witness :
  let dirty_copy := Bench.start (Bench.task7 [] "pending") true true in
  let first := commit_and_push_changes Offline.bench "/w/app" "feat: x" "main" dirty_copy in
  success first.2 = false
  /\ GitCommand "/w/app" (commit_cmd "feat: x") ∈ trail first.1
  /\ nothing_to_commit Offline.bench "/w/app" "main" "feat: y" first.1
  /\ pushes (trail (commit_and_push_changes Offline.bench "/w/app" "feat: y" "main" first.1).1)
     = pushes (trail first.1).
Proof.
  intros dirty_copy first.
  apply (failed_push_is_not_retried Offline.bench "/w/app" "main" offline_counts
           offline_git_contract "feat: x" "feat: y" dirty_copy first.1 first.2);
    reflexivity.
Defined.

End LostPushOffline.

(** ** A repository's address: config_model.py *)
Section RepoAddress.

Import ConfigModel.

Lemma app_cons (x : ascii) (a b : string) : String x a +:+ b = String x (a +:+ b).
Proof. reflexivity. Qed.

Lemma app_empty (b : string) : "" +:+ b = b.
Proof. reflexivity. Qed.

Lemma length_app (a b : string) :
  String.length (a +:+ b) = (String.length a + String.length b)%nat.
Proof.
  induction a as [|c a IH]; [reflexivity |].
  rewrite app_cons. cbn [String.length]. now rewrite IH.
Qed.

Lemma app_assoc_string (a b c : string) : (a +:+ b) +:+ c = a +:+ (b +:+ c).
Proof.
  induction a as [|x a IH]; [reflexivity |]. now rewrite !app_cons, IH.
Qed.

Lemma without_git_suffix_app (x : string) : without_git_suffix (x +:+ ".git") = Some x.
Proof.
  induction x as [|c r IH]; [reflexivity |].
  rewrite app_cons. cbn [without_git_suffix]. rewrite IH.
  destruct (String.eqb_spec (String c (r +:+ ".git")) ".git") as [E|_]; [| reflexivity].
  apply (f_equal String.length) in E. cbn [String.length] in E.
  rewrite length_app in E. cbn [String.length] in E. lia.
Qed.

Lemma has_sep_app (base : string) c (seg : string) :
  is_sep c = true -> has_sep (base +:+ String c seg) = true.
Proof.
  intros C. induction base as [|a b IH].
  - rewrite app_empty. cbn [has_sep]. now rewrite C.
  - rewrite app_cons. cbn [has_sep]. rewrite IH. now destruct (is_sep a).
Qed.

Lemma eqb_git_has_sep (s : string) : has_sep s = true -> String.eqb s ".git" = false.
Proof.
  intros H. destruct (String.eqb_spec s ".git") as [->|_]; [discriminate H | reflexivity].
Qed.

Lemma without_git_suffix_sep (base : string) c (seg : string) :
  is_sep c = true ->
  without_git_suffix (base +:+ String c seg)
  = match without_git_suffix seg with
    | Some p => Some (base +:+ String c p)
    | None => None
    end.
Proof.
  intros C. induction base as [|a b IH].
  - rewrite app_empty. cbn [without_git_suffix].
    rewrite (eqb_git_has_sep (String c seg)) by (cbn [has_sep]; now rewrite C).
    now destruct (without_git_suffix seg).
  - rewrite app_cons. cbn [without_git_suffix].
    rewrite (eqb_git_has_sep (String a (b +:+ String c seg)))
      by (cbn [has_sep]; rewrite has_sep_app by exact C; now destruct (is_sep a)).
    rewrite IH. now destruct (without_git_suffix seg).
Qed.

Lemma after_last_sep_none (s : string) : has_sep s = false -> after_last_sep s = None.
Proof.
  induction s as [|c r IH]; [reflexivity |]. cbn [has_sep after_last_sep].
  destruct (is_sep c); [discriminate |]. cbn [orb]. intros H. now rewrite IH.
Qed.

Lemma after_last_sep_app (base : string) c (seg : string) :
  is_sep c = true -> has_sep seg = false ->
  after_last_sep (base +:+ String c seg) = Some seg.
Proof.
  intros C N. induction base as [|a b IH].
  - rewrite app_empty. cbn [after_last_sep]. now rewrite (after_last_sep_none seg N), C.
  - rewrite app_cons. cbn [after_last_sep]. now rewrite IH.
Qed.

(** X17. The name of a repository, under which it is cloned, is the
    last segment of its address, with or without the [.git] suffix: an
    address that ends in a [':'] or ['/'] followed by a segment that is
    not empty, has neither character and does not itself end in [.git]
    gives that segment, and so does the same address with [.git]
    added. *)
Theorem repo_name_is_last_segment (base : string) (c : ascii) (seg : string)
    (tok : option string) (branch prefix : string) :
  is_sep c = true -> has_sep seg = false -> seg <> "" -> without_git_suffix seg = None ->
  name {| url := base +:+ String c seg; token := tok;
          default_branch := branch; branch_prefix := prefix |} = Py.Ok seg
  /\ name {| url := (base +:+ String c seg) +:+ ".git"; token := tok;
             default_branch := branch; branch_prefix := prefix |} = Py.Ok seg.
Proof.
  intros C N E G. unfold name, get_repo_name_from_url, remove_git_suffix. cbn [url].
  rewrite without_git_suffix_app, without_git_suffix_sep, G by exact C.
  rewrite after_last_sep_app by assumption.
  destruct seg; [now destruct E | split; reflexivity].
Qed.

Lemma repo_name_is_last_segment_witness :
  name {| url := "git@github.com:owner/repo"; token := None;
          default_branch := ""; branch_prefix := "ai_" |} = Py.Ok "repo"
  /\ name {| url := "git@github.com:owner/repo.git"; token := None;
             default_branch := ""; branch_prefix := "ai_" |} = Py.Ok "repo".
Proof.
  apply (repo_name_is_last_segment "git@github.com:owner" "/" "repo" None "" "ai_");
    first [reflexivity | discriminate].
Defined.

Lemma replace_from_absent (old new s : string) :
  Py.contains old s = false -> replace_from old new 0 s = s.
Proof.
  induction s as [|c r IH]; [reflexivity |].
  cbn [Py.contains replace_from]. intros H. apply orb_false_iff in H as [H1 H2].
  rewrite H1. now rewrite IH.
Qed.

Lemma replace_first_char_app (c : ascii) (new head rest : string) :
  Py.contains (String c "") head = false ->
  replace_first_char c new (head +:+ String c rest) = head +:+ new +:+ rest.
Proof.
  induction head as [|a head IH]; intros H.
  - rewrite !app_empty. cbn [replace_first_char]. now rewrite Ascii.eqb_refl.
  - rewrite !app_cons. cbn [replace_first_char].
    cbn [Py.contains] in H. apply orb_false_iff in H as [H1 H2].
    assert (Ascii.eqb a c = false) as ->.
    { cbn [Py.startswith] in H1. rewrite Ascii.eqb_sym. now destruct (Ascii.eqb c a). }
    now rewrite IH.
Qed.

(** X18. The two addresses of one repository have one web address:
    for a host without [':'] and a host and path without ["git@"],
    [git@host:path.git] and [https://host/path.git] both give
    [https://host/path], and so the same merge-request link. *)
Theorem web_url_of_ssh_and_https_agree (host path : string) (tok : option string)
    (branch prefix : string) :
  Py.contains ":" host = false ->
  Py.contains "git@" ((host +:+ String "/" path) +:+ ".git") = false ->
  let ssh := {| url := ("git@" +:+ host) +:+ String ":" (path +:+ ".git"); token := tok;
                default_branch := branch; branch_prefix := prefix |} in
  let https := {| url := ("https://" +:+ (host +:+ String "/" path)) +:+ ".git"; token := tok;
                  default_branch := branch; branch_prefix := prefix |} in
  get_web_url ssh = Py.Ok ("https://" +:+ (host +:+ String "/" path))
  /\ get_web_url https = Py.Ok ("https://" +:+ (host +:+ String "/" path))
  /\ forall dev_branch, get_mr_url ssh dev_branch = get_mr_url https dev_branch.
Proof.
  intros Hc Hg ssh https.
  assert (get_web_url ssh = Py.Ok ("https://" +:+ (host +:+ String "/" path))) as A.
  { unfold get_web_url, ssh. cbn [url].
    assert (Py.startswith "git@" (("git@" +:+ host) +:+ String ":" (path +:+ ".git")) = true)
      as -> by reflexivity.
    rewrite replace_first_char_app.
    2:{ rewrite !app_cons, app_empty. cbn [Py.contains Py.startswith Ascii.eqb Bool.eqb orb].
        exact Hc. }
    unfold replace. rewrite !app_cons, !app_empty.
    cbn [replace_from Py.startswith Ascii.eqb Bool.eqb String.length Nat.sub].
    rewrite <- app_cons, <- app_assoc_string.
    rewrite replace_from_absent by exact Hg.
    unfold remove_git_suffix.
    rewrite <- app_assoc_string. now rewrite without_git_suffix_app. }
  assert (get_web_url https = Py.Ok ("https://" +:+ (host +:+ String "/" path))) as B.
  { unfold get_web_url, https, remove_git_suffix. cbn [url].
    assert (Py.startswith "git@" (("https://" +:+ (host +:+ String "/" path)) +:+ ".git") = false)
      as -> by reflexivity.
    assert (Py.startswith "https://" (("https://" +:+ (host +:+ String "/" path)) +:+ ".git")
            = true) as -> by reflexivity.
    now rewrite without_git_suffix_app. }
  split; [exact A |]. split; [exact B |].
  intros dev_branch. unfold get_mr_url. now rewrite A, B.
Qed.

Lemma web_url_of_ssh_and_https_agree_witness :
  get_web_url {| url := "git@gitlab.com:group/project.git"; token := None;
                 default_branch := "main"; branch_prefix := "ai_" |}
  = Py.Ok "https://gitlab.com/group/project"
  /\ get_web_url {| url := "https://gitlab.com/group/project.git"; token := None;
                    default_branch := "main"; branch_prefix := "ai_" |}
     = Py.Ok "https://gitlab.com/group/project"
  /\ forall dev_branch,
       get_mr_url {| url := "git@gitlab.com:group/project.git"; token := None;
                     default_branch := "main"; branch_prefix := "ai_" |} dev_branch
       = get_mr_url {| url := "https://gitlab.com/group/project.git"; token := None;
                       default_branch := "main"; branch_prefix := "ai_" |} dev_branch.
Proof.
  apply (web_url_of_ssh_and_https_agree "gitlab.com" "group/project" None "main" "ai_");
    reflexivity.
Defined.

End RepoAddress.

Section AuthUrl.

Import ConfigModel.

(** X19. The token goes into an https address once, between the scheme
    and the rest, and into no other address: for a token that is not
    empty and a rest in which ["https://"] does not occur again,
    [get_auth_url] of [https://rest] is [https://token@rest]; an address
    that does not start with ["https://"], or a configuration without a
    token, gives the address itself. *)
Theorem get_auth_url_inserts_token (rest t : string) (branch prefix : string) :
  Py.truthy t = true -> Py.contains "https://" rest = false ->
  get_auth_url {| url := "https://" +:+ rest; token := Some t;
                  default_branch := branch; branch_prefix := prefix |}
  = ("https://" +:+ t +:+ "@") +:+ rest
  /\ forall self, Py.startswith "https://" (url self) = false \/ has_token self = false ->
       get_auth_url self = url self.
Proof.
  intros T N. split.
  - unfold get_auth_url, has_token. cbn [url token from_option]. rewrite T.
    assert (Py.startswith "https://" ("https://" +:+ rest) = true) as -> by reflexivity.
    cbn [andb]. unfold replace. rewrite !app_cons, app_empty.
    cbn [replace_from Py.startswith Ascii.eqb Bool.eqb String.length Nat.sub].
    rewrite replace_from_absent by exact N. reflexivity.
  - intros self [H|H]; unfold get_auth_url; rewrite H; [reflexivity |].
    now destruct (Py.startswith "https://" (url self)).
Qed.

Lemma get_auth_url_inserts_token_witness :
  get_auth_url {| url := "https://github.com/owner/repo.git"; token := Some "s3cr3t";
                  default_branch := "main"; branch_prefix := "ai_" |}
  = "https://s3cr3t@github.com/owner/repo.git"
  /\ forall self, Py.startswith "https://" (url self) = false \/ has_token self = false ->
       get_auth_url self = url self.
Proof.
  apply (get_auth_url_inserts_token "github.com/owner/repo.git" "s3cr3t" "main" "ai_");
    reflexivity.
Defined.

End AuthUrl.

(** ** The cache of a repository: clone_or_sync_repo *)
Section CloneFacts.

Import Json Host GitUtils GitTrail ConfigModel GitClone.

Context {S : Type} (h : host S).

Variable makedirs : S -> string -> S * option string.

Implicit Types (w : world S).

Lemma run_trail cmd cwd w :
  trail (_run_git_command h cmd cwd w).1 = GitCommand cwd cmd :: trail w.
Proof. now rewrite _run_git_command_eq. Qed.

Lemma pushes_run cmd cwd w :
  is_push (GitCommand cwd cmd) = false ->
  pushes (trail (_run_git_command h cmd cwd w).1) = pushes (trail w).
Proof. intros N. rewrite run_trail. unfold pushes. cbn [List.filter]. now rewrite N. Qed.

Lemma pushes_step cmd cwd prefix k w :
  is_push (GitCommand cwd cmd) = false ->
  (forall r w1, pushes (trail (k r w1).1) = pushes (trail w1)) ->
  pushes (trail (step h cmd cwd prefix k w).1) = pushes (trail w).
Proof.
  intros N K. unfold step.
  pose proof (pushes_run cmd cwd w N) as P.
  destruct (_run_git_command h cmd cwd w) as [w1 r]. cbn [fst] in P.
  destruct (success r); [now rewrite K | exact P].
Qed.

Lemma checkout_and_reset_pushes repo_dir branch w :
  pushes (trail (checkout_and_reset h repo_dir branch w).1) = pushes (trail w).
Proof.
  unfold checkout_and_reset.
  apply pushes_step; [reflexivity |]. intros _ w1.
  apply pushes_step; [reflexivity |]. intros _ w2.
  pose proof (pushes_run restore_cmd repo_dir w2 eq_refl) as P3.
  destruct (_run_git_command h restore_cmd repo_dir w2) as [w3 r3]. cbn [fst] in P3.
  pose proof (pushes_run clean_cmd repo_dir w3 eq_refl) as P4.
  destruct (_run_git_command h clean_cmd repo_dir w3) as [w4 r4]. cbn [fst] in P4.
  rewrite pushes_step; [congruence | reflexivity |]. reflexivity.
Qed.

Lemma read_remote_head_pushes repo_dir w :
  pushes (trail (read_remote_head h repo_dir w).1) = pushes (trail w).
Proof.
  unfold read_remote_head.
  pose proof (pushes_run symbolic_ref_cmd repo_dir w eq_refl) as P.
  destruct (_run_git_command h symbolic_ref_cmd repo_dir w) as [w1 r].
  now destruct (success r && Py.truthy (message r))%bool.
Qed.

Lemma _get_remote_default_branch_pushes repo_dir w :
  pushes (trail (_get_remote_default_branch h repo_dir w).1) = pushes (trail w).
Proof.
  unfold _get_remote_default_branch.
  pose proof (read_remote_head_pushes repo_dir w) as P1.
  destruct (read_remote_head h repo_dir w) as [w1 [b|]]; [exact P1 |]. cbn [fst] in P1.
  pose proof (pushes_run set_head_cmd repo_dir w1 eq_refl) as P2.
  destruct (_run_git_command h set_head_cmd repo_dir w1) as [w2 r2]. cbn [fst] in P2.
  assert (pushes (trail (if success r2 then read_remote_head h repo_dir w2 else (w2, None)).1)
          = pushes (trail w)) as P3.
  { destruct (success r2); [rewrite read_remote_head_pushes | cbn [fst]]; congruence. }
  destruct (if success r2 then read_remote_head h repo_dir w2 else (w2, None)) as [w3 [b|]];
    [exact P3 |]. cbn [fst] in P3.
  pose proof (pushes_run branch_r_cmd repo_dir w3 eq_refl) as P4.
  destruct (_run_git_command h branch_r_cmd repo_dir w3) as [w4 r4]. cbn [fst] in P4.
  destruct (success r4); [| cbn [fst]; congruence].
  destruct (Py.contains "origin/main" (message r4)); [cbn [fst]; congruence |].
  destruct (Py.contains "origin/master" (message r4)); cbn [fst]; congruence.
Qed.

Lemma resolve_default_branch_pushes repo_dir cfg w :
  pushes (trail (resolve_default_branch h repo_dir cfg w).1) = pushes (trail w).
Proof.
  unfold resolve_default_branch.
  destruct (Py.truthy (default_branch cfg)); [apply checkout_and_reset_pushes |].
  pose proof (_get_remote_default_branch_pushes repo_dir w) as P.
  destruct (_get_remote_default_branch h repo_dir w) as [w1 r]. cbn [fst] in P.
  destruct (success r); cbn [negb fst]; [| exact P].
  now rewrite checkout_and_reset_pushes.
Qed.

Lemma checkout_and_reset_success repo_dir branch w :
  let x := checkout_and_reset h repo_dir branch w in
  success x.2 = true ->
  trail x.1 = synced_trail repo_dir branch (trail w)
  /\ GitUtils.default_branch x.2 = branch
  /\ message x.2 = "仓库同步成功: " +:+ repo_dir.
Proof.
  cbv zeta. unfold checkout_and_reset. rewrite step_eq.
  destruct (success (answer h repo_dir (st w) fetch_cmd)); [| discriminate].
  rewrite step_eq. destruct (success (answer h repo_dir _ (checkout_cmd branch)));
    [| discriminate].
  rewrite !_run_git_command_eq. rewrite step_eq.
  destruct (success (answer h repo_dir _ (reset_cmd branch))); [| discriminate].
  intros _. split; [reflexivity |]. split; reflexivity.
Qed.

Lemma resolve_default_branch_success repo_dir cfg w :
  let x := resolve_default_branch h repo_dir cfg w in
  success x.2 = true ->
  (exists rest, trail x.1 = synced_trail repo_dir (GitUtils.default_branch x.2) rest)
  /\ (Py.truthy (default_branch cfg) = true -> GitUtils.default_branch x.2 = default_branch cfg)
  /\ message x.2 = "仓库同步成功: " +:+ repo_dir.
Proof.
  cbv zeta. unfold resolve_default_branch.
  destruct (Py.truthy (default_branch cfg)).
  - intros Ok. destruct (checkout_and_reset_success repo_dir (default_branch cfg) w Ok)
      as (T & D & M).
    split; [exists (trail w); now rewrite D |]. split; [intros _; exact D | exact M].
  - destruct (_get_remote_default_branch h repo_dir w) as [w1 r].
    destruct (success r); cbn [negb]; [| discriminate].
    intros Ok. destruct (checkout_and_reset_success repo_dir (message r) w1 Ok) as (T & D & M).
    split; [exists (trail w1); now rewrite D |]. split; [discriminate | exact M].
Qed.

(** X20. [clone_or_sync_repo] never pushes, and when it reports success
    the last commands it ran in the repository are, in this order, the
    fetch, the checkout of the default branch, [git restore .],
    [git clean -fd] and the hard reset to the remote branch, whatever
    restore and clean answered; the branch is the configured one if one
    is configured, and it is returned with the result. *)
Theorem clone_or_sync_repo_resets_to_remote work_dir cfg w :
  let x := clone_or_sync_repo h makedirs work_dir cfg w in
  pushes (trail x.1) = pushes (trail w)
  /\ forall repo_name r,
       name cfg = Py.Ok repo_name -> x.2 = Py.Ok r -> success r = true ->
       (exists rest,
          trail x.1
          = synced_trail (path_join work_dir repo_name) (GitUtils.default_branch r) rest)
       /\ (Py.truthy (default_branch cfg) = true ->
           GitUtils.default_branch r = default_branch cfg)
       /\ message r = "仓库同步成功: " +:+ path_join work_dir repo_name.
Proof.
  cbv zeta. unfold clone_or_sync_repo.
  destruct (name cfg) as [repo_name|e]; [| split; [reflexivity | discriminate]].
  cbv zeta.
  destruct (if negb (path_exists h (st w) work_dir) then makedirs (st w) work_dir
            else (st w, None)) as [s0 [e|]]; [split; [reflexivity |] |].
  { intros n r _ [= <-]. discriminate. }
  set (w0 := {| st := s0; trail := trail w |}).
  set (repo_dir := path_join work_dir repo_name).
  destruct (path_exists h s0 repo_dir).
  - destruct (path_exists h s0 (path_join repo_dir ".git")); cbn [negb].
    + pose proof (resolve_default_branch_pushes repo_dir cfg w0) as P.
      pose proof (resolve_default_branch_success repo_dir cfg w0) as Q. cbv zeta in Q.
      destruct (resolve_default_branch h repo_dir cfg w0) as [w' r']. cbn [fst snd] in *.
      split; [exact P |]. intros n r [= <-] [= <-] Ok. exact (Q Ok).
    + split; [reflexivity |]. intros n r _ [= <-]. discriminate.
  - rewrite step_eq.
    destruct (success (answer h work_dir (st w0) _)).
    + pose proof (resolve_default_branch_pushes repo_dir cfg
                    (record (GitCommand work_dir ["git"; "clone"; get_auth_url cfg; repo_dir])
                       (next h work_dir (st w0) ["git"; "clone"; get_auth_url cfg; repo_dir])
                       w0)) as P.
      pose proof (resolve_default_branch_success repo_dir cfg
                    (record (GitCommand work_dir ["git"; "clone"; get_auth_url cfg; repo_dir])
                       (next h work_dir (st w0) ["git"; "clone"; get_auth_url cfg; repo_dir])
                       w0)) as Q.
      cbv zeta in Q.
      destruct (resolve_default_branch h repo_dir cfg _) as [w' r']. cbn [fst snd] in *.
      split; [exact P |]. intros n r [= <-] [= <-] Ok. exact (Q Ok).
    + split; [reflexivity |]. intros n r _ [= <-]. discriminate.
Qed.

End CloneFacts.

Lemma clone_or_sync_repo_resets_to_remote_witness :
  let cfg := {| ConfigModel.url := "git@github.com:owner/app.git"; ConfigModel.token := None;
                ConfigModel.default_branch := "main"; ConfigModel.branch_prefix := "ai_" |} in
  let x := GitClone.clone_or_sync_repo Bench.bench (fun s _ => (s, None)) "/cache/42/repos" cfg
             (Bench.start (Bench.task7 [] "pending") true true) in
  (exists rest,
     Host.trail x.1 = GitClone.synced_trail (Host.path_join "/cache/42/repos" "app") "main" rest)
  /\ (Py.truthy (ConfigModel.default_branch cfg) = true -> "main" = ConfigModel.default_branch cfg)
  /\ "仓库同步成功: /cache/42/repos/app"
     = "仓库同步成功: " +:+ Host.path_join "/cache/42/repos" "app".
Proof.
  intros cfg x.
  destruct (clone_or_sync_repo_resets_to_remote Bench.bench (fun s _ => (s, None))
              "/cache/42/repos" cfg (Bench.start (Bench.task7 [] "pending") true true))
    as [_ Q].
  apply (Q "app" (GitUtils.Build_GitResult true "仓库同步成功: /cache/42/repos/app" "main" ""));
    reflexivity.
Defined.

(** ** The threads of a client: main.py *)
Section Runner.

Import Host ClientRunner.

Implicit Types (self : runner) (tasks : list Task) (k : string).

Lemma lookup_foldr_delete (m : gmap string TaskWorker) (ks : list string) k :
  foldr delete m ks !! k = if decide (k ∈ ks) then None else m !! k.
Proof.
  induction ks as [|a ks IH]; simpl.
  - destruct (decide (k ∈ [])) as [E|_]; [now apply elem_of_nil in E | reflexivity].
  - destruct (decide (a = k)) as [->|N].
    + rewrite lookup_delete_eq. destruct (decide (k ∈ k :: ks)) as [_|E]; [reflexivity |].
      destruct E. apply elem_of_cons. now left.
    + rewrite lookup_delete_ne by exact N. rewrite IH.
      destruct (decide (k ∈ ks)) as [E|E], (decide (k ∈ a :: ks)) as [E'|E'];
        try reflexivity.
      * destruct E'. apply elem_of_cons. now right.
      * apply elem_of_cons in E' as [->|E']; [now destruct N | now destruct E].
Qed.

Lemma elem_of_keys_to_remove is_alive (running : gset string) (m : gmap string TaskWorker) k :
  k ∈ keys_to_remove is_alive running m
  <-> is_Some (m !! k) /\ (is_alive k = false \/ k ∉ running).
Proof.
  unfold keys_to_remove. rewrite list_elem_of_omap. split.
  - intros ([k' th] & E & H). apply elem_of_map_to_list in E.
    destruct (is_alive k') eqn:A; cbn [negb] in H.
    + destruct (bool_decide (k' ∉ running)) eqn:B; [| discriminate].
      injection H as ->. apply bool_decide_eq_true in B. split; [now exists th | now right].
    + injection H as ->. split; [now exists th | now left].
  - intros ([th E] & H). exists (k, th). split; [now apply elem_of_map_to_list |].
    destruct (is_alive k); cbn [negb]; [| reflexivity].
    destruct H as [H|H]; [discriminate |]. now rewrite bool_decide_eq_true_2.
Qed.

Lemma elem_of_keys_to_stop is_alive (running : gset string) (m : gmap string TaskWorker) k :
  k ∈ keys_to_stop is_alive running m
  <-> is_Some (m !! k) /\ is_alive k = true /\ k ∉ running.
Proof.
  unfold keys_to_stop. rewrite list_elem_of_omap. split.
  - intros ([k' th] & E & H). apply elem_of_map_to_list in E.
    destruct (is_alive k') eqn:A; cbn [negb] in H; [| discriminate].
    destruct (bool_decide (k' ∉ running)) eqn:B; [| discriminate].
    injection H as ->. apply bool_decide_eq_true in B. split; [now exists th | auto].
  - intros ([th E] & A & H). exists (k, th). split; [now apply elem_of_map_to_list |].
    rewrite A. cbn [negb]. now rewrite bool_decide_eq_true_2.
Qed.

(** What [cleanup_finished_threads] leaves registered. *)
Lemma cleanup_finished_threads_lookup is_alive (running : gset string) self k :
  task_threads (cleanup_finished_threads is_alive running self) !! k
  = if decide (is_alive k = true /\ k ∈ running) then task_threads self !! k else None.
Proof.
  unfold cleanup_finished_threads. cbn [task_threads]. rewrite lookup_foldr_delete.
  destruct (decide (k ∈ keys_to_remove is_alive running (task_threads self))) as [E|E].
  - apply elem_of_keys_to_remove in E as [_ [A|R]].
    + destruct (decide _) as [[A' _]|_]; [congruence | reflexivity].
    + destruct (decide _) as [[_ R']|_]; [now destruct R | reflexivity].
  - destruct (decide _) as [_|N]; [reflexivity |].
    destruct (task_threads self !! k) as [th|] eqn:L; [| reflexivity].
    destruct E. apply elem_of_keys_to_remove. split; [now exists th |].
    destruct (is_alive k); [right | now left].
    intros R. now destruct N.
Qed.

(** The loop that starts workers, from any registry. *)
Lemma foldl_start_worker tasks :
  forall self,
    let self' := foldl start_worker self tasks in
    (forall k, is_Some (task_threads self' !! k)
               <-> is_Some (task_threads self !! k) \/ k ∈ key <$> tasks)
    /\ (forall k th, task_threads self !! k = Some th -> task_threads self' !! k = Some th)
    /\ stop_calls self' = stop_calls self
    /\ exists new, started self' = (new ++ started self)%list
         /\ NoDup new
         /\ forall k, k ∈ new <-> k ∈ key <$> tasks /\ ~ is_Some (task_threads self !! k).
Proof.
  induction tasks as [|task tasks IH]; intros self; cbn [foldl fmap list_fmap].
  - split; [| split; [| split]].
    + intros k. rewrite elem_of_nil. tauto.
    + auto.
    + reflexivity.
    + exists []. split; [reflexivity |]. split; [constructor |].
      intros k. rewrite !elem_of_nil. tauto.
  - destruct (IH (start_worker self task)) as (D & K & St & new & N1 & N2 & N3).
    unfold start_worker in D, K, St, N1, N3 |- *.
    destruct (decide (is_Some (task_threads self !! key task))) as [Y|Y].
    + split; [| split; [| split]].
      * intros k. rewrite D, elem_of_cons. split; [tauto |].
        intros [H|[->|H]]; auto.
      * exact K.
      * exact St.
      * exists new. split; [exact N1 |]. split; [exact N2 |].
        intros k. rewrite N3, elem_of_cons. split; [tauto |].
        intros [[->|H] H']; [now destruct H' | auto].
    + cbn [task_threads stop_calls started] in D, K, St, N1, N3.
      split; [| split; [| split]].
      * intros k. rewrite D, elem_of_cons, lookup_insert_is_Some. split.
        -- intros [[E|[_ H]]|H]; auto.
        -- intros [H|[->|H]]; [| auto | auto].
           destruct (decide (key task = k)) as [E|E]; auto.
      * intros k th L. apply K. rewrite lookup_insert_ne; [exact L |].
        intros <-. destruct Y. now exists th.
      * exact St.
      * exists (new ++ [key task])%list. split; [now rewrite N1, <- app_assoc |].
        split.
        -- apply NoDup_app. split; [exact N2 |]. split; [| apply NoDup_singleton].
           intros k Hk Hk'. apply list_elem_of_singleton in Hk' as ->.
           apply N3 in Hk as [_ Hk]. destruct Hk. rewrite lookup_insert_eq. now eexists.
        -- intros k. rewrite elem_of_app, N3, list_elem_of_singleton, elem_of_cons,
             lookup_insert_is_Some.
           split.
           ++ intros [[H H'] | ->]; [| split; [now left | exact Y]].
              split; [now right |]. intros H''. destruct H'.
              destruct (decide (key task = k)) as [E|E]; auto.
           ++ intros [[->|H] H']; [now right |].
              destruct (decide (key task = k)) as [E|E]; [right; now symmetry |].
              left. split; [exact H |]. intros [E'|[_ H'']]; auto.
Qed.

(** X21. One turn of the client's loop. If the heartbeat or the fetch
    of the running tasks raises, the registry of threads is left as it
    is: nothing is stopped or started. Otherwise the registry afterwards
    holds exactly the keys of the fetched tasks; a thread that is alive
    and whose task is still running stays, the same worker; a thread is
    told to stop exactly if it is alive and its task is no longer
    running; and a worker is created, once, for every fetched key that is
    not kept. *)
Theorem poll_keeps_one_worker_per_running_task heartbeat fetched is_alive self :
  (forall e, poll (Some e) fetched is_alive self = self)
  /\ (forall e, poll heartbeat (Py.Raise e) is_alive self = self)
  /\ forall tasks,
       let self' := poll None (Py.Ok tasks) is_alive self in
       let kept k := is_Some (task_threads self !! k) /\ is_alive k = true
                     /\ k ∈ key <$> tasks in
       (forall k, is_Some (task_threads self' !! k) <-> k ∈ key <$> tasks)
       /\ (forall k th, kept k -> task_threads self !! k = Some th ->
             task_threads self' !! k = Some th)
       /\ (forall k, k ∈ stop_calls self'
                     <-> k ∈ stop_calls self
                         \/ (is_Some (task_threads self !! k) /\ is_alive k = true
                             /\ k ∉ key <$> tasks))
       /\ exists new, started self' = (new ++ started self)%list
            /\ NoDup new
            /\ forall k, k ∈ new <-> k ∈ key <$> tasks /\ ~ kept k.
Proof.
  split; [reflexivity |]. split; [intros e; now destruct heartbeat |].
  intros tasks. cbv zeta. unfold poll.
  set (running := list_to_set (key <$> tasks) : gset string).
  assert (forall k, k ∈ running <-> k ∈ key <$> tasks) as R
    by (intros k; unfold running; now rewrite elem_of_list_to_set).
  destruct (foldl_start_worker tasks (cleanup_finished_threads is_alive running self))
    as (D & K & St & new & N1 & N2 & N3).
  cbv zeta in D, K, St, N1, N3.
  assert (forall k, is_Some (task_threads (cleanup_finished_threads is_alive running self) !! k)
                    <-> is_Some (task_threads self !! k) /\ is_alive k = true
                        /\ k ∈ key <$> tasks) as C.
  { intros k. rewrite cleanup_finished_threads_lookup.
    destruct (decide _) as [[A B]|N].
    - apply R in B. tauto.
    - split; [intros [? [=]] |]. intros (_ & A & B). destruct N. split; [exact A | now apply R]. }
  split; [| split; [| split]].
  - intros k. rewrite D, C. tauto.
  - intros k th (_ & A & B) L. apply K. rewrite cleanup_finished_threads_lookup.
    destruct (decide _) as [_|N]; [exact L |]. destruct N. split; [exact A | now apply R].
  - intros k. rewrite St. unfold cleanup_finished_threads. cbn [stop_calls].
    rewrite elem_of_union, elem_of_list_to_set, elem_of_keys_to_stop, R. tauto.
  - exists new. split; [exact N1 |]. split; [exact N2 |].
    intros k. rewrite N3, C. tauto.
Qed.

End Runner.

(** ** The statuses a worker sends *)
Section StatusesSent.

Import Json Host Worker WorkerTrail.

Context {S : Type} (h : host S).

Implicit Types (impl : node_impl (S := S)) (t : Task) (w : world S).

Lemma statuses_rpc task_id fs f t w :
  statuses_sent (trail (rpc_update_task_flow h task_id (Some fs) f t w).1.1)
  = fs :: statuses_sent (trail w).
Proof.
  unfold rpc_update_task_flow.
  now destruct (update_task_flow h (st w) task_id (Some fs) f) as [s r].
Qed.

Lemma statuses_staged name (m : M unit) t w :
  quiet m -> statuses_sent (trail (staged name m t w).1.1) = statuses_sent (trail w).
Proof. intros Q. unfold staged. now rewrite Q. Qed.

Lemma _execute_and_persist_statuses impl current executing next name main t w :
  quiet (before_execute impl) -> quiet main -> quiet (after_execute impl) ->
  exists new,
    statuses_sent (trail (_execute_and_persist h impl current executing next name main t w).1.1)
    = (new ++ statuses_sent (trail w))%list
    /\ forall s, s ∈ new -> (s = executing /\ current <> executing) \/ s = next.
Proof.
  intros Qb Qm Qa. unfold _execute_and_persist, bind.
  assert (exists pre,
            (let x := (if decide (current = executing) then ret true
                       else fun t => rpc_update_task_flow h (id t) (Some executing) None t) t w in
             statuses_sent (trail x.1.1) = (pre ++ statuses_sent (trail w))%list)
            /\ forall s, s ∈ pre -> s = executing /\ current <> executing) as (pre & P & Pin).
  { destruct (decide (current = executing)) as [E|N].
    - exists []. split; [reflexivity |]. intros s H. now apply elem_of_nil in H.
    - exists [executing]. split; [apply statuses_rpc |].
      intros s H. apply list_elem_of_singleton in H as ->. auto. }
  cbv zeta in P.
  destruct ((if decide (current = executing) then ret true
             else fun t => rpc_update_task_flow h (id t) (Some executing) None t) t w)
    as [[w0 t0] [b|e0]]; cbn [fst] in P.
  2:{ exists pre. split; [cbn [fst]; exact P |]. intros s H. left. auto. }
  pose proof (statuses_staged "before_execute" _ t0 w0 Qb) as P1.
  destruct (staged "before_execute" (before_execute impl) t0 w0) as [[w1 t1] [[]|e1]];
    cbn [fst] in P1.
  2:{ exists pre. split; [cbn [fst]; congruence |]. intros s H. left. auto. }
  pose proof (statuses_staged name _ t1 w1 Qm) as P2.
  destruct (staged name main t1 w1) as [[w2 t2] [[]|e2]]; cbn [fst] in P2.
  2:{ exists pre. split; [cbn [fst]; congruence |]. intros s H. left. auto. }
  pose proof (statuses_staged "after_execute" _ t2 w2 Qa) as P3.
  destruct (staged "after_execute" (after_execute impl) t2 w2) as [[w3 t3] [[]|e3]];
    cbn [fst] in P3.
  2:{ exists pre. split; [cbn [fst]; congruence |]. intros s H. left. auto. }
  pose proof (statuses_rpc (id t3) next (Some (flow t3)) t3 w3) as P4.
  destruct (rpc_update_task_flow h (id t3) (Some next) (Some (flow t3)) t3 w3)
    as [[w4 t4] [b4|e4]]; cbn [fst] in P4.
  - exists (next :: pre). split; [cbn [app ret fst]; congruence |].
    intros s H. apply elem_of_cons in H as [->|H]; auto.
  - exists (next :: pre). split; [cbn [app fst]; congruence |].
    intros s H. apply elem_of_cons in H as [->|H]; auto.
Qed.

Lemma execute_statuses impl t w :
  quiet_node impl ->
  exists new,
    statuses_sent (trail (execute h impl t w).1.1) = (new ++ statuses_sent (trail w))%list
    /\ forall s, s ∈ new -> allowed (flow_status t) s.
Proof.
  intros (Qb & Qp & Qv & Qr & Qa). rewrite execute_dispatch. cbv zeta.
  destruct (decide (flow_status t = "pending" \/ flow_status t = "running")) as [E|_].
  - destruct (_execute_and_persist_statuses impl (flow_status t) "running" "reviewing"
                "execute_for_pending" (execute_for_pending impl) t w Qb Qp Qa)
      as (new & P & Pin).
    exists new. split; [exact P |]. intros s H. apply Pin in H as [[-> N]| ->].
    + left. split; [reflexivity |]. now destruct E.
    + right. left. split; [reflexivity |]. tauto.
  - destruct (decide (flow_status t = "revising")) as [E|_].
    + destruct (_execute_and_persist_statuses impl (flow_status t) "revising" "reviewing"
                  "execute_for_revising" (execute_for_revising impl) t w Qb Qv Qa)
        as (new & P & Pin).
      exists new. split; [exact P |]. intros s H. apply Pin in H as [[-> N]| ->].
      * now destruct N.
      * right. left. split; [reflexivity |]. tauto.
    + destruct (decide (flow_status t = "reviewed")) as [E|_].
      * destruct (_execute_and_persist_statuses impl (flow_status t) "reviewed" "done"
                    "execute_for_reviewed" (execute_for_reviewed impl) t w Qb Qr Qa)
          as (new & P & Pin).
        exists new. split; [exact P |]. intros s H. apply Pin in H as [[-> N]| ->].
        -- now destruct N.
        -- right. right. split; [reflexivity | exact E].
      * exists []. split.
        -- now destruct (decide (flow_status t ∈ ["reviewing"; "done"; "error"; "client_error"])).
        -- intros s H. now apply elem_of_nil in H.
Qed.

Lemma on_exception_statuses e t w :
  statuses_sent (trail (outside (on_exception h e t w).1))
  = "client_error" :: statuses_sent (trail w).
Proof.
  unfold on_exception. cbv zeta.
  pose proof (statuses_rpc (id (with_error e t)) "client_error"
                (Some (flow (with_error e t))) (with_error e t) w) as P.
  destruct (rpc_update_task_flow h (id (with_error e t)) (Some "client_error")
              (Some (flow (with_error e t))) (with_error e t) w) as [[w1 t1] [b|e']];
    exact P.
Qed.

(** X22. The statuses a worker sends in one turn of its loop, when the
    hooks of the node send none themselves: [running] only for a task
    fetched as [pending], [reviewing] only for one fetched as [pending],
    [running] or [revising], [done] only for one fetched as [reviewed],
    and after any of these at most one [client_error], sent last;
    nothing is sent for a task fetched with a status that has [error]
    in it. So a task is never marked [done] unless the server's copy
    said [reviewed]. *)
Theorem run_once_sends_allowed_statuses impl (th : thread (S := S)) :
  quiet_node impl ->
  let fetched := (get_task h (st (outside th)) (id (task th))).2 in
  exists new,
    statuses_sent (trail (outside (run_once h impl th).1))
    = (new ++ statuses_sent (trail (outside th)))%list
    /\ (forall t, fetched = Py.Ok t -> Py.contains "error" (flow_status t) = true -> new = [])
    /\ forall s rest, new = s :: rest ->
         (s = "client_error" \/ exists t, fetched = Py.Ok t /\ allowed (flow_status t) s)
         /\ forall s', s' ∈ rest -> exists t, fetched = Py.Ok t /\ allowed (flow_status t) s'.
Proof.
  intros Q. cbv zeta. unfold run_once. cbv zeta.
  destruct (get_task h (st (outside th)) (id (task th))) as [s1 [t|e]]; cbn [snd].
  - destruct (Py.contains "error" (flow_status t)) eqn:Er.
    + exists []. split; [reflexivity |]. split; [reflexivity |]. intros s rest [=].
    + destruct (sync_config h _) as [s2 [e|]].
      * exists ["client_error"]. split; [now rewrite on_exception_statuses |].
        split; [intros t' [= <-]; congruence |].
        intros s rest [= <- <-]. split; [now left |]. intros s' H. now apply elem_of_nil in H.
      * destruct (execute_statuses impl t
                    (record RpcSyncConfig s2 (record (RpcGetTask (id (task th))) s1 (outside th)))
                    Q) as (new & P & Pin).
        destruct (execute h impl t _) as [[w3 t3] [[]|e]]; cbn [fst] in P.
        -- exists new. split; [exact P |]. split; [intros t' [= <-]; congruence |].
           intros s rest ->. split.
           ++ right. exists t. split; [reflexivity |]. apply Pin. apply elem_of_cons. now left.
           ++ intros s' H. exists t. split; [reflexivity |]. apply Pin. apply elem_of_cons.
              now right.
        -- exists ("client_error" :: new). split.
           ++ rewrite on_exception_statuses. cbn [app]. now rewrite P.
           ++ split; [intros t' [= <-]; congruence |].
              intros s rest [= <- <-]. split; [now left |].
              intros s' H. exists t. split; [reflexivity |]. now apply Pin.
  - exists ["client_error"]. split; [now rewrite on_exception_statuses |].
    split; [discriminate |].
    intros s rest [= <- <-]. split; [now left |]. intros s' H. now apply elem_of_nil in H.
Qed.

End StatusesSent.

Lemma run_once_sends_allowed_statuses_witness :
  let idle : Worker.node_impl (S := Bench.machine) :=
    {| Worker.node_name := "code_develop";
       Worker.execute_for_pending := Worker.ret tt;
       Worker.execute_for_reviewed := Worker.ret tt;
       Worker.execute_for_revising := Worker.ret tt;
       Worker.before_execute := Worker.ret tt;
       Worker.after_execute := Worker.ret tt |} in
  let fetched :=
    (Host.get_task Bench.bench (Host.st (Worker.outside Bench.pending))
       (Host.id (Worker.task Bench.pending))).2 in
  exists new,
    WorkerTrail.statuses_sent
      (Host.trail (Worker.outside (Worker.run_once Bench.bench idle Bench.pending).1))
    = (new ++ WorkerTrail.statuses_sent (Host.trail (Worker.outside Bench.pending)))%list
    /\ (forall t, fetched = Py.Ok t -> Py.contains "error" (Host.flow_status t) = true ->
        new = [])
    /\ forall s rest, new = s :: rest ->
         (s = "client_error"
          \/ exists t, fetched = Py.Ok t /\ WorkerTrail.allowed (Host.flow_status t) s)
         /\ forall s', s' ∈ rest ->
              exists t, fetched = Py.Ok t /\ WorkerTrail.allowed (Host.flow_status t) s'.
Proof.
  intros idle fetched.
  apply (run_once_sends_allowed_statuses Bench.bench idle Bench.pending).
  repeat split.
Defined.

(** ** The heartbeat route and the lease table *)
Section HeartbeatRouteTable.

Import Json HeartbeatDao HeartbeatSeries AuthPlugin ClientRoutes.



End HeartbeatRouteTable.

(** ** The status of a task *)
Section TaskStatus.

Import Json TaskDao TaskService.

Implicit Types (tbl : table) (t : Task).


End TaskStatus.
